(** * llama-switch: the process supervisor, log monitor and gateway of
    [server.py], embedded as pure functions over an explicit service state.

    Conventions of the embedding.
    - Python [str] is [string]; a character is one of the code points
      U+0000..U+00FF (Rocq's 8-bit [ascii]).
    - Python [int] is [Z].  [float(...)] of a decimal literal is the rational
      that the literal denotes ([Q], in lowest terms); the rounding to
      binary64 that Python applies afterwards is not modelled.
    - Every block run under [state.lock] is one atomic function on
      [ServiceState]; what the operating system decides (free port, spawn
      result, how a process dies) is an explicit argument. *)

From Stdlib Require Import ZArith QArith Qreduction String Ascii List Lia Bool.
From Stdlib Require Import DecimalString.
From stdpp Require Import gmap strings.

Local Open Scope string_scope.
Local Open Scope Z_scope.

(* ===================================================================== *)
(** ** Text primitives *)
(* ===================================================================== *)

Module Text.

(** [str.isspace()] on one character, which is also what [\s] matches in a
    [str] pattern: TAB..CR, FS..US, SPACE, NEL and NBSP. *)
Definition isspace (c : ascii) : bool :=
  let n := nat_of_ascii c in
  ((9 <=? n) && (n <=? 13))%nat || ((28 <=? n) && (n <=? 32))%nat
  || (n =? 133)%nat || (n =? 160)%nat.

(** [\d]: the decimal digits. *)
Definition isdigit (c : ascii) : bool :=
  let n := nat_of_ascii c in ((48 <=? n) && (n <=? 57))%nat.

(** [[\d\.]]. *)
Definition isdigit_or_dot (c : ascii) : bool :=
  isdigit c || Ascii.eqb c ".".

(** [s.startswith(p)]. *)
Fixpoint startswith (p s : string) : bool :=
  match p, s with
  | EmptyString, _ => true
  | String a p', String b s' => Ascii.eqb a b && startswith p' s'
  | String _ _, EmptyString => false
  end.

(** [needle in hay]. *)
Fixpoint contains (needle hay : string) : bool :=
  startswith needle hay ||
  match hay with
  | EmptyString => false
  | String _ hay' => contains needle hay'
  end.

(** [s.rstrip()]: drop the trailing run of [isspace] characters. *)
Fixpoint rstrip (s : string) : string :=
  match s with
  | EmptyString => EmptyString
  | String c s' =>
      match rstrip s' with
      | EmptyString => if isspace c then EmptyString else String c EmptyString
      | r => String c r
      end
  end.

(** [s.replace(old, new)] for a non-empty [old]: scan left to right, replace
    each occurrence and resume after it.  [skip] counts the characters of an
    occurrence that still have to be dropped. *)
Fixpoint replace_from (skip : nat) (old new s : string) : string :=
  match s with
  | EmptyString => EmptyString
  | String c s' =>
      match skip with
      | S k => replace_from k old new s'
      | O =>
          if startswith old s
          then new ++ replace_from (String.length old - 1) old new s'
          else String c (replace_from O old new s')
      end
  end.

Definition replace (old new s : string) : string := replace_from O old new s.

(** [str(n)] for an [int]. *)
Definition str (n : Z) : string := NilZero.string_of_int (Z.to_int n).

(** Value of a digit character. *)
Definition digit_val (c : ascii) : Z := Z.of_nat (nat_of_ascii c) - 48.

Fixpoint digits_val (acc : Z) (s : string) : Z :=
  match s with
  | EmptyString => acc
  | String c s' => digits_val (10 * acc + digit_val c) s'
  end.

Fixpoint all_chars (p : ascii -> bool) (s : string) : bool :=
  match s with
  | EmptyString => true
  | String c s' => p c && all_chars p s'
  end.

(** [sys.int_info.default_max_str_digits]: the most digits [int] converts. *)
Definition max_str_digits : nat := 4300.

(** [int(s)] on the strings the log patterns can capture: a non-empty run
    of at most [max_str_digits] digits (leading zeros count) is its value,
    anything else raises [ValueError] ([None]). *)
Definition int (s : string) : option Z :=
  match s with
  | EmptyString => None
  | _ =>
      if all_chars isdigit s && (String.length s <=? max_str_digits)%nat
      then Some (digits_val 0 s)
      else None
  end.

(** Split at the first ["."]. *)
Fixpoint split_dot (s : string) : string * option string :=
  match s with
  | EmptyString => (EmptyString, None)
  | String c s' =>
      if Ascii.eqb c "." then (EmptyString, Some s')
      else let '(a, b) := split_dot s' in (String c a, b)
  end.

(** [float(s)] on the strings [[\d\.]+] can capture: digits with at most one
    dot and at least one digit; anything else raises [ValueError]. *)
Definition float (s : string) : option Q :=
  match split_dot s with
  | (ip, None) =>
      match ip with
      | EmptyString => None
      | _ => if all_chars isdigit ip then Some (inject_Z (digits_val 0 ip)) else None
      end
  | (ip, Some fp) =>
      if all_chars isdigit ip && all_chars isdigit fp
         && negb ((String.length ip + String.length fp =? 0)%nat)
      then Some (Qred (Qmake (digits_val 0 (ip ++ fp))
                             (Z.to_pos (10 ^ Z.of_nat (String.length fp)))))
      else None
  end.

End Text.

(* ===================================================================== *)
(** ** The fragment of Python's [re] that the log patterns use *)
(* ===================================================================== *)

Module Regex.

(** One member of a character set. *)
Inductive item : Type :=
  | IChar (c : ascii)   (* a literal or escaped punctuation character *)
  | ISpace              (* \s *)
  | IDigit.             (* \d *)

Inductive quant : Type := One | Star | Plus.

(** A quantified character set, possibly wrapped in a capturing group. *)
Record atom : Type := Atom { set : list item; rep : quant; cap : bool }.

Definition item_matches (i : item) (c : ascii) : bool :=
  match i with
  | IChar d => Ascii.eqb d c
  | ISpace => Text.isspace c
  | IDigit => Text.isdigit c
  end.

Definition cls (a : atom) (c : ascii) : bool := existsb (fun i => item_matches i c) (set a).

(** *** Compiling a pattern string *)

Inductive token : Type := TChr (c : ascii) | TEsc (c : ascii).

Fixpoint lex (s : string) : list token :=
  match s with
  | EmptyString => []
  | String c s' =>
      if Ascii.eqb c "\" then
        match s' with
        | String d s'' => TEsc d :: lex s''
        | EmptyString => [TChr c]
        end
      else TChr c :: lex s'
  end.

Definition esc_item (c : ascii) : item :=
  if Ascii.eqb c "s" then ISpace else if Ascii.eqb c "d" then IDigit else IChar c.

(** Parser state: atoms read so far (latest first), the open character set
    if any, and the number of atoms read inside the open group if any. *)
Record pstate : Type :=
  PState { out : list atom; inset : option (list item); ingroup : option nat }.

Definition push (a : atom) (st : pstate) : option pstate :=
  Some (PState (a :: out st) None (option_map S (ingroup st))).

Definition requant (q : quant) (st : pstate) : option pstate :=
  match out st with
  | Atom i One false :: r => Some (PState (Atom i q false :: r) None (ingroup st))
  | _ => None
  end.

Definition is_meta (c : ascii) : bool :=
  existsb (Ascii.eqb c) (list_ascii_of_string ".^$?{}|\").

Definition pstep (st : pstate) (t : token) : option pstate :=
  match inset st with
  | Some items =>
      match t with
      | TEsc c => Some (PState (out st) (Some (items ++ [esc_item c])%list) (ingroup st))
      | TChr c =>
          if Ascii.eqb c "]" then push (Atom items One false) st
          else Some (PState (out st) (Some (items ++ [IChar c])%list) (ingroup st))
      end
  | None =>
      match t with
      | TEsc c => push (Atom [esc_item c] One false) st
      | TChr c =>
          if Ascii.eqb c "[" then Some (PState (out st) (Some []) (ingroup st))
          else if Ascii.eqb c "(" then
            match ingroup st with
            | None => Some (PState (out st) None (Some O))
            | Some _ => None
            end
          else if Ascii.eqb c ")" then
            match ingroup st, out st with
            | Some 1%nat, Atom i q false :: r => Some (PState (Atom i q true :: r) None None)
            | _, _ => None
            end
          else if Ascii.eqb c "*" then requant Star st
          else if Ascii.eqb c "+" then requant Plus st
          else if is_meta c then None
          else push (Atom [IChar c] One false) st
      end
  end.

Fixpoint pfold (st : pstate) (ts : list token) : option pstate :=
  match ts with
  | [] => Some st
  | t :: ts' => match pstep st t with Some st' => pfold st' ts' | None => None end
  end.

(** [re.compile(pattern)], for patterns made of literals, [\s], [\d],
    escaped punctuation, bracketed sets, [*], [+] and capturing groups
    around one quantified set; [None] for anything else. *)
Definition compile (pattern : string) : option (list atom) :=
  match pfold (PState [] None None) (lex pattern) with
  | Some (PState o None None) => Some (rev o)
  | _ => None
  end.

(** *** Matching *)

(** Greedy repetition of a set: take as many characters as possible, and
    give one back at a time while the continuation [k] fails.  [k] receives
    the text consumed and the text left. *)
Fixpoint greedy {R : Type} (p : ascii -> bool) (k : string -> string -> option R)
    (s : string) : option R :=
  match s with
  | String c s' =>
      if p c then
        match greedy p (fun m r => k (String c m) r) s' with
        | Some x => Some x
        | None => k EmptyString s
        end
      else k EmptyString s
  | EmptyString => k EmptyString s
  end.

(** Match the atoms at the start of [s]; the result is the list of captured
    groups of the first match in backtracking order. *)
Fixpoint match_here (r : list atom) (s : string) : option (list string) :=
  match r with
  | [] => Some []
  | a :: r' =>
      let k := fun m rest =>
        option_map (fun caps => if cap a then m :: caps else caps) (match_here r' rest) in
      match rep a with
      | One =>
          match s with
          | String c s' => if cls a c then k (String c EmptyString) s' else None
          | EmptyString => None
          end
      | Star => greedy (cls a) k s
      | Plus =>
          match s with
          | String c s' =>
              if cls a c then greedy (cls a) (fun m rest => k (String c m) rest) s' else None
          | EmptyString => None
          end
      end
  end.

(** [pattern.search(s)]: the first position, from the left, where the
    pattern matches; the result holds [group(1)], [group(2)], ... *)
Fixpoint search (r : list atom) (s : string) : option (list string) :=
  match match_here r s with
  | Some caps => Some caps
  | None =>
      match s with
      | String _ s' => search r s'
      | EmptyString => None
      end
  end.

End Regex.

(* ===================================================================== *)
(** ** Data model *)
(* ===================================================================== *)

(** What the service does to the outside world, in order. *)
Inductive signal : Type := SIGTERM | SIGKILL.

Inductive effect : Type :=
  | Print (msg : string)
  | KillPg (pid : Z) (sig : signal)       (* os.killpg(os.getpgid(pid), sig) delivered *)
  | WaitProc (pid : Z) (timeout : Z)      (* process.wait(timeout=...) *)
  | SpawnShell (cmd : string) (pid : Z)   (* subprocess.Popen(cmd, shell=True, ...) succeeded *)
  | StartLogReader (pid : Z)              (* threading.Thread(target=log_reader, ...).start() *)
  | Sleep (seconds : Z).                  (* asyncio.sleep(seconds) *)

(** [subprocess.Popen] handle.  [returncode] is what [poll()] reports:
    [None] while the process is alive. *)
Record Popen : Type := { pid : Z; returncode : option Z }.

Definition poll (p : Popen) : option Z := returncode p.

(** [state.stats]. *)
Record Stats : Type := {
  ctx_used : Z;
  ctx_limit : Z;
  total_tokens : Z;
  prompt_speed : Q;
  gen_speed : Q
}.

Definition zero_stats : Stats :=
  {| ctx_used := 0; ctx_limit := 0; total_tokens := 0; prompt_speed := 0; gen_speed := 0 |}.

(** One entry of the [models] mapping: the fields of the model, of which
    the service reads ["cmd"]. *)
Abbreviation ModelConf := (gmap string string).

(** [ConfigManager] (the watcher thread and the callback are events of the
    service, below). *)
Record ConfigManager : Type := {
  config_file : string;
  watch : bool;
  models : gmap string ModelConf;
  last_mtime : Z
}.

(** [ServiceState]. *)
Record ServiceState : Type := {
  process : option Popen;
  current_model : option string;
  current_ctx : Z;
  current_port : Z;
  default_ctx : Z;
  host : string;
  ready : bool;
  logs : list string;
  config_mgr : option ConfigManager;
  stats : Stats
}.

(** [ServiceState()] *)
Definition ServiceState_init : ServiceState := {|
  process := None;
  current_model := None;
  current_ctx := 0;
  current_port := 0;
  default_ctx := 4096;
  host := "0.0.0.0";
  ready := false;
  logs := [];
  config_mgr := None;
  stats := zero_stats
|}.

(** Field assignments. *)
Definition set_ready (b : bool) (s : ServiceState) : ServiceState :=
  {| process := process s; current_model := current_model s; current_ctx := current_ctx s;
     current_port := current_port s; default_ctx := default_ctx s; host := host s;
     ready := b; logs := logs s; config_mgr := config_mgr s; stats := stats s |}.

Definition set_stats (st : Stats) (s : ServiceState) : ServiceState :=
  {| process := process s; current_model := current_model s; current_ctx := current_ctx s;
     current_port := current_port s; default_ctx := default_ctx s; host := host s;
     ready := ready s; logs := logs s; config_mgr := config_mgr s; stats := st |}.

Definition set_logs (l : list string) (s : ServiceState) : ServiceState :=
  {| process := process s; current_model := current_model s; current_ctx := current_ctx s;
     current_port := current_port s; default_ctx := default_ctx s; host := host s;
     ready := ready s; logs := l; config_mgr := config_mgr s; stats := stats s |}.

Definition set_process (p : option Popen) (s : ServiceState) : ServiceState :=
  {| process := p; current_model := current_model s; current_ctx := current_ctx s;
     current_port := current_port s; default_ctx := default_ctx s; host := host s;
     ready := ready s; logs := logs s; config_mgr := config_mgr s; stats := stats s |}.

Definition set_config_mgr (c : option ConfigManager) (s : ServiceState) : ServiceState :=
  {| process := process s; current_model := current_model s; current_ctx := current_ctx s;
     current_port := current_port s; default_ctx := default_ctx s; host := host s;
     ready := ready s; logs := logs s; config_mgr := c; stats := stats s |}.

Definition set_prompt_speed (v : Q) (st : Stats) : Stats :=
  {| ctx_used := ctx_used st; ctx_limit := ctx_limit st; total_tokens := total_tokens st;
     prompt_speed := v; gen_speed := gen_speed st |}.

Definition set_gen (v : Q) (n : Z) (st : Stats) : Stats :=
  {| ctx_used := ctx_used st; ctx_limit := ctx_limit st; total_tokens := total_tokens st + n;
     prompt_speed := prompt_speed st; gen_speed := v |}.

Definition set_ctx_used (used : Z) (cur_ctx : Z) (st : Stats) : Stats :=
  {| ctx_used := used; ctx_limit := if 0 <? cur_ctx then cur_ctx else ctx_limit st;
     total_tokens := total_tokens st; prompt_speed := prompt_speed st; gen_speed := gen_speed st |}.

(* ===================================================================== *)
(** ** Config Manager *)
(* ===================================================================== *)

(** What [yaml.safe_load] returned.  [YMapping entry] is a mapping, and
    [entry] is its ["models"] value, a mapping from keys to mappings of
    strings, or [None] when the document has no ["models"] key.  [YOther]
    is a document without [get] (an empty document, a scalar, a list), on
    which [reload] raises before it assigns anything.  A document that is a
    mapping is taken to be well-typed: a ["models"] value of another shape
    (null, a list, a scalar) or an entry that is not a mapping of strings
    has no representation here. *)
Inductive yaml_doc : Type :=
  | YMapping (models_entry : option (gmap string ModelConf))
  | YOther.

(** What [reload] finds on disk. *)
Inductive file_view : Type :=
  | FileMissing                              (* os.path.exists is False *)
  | FileRaises (msg : string)                (* stat, open or safe_load raises *)
  | FileLoaded (mtime : Z) (doc : yaml_doc).

Definition ConfigManager_reload (fs : file_view) (cm : ConfigManager)
  : ConfigManager * list effect :=
  match fs with
  | FileMissing =>
      ({| config_file := config_file cm; watch := watch cm; models := ∅;
          last_mtime := last_mtime cm |},
       [Print ("[Config] Error: " ++ config_file cm ++ " not found")])
  | FileRaises msg => (cm, [Print ("[Config] Failed to load config: " ++ msg)])
  | FileLoaded mtime YOther =>
      (cm, [Print "[Config] Failed to load config: object has no attribute 'get'"])
  | FileLoaded mtime (YMapping entry) =>
      let m := default ∅ entry in
      ({| config_file := config_file cm; watch := watch cm; models := m;
          last_mtime := mtime |},
       [Print ("[Config] Loaded " ++ Text.str (Z.of_nat (size m)) ++ " models from "
               ++ config_file cm)])
  end.

(** [ConfigManager(config_file, watch, on_change)]: empty mapping, then the
    initial load. *)
Definition ConfigManager_new (file : string) (w : bool) (fs : file_view)
  : ConfigManager * list effect :=
  ConfigManager_reload fs
    {| config_file := file; watch := w; models := ∅; last_mtime := 0 |}.

Definition get_models (cm : ConfigManager) : gmap string ModelConf := models cm.

(* ===================================================================== *)
(** ** Process Supervisor *)
(* ===================================================================== *)

(** How the operating system answers the termination sequence of
    [_stop_process_unsafe] when the process is still alive. *)
Inductive kill_outcome : Type :=
  | TermLookupError      (* SIGTERM: ProcessLookupError *)
  | TermExited           (* SIGTERM sent, wait(5) returns *)
  | TermTimeoutKilled    (* SIGTERM sent, wait(5) times out, SIGKILL sent *)
  | TermTimeoutLookupError. (* ... SIGKILL: ProcessLookupError *)

Definition terminate (k : kill_outcome) (p : Popen) : list effect :=
  match poll p with
  | Some _ => []
  | None =>
      match k with
      | TermLookupError => []
      | TermExited => [KillPg (pid p) SIGTERM; WaitProc (pid p) 5]
      | TermTimeoutKilled =>
          [KillPg (pid p) SIGTERM; WaitProc (pid p) 5; KillPg (pid p) SIGKILL]
      | TermTimeoutLookupError => [KillPg (pid p) SIGTERM; WaitProc (pid p) 5]
      end
  end.

Definition _stop_process_unsafe (k : kill_outcome) (s : ServiceState)
  : ServiceState * list effect :=
  match process s with
  | Some p =>
      ({| process := None;
          current_model := None;
          current_ctx := current_ctx s;
          current_port := 0;
          default_ctx := default_ctx s;
          host := host s;
          ready := false;
          logs := logs s;
          config_mgr := config_mgr s;
          stats := zero_stats |},
       ([Print "[Service] Stopping current process..."] ++ terminate k p
        ++ [Print "[Service] Process stopped."])%list)
  | None => (s, [])
  end.

(** Python exceptions the service raises and catches. *)
Inductive exn : Type :=
  | ValueError (msg : string)
  | RuntimeError (msg : string).

Inductive spawn_result : Type :=
  | Spawned (pid : Z)
  | SpawnRaises (msg : string).

(** The operating system's part in one [_start_model_server]: the port
    [find_free_port] returns, how the old process dies, and what [Popen]
    does.  Starting the reader thread is taken to succeed. *)
Record start_env : Type := {
  free_port : Z;
  kill : kill_outcome;
  spawn : spawn_result
}.

(** The six [replace] calls on the command template. *)
Definition resolve_cmd (cmd_template : string) (port ctx : Z) (host : string) : string :=
  let cmd_str := Text.replace "${PORT}" (Text.str port) cmd_template in
  let cmd_str := Text.replace "${CTX}" (Text.str ctx) cmd_str in
  let cmd_str := Text.replace "${HOST}" host cmd_str in
  let cmd_str := Text.replace "$PORT" (Text.str port) cmd_str in
  let cmd_str := Text.replace "$CTX" (Text.str ctx) cmd_str in
  let cmd_str := Text.replace "$HOST" host cmd_str in
  cmd_str.

Record started : Type := { port : Z; command : string }.

Definition _start_model_server (model_key : string) (ctx : option Z)
    (env : start_env) (s : ServiceState)
  : (exn + started) * ServiceState * list effect :=
  match config_mgr s with
  | None => (inl (RuntimeError "Config not initialized"), s, [])
  | Some cm =>
      match get_models cm !! model_key with
      | None => (inl (ValueError "Model not found in config"), s, [])
      | Some model_conf =>
          let cmd_template := default "" (model_conf !! "cmd") in
          let ctx := default (default_ctx s) ctx in
          let port := free_port env in
          let cmd_str := resolve_cmd cmd_template port ctx (host s) in
          let banner :=
            Print ("Starting model " ++ model_key ++ " on " ++ host s ++ ":"
                   ++ Text.str port ++ " with command: " ++ cmd_str) in
          let '(s1, eff) := _stop_process_unsafe (kill env) s in
          match spawn env with
          | Spawned pid =>
              (inr {| port := port; command := cmd_str |},
               {| process := Some {| pid := pid; returncode := None |};
                  current_model := Some model_key;
                  current_ctx := ctx;
                  current_port := port;
                  default_ctx := default_ctx s1;
                  host := host s1;
                  ready := ready s1;
                  logs := logs s1;
                  config_mgr := config_mgr s1;
                  stats := stats s1 |},
               (banner :: eff ++ [SpawnShell cmd_str pid; StartLogReader pid])%list)
          | SpawnRaises msg =>
              (inl (RuntimeError msg), set_process None s1, (banner :: eff)%list)
          end
      end
  end.

(** [on_config_change] and the shutdown part of [lifespan]: both run
    [_stop_process_unsafe] under the lock. *)
Definition on_config_change (k : kill_outcome) (s : ServiceState)
  : ServiceState * list effect :=
  let '(s', eff) := _stop_process_unsafe k s in
  (s', (Print "[Service] Config change detected. Stopping any running model..." :: eff)%list).

(* ===================================================================== *)
(** ** Log Monitor *)
(* ===================================================================== *)

Definition re_prompt : list Regex.atom := Eval vm_compute in
  default [] (Regex.compile
    "prompt eval time\s*=\s*[\d\.]+\s*ms\s*/\s*\d+\s*tokens\s*\(\s*[\d\.]+\s*ms per token,\s*([\d\.]+)\s*tokens per second\)").

Definition re_eval : list Regex.atom := Eval vm_compute in
  default [] (Regex.compile
    "\s+eval time\s*=\s*[\d\.]+\s*ms\s*/\s*(\d+)\s*tokens\s*\(\s*[\d\.]+\s*ms per token,\s*([\d\.]+)\s*tokens per second\)").

Definition re_release : list Regex.atom := Eval vm_compute in
  default [] (Regex.compile "stop processing: n_tokens = (\d+)").

(** [m.group(n)], [n >= 1]. *)
Definition group (n : nat) (caps : list string) : string := nth (n - 1) caps "".

Definition dquote : ascii := ascii_of_nat 34.

(** The text ["msg":"model loaded"], quotes included. *)
Definition json_model_loaded : string :=
  String dquote ("msg" ++ String dquote (":" ++ String dquote ("model loaded" ++ String dquote ""))).

Definition is_ready_marker (decoded : string) : bool :=
  Text.contains "main: model loaded" decoded
  || Text.contains json_model_loaded decoded
  || Text.contains "server is listening on" decoded
  || Text.contains "main: server is listening" decoded.

(** [deque(maxlen=2000).append(x)]. *)
Definition logs_maxlen : nat := 2000.

Definition deque_append (x : string) (q : list string) : list string :=
  let q' := (q ++ [x])%list in
  if (logs_maxlen <? length q')%nat then tl q' else q'.

(** The three statistics blocks of the [try]; [None] is a raised
    [ValueError], which leaves the blocks after it unexecuted. *)
Definition prompt_block (decoded : string) (st : Stats) : option Stats :=
  match Regex.search re_prompt decoded with
  | Some pm =>
      match Text.float (group 1 pm) with
      | Some val => Some (set_prompt_speed val st)
      | None => None
      end
  | None => Some st
  end.

Definition eval_block (decoded : string) (st : Stats) : option Stats :=
  match Regex.search re_eval decoded with
  | Some em =>
      match Text.int (group 1 em) with
      | Some tokens_count =>
          match Text.float (group 2 em) with
          | Some speed_val => Some (set_gen speed_val tokens_count st)
          | None => None
          end
      | None => None
      end
  | None => Some st
  end.

Definition release_block (decoded : string) (cur_ctx : Z) (st : Stats) : option Stats :=
  match Regex.search re_release decoded with
  | Some rm =>
      match Text.int (group 1 rm) with
      | Some used => Some (set_ctx_used used cur_ctx st)
      | None => None
      end
  | None => Some st
  end.

(** The whole [try ... except]: the statistics after the line, and whether
    the handler printed a parsing error. *)
Definition parse_stats (decoded : string) (cur_ctx : Z) (st : Stats) : Stats * bool :=
  match prompt_block decoded st with
  | None => (st, true)
  | Some st1 =>
      match eval_block decoded st1 with
      | None => (st1, true)
      | Some st2 =>
          match release_block decoded cur_ctx st2 with
          | None => (st2, true)
          | Some st3 => (st3, false)
          end
      end
  end.

(** One turn of the [log_reader] loop on a non-empty [line].  The turn
    takes the lock once per block; the blocks of one line are taken
    together here. *)
Definition log_line (line : string) (s : ServiceState) : ServiceState * list effect :=
  let decoded := Text.rstrip line in
  let s := set_logs (deque_append decoded (logs s)) s in
  let s := if is_ready_marker decoded
           then (if negb (ready s) then set_ready true s else s)
           else s in
  let '(st, raised) := parse_stats decoded (current_ctx s) (stats s) in
  (set_stats st s,
   if raised then [Print "[Service] Log parsing error: could not convert string to float"]
   else []).

(* ===================================================================== *)
(** ** Routes *)
(* ===================================================================== *)

(** The dictionary [get_status] returns. *)
Module StatusReport.
Record t : Type := {
  running : bool;
  ready : bool;
  model : option string;
  ctx : Z;
  port : option Z;
  host : string;
  pid : option Z;
  stats : Stats
}.
End StatusReport.

(** [state.process is not None and state.process.poll() is None] *)
Definition is_running (s : ServiceState) : bool :=
  match process s with
  | Some p => match poll p with None => true | Some _ => false end
  | None => false
  end.

Definition get_status (s : ServiceState) : StatusReport.t := {|
  StatusReport.running := is_running s;
  StatusReport.ready := ready s;
  StatusReport.model := current_model s;
  StatusReport.ctx := current_ctx s;
  StatusReport.port := if is_running s then Some (current_port s) else None;
  StatusReport.host := host s;
  StatusReport.pid :=
    match process s with
    | Some p => if is_running s then Some (pid p) else None
    | None => None
    end;
  StatusReport.stats := stats s
|}.

Definition get_logs (s : ServiceState) : list string := logs s.

(** What a route hands back to the framework. *)
Inductive response : Type :=
  | JsonStopped                                         (* {"status": "stopped"} *)
  | JsonStarted (port : Z) (command : string)           (* {"status": "started", ...} *)
  | HTTPException (status_code : Z) (detail : string)
  | StreamingResponse (target_url : string) (status_code : Z) (media_type : option string).

Definition stop_server (k : kill_outcome) (s : ServiceState)
  : response * ServiceState * list effect :=
  let '(s', eff) := _stop_process_unsafe k s in (JsonStopped, s', eff).

(** [StartRequest] *)
Record StartRequest : Type := { model_key : string; req_ctx : option Z }.

Definition start_server (req : StartRequest) (env : start_env) (s : ServiceState)
  : response * ServiceState * list effect :=
  match _start_model_server (model_key req) (req_ctx req) env s with
  | (inr d, s', eff) => (JsonStarted (port d) (command d), s', eff)
  | (inl (ValueError e), s', eff) => (HTTPException 404 e, s', eff)
  | (inl (RuntimeError e), s', eff) => (HTTPException 500 e, s', eff)
  end.

(* ===================================================================== *)
(** ** Gateway *)
(* ===================================================================== *)

(** What happens to the state behind the gateway's back while it sleeps:
    the Log Monitor processes a line, or the backend process exits. *)
Inductive bg_event : Type :=
  | BgLine (line : string)
  | BgExit (code : Z).

Definition proc_exit (code : Z) (s : ServiceState) : ServiceState :=
  match process s with
  | Some p =>
      match returncode p with
      | None => set_process (Some {| pid := pid p; returncode := Some code |}) s
      | Some _ => s
      end
  | None => s
  end.

Definition bg_step (s : ServiceState) (e : bg_event) : ServiceState :=
  match e with
  | BgLine l => fst (log_line l s)
  | BgExit c => proc_exit c s
  end.

Definition run_bg (es : list bg_event) (s : ServiceState) : ServiceState :=
  fold_left bg_step es s.

(** [await request.json()] and [body.get("model")]. *)
Inductive request_body : Type :=
  | InvalidJSON
  | Json (model : option string).

Inductive upstream : Type :=
  | UpstreamResponds (status_code : Z) (content_type : option string)
  | UpstreamRaises (msg : string).

Record proxy_env : Type := {
  start : start_env;                       (* used if the model must be loaded *)
  during_sleep : nat -> list bg_event;     (* what happens during the n-th sleep *)
  backend : upstream
}.

(** The readiness loop
      [retries = 0; while retries < 60: if state.ready: break; sleep(1); retries += 1]
    by recursion on [60 - retries].  Returns the state the loop leaves
    behind and the final value of [retries]. *)
Fixpoint wait_ready (remaining retries : nat) (bg : nat -> list bg_event)
    (s : ServiceState) : ServiceState * nat :=
  match remaining with
  | O => (s, retries)
  | S remaining' =>
      if ready s then (s, retries)
      else wait_ready remaining' (S retries) bg (run_bg (bg retries) s)
  end.

Definition max_retries : nat := 60.

Definition forward (path : string) (env : proxy_env) (s : ServiceState) : response :=
  let target_url := "http://" ++ host s ++ ":" ++ Text.str (current_port s) ++ path in
  match backend env with
  | UpstreamResponds code ctype => StreamingResponse target_url code ctype
  | UpstreamRaises e => HTTPException 500 ("Proxy error: " ++ e)
  end.

Definition await_ready_and_forward (path : string) (env : proxy_env)
    (s : ServiceState) (eff : list effect)
  : response * ServiceState * list effect :=
  let '(s', retries) := wait_ready max_retries 0 (during_sleep env) s in
  let eff' := (eff ++ repeat (Sleep 1) retries)%list in
  if negb (ready s')
  then (HTTPException 504 "Model failed to load within timeout", s', eff')
  else (forward path env s', s', eff').

(** "Check if we need to load the model" and "Reload/Load if model
    different or not running": the response if loading fails, the state and
    the effects. *)
Definition auto_load (requested_model : string) (env : proxy_env) (s : ServiceState)
  : option response * ServiceState * list effect :=
  if negb (bool_decide (Some requested_model = current_model s)) || negb (is_running s)
  then
    let banner := Print ("[Proxy] Auto-loading model: " ++ requested_model) in
    match _start_model_server requested_model None (start env) s with
    | (inl (ValueError _), s', eff) =>
        (Some (HTTPException 404 ("Model " ++ requested_model ++ " not found")), s',
         (banner :: eff)%list)
    | (inl (RuntimeError e), s', eff) =>
        (Some (HTTPException 500 e), s', (banner :: eff)%list)
    | (inr _, s', eff) => (None, s', (banner :: eff)%list)
    end
  else (None, s, []).

Definition proxy_to_llama (path : string) (body : request_body) (env : proxy_env)
    (s : ServiceState) : response * ServiceState * list effect :=
  match body with
  | InvalidJSON => (HTTPException 400 "Invalid JSON", s, [])
  | Json None | Json (Some EmptyString) => (HTTPException 400 "Model field required", s, [])
  | Json (Some requested_model) =>
      match auto_load requested_model env s with
      | (Some failure, s', eff) => (failure, s', eff)
      | (None, s', eff) => await_ready_and_forward path env s' eff
      end
  end.

(* ===================================================================== *)
(** ** The service as a transition system *)
(* ===================================================================== *)

(** The atomic steps that change [ServiceState].  A reader thread is not
    tied to the current process: [log_reader] keeps reading the pipe of the
    process it was started for until end of file, and writes to the one
    global state.  The watcher's own checks (the file exists, its mtime is
    newer) are left out: a change may present any view of the file.
    [EvConfigChange] is the watcher's [reload] followed by its [on_change];
    the state between the two is a state of [reachable] of its own. *)
Inductive event : Type :=
  | EvStart (model_key : string) (ctx : option Z) (env : start_env)
      (* POST /api/start, or the gateway loading a model *)
  | EvStop (k : kill_outcome)
      (* POST /api/stop, or shutdown *)
  | EvLine (line : string)
      (* a reader thread, of the current or of an earlier backend, handles a line *)
  | EvExit (code : Z)
      (* the backend process exits by itself *)
  | EvConfigChange (fs : file_view) (k : kill_outcome).
      (* the watcher sees a newer file: reload, then on_change *)

Definition step (e : event) (s : ServiceState) : ServiceState :=
  match e with
  | EvStart key ctx env => snd (fst (_start_model_server key ctx env s))
  | EvStop k => fst (_stop_process_unsafe k s)
  | EvLine l => fst (log_line l s)
  | EvExit c => proc_exit c s
  | EvConfigChange fs k =>
      match config_mgr s with
      | Some cm =>
          fst (on_config_change k (set_config_mgr (Some (fst (ConfigManager_reload fs cm))) s))
      | None => s
      end
  end.

Definition run (es : list event) (s : ServiceState) : ServiceState :=
  fold_left (fun s e => step e s) es s.

(** The state [__main__] serves from: defaults from the command line and a
    freshly loaded configuration. *)
Definition main (ctx : Z) (host : string) (file : string) (w : bool) (fs : file_view)
  : ServiceState :=
  {| process := None; current_model := None; current_ctx := 0; current_port := 0;
     default_ctx := ctx; host := host; ready := false; logs := [];
     config_mgr := Some (fst (ConfigManager_new file w fs)); stats := zero_stats |}.

(** States the service can be in: after import or [__main__], then after
    any sequence of events.  The watcher's [reload] and its [on_change]
    call are two critical sections under two locks, so the state in which
    the mapping is reloaded and the backend not yet stopped can be seen
    too: that is [reach_reload]. *)
Inductive reachable : ServiceState -> Prop :=
  | reach_import : reachable ServiceState_init
  | reach_main ctx host file w fs : reachable (main ctx host file w fs)
  | reach_step e s : reachable s -> reachable (step e s)
  | reach_reload fs s cm :
      reachable s -> config_mgr s = Some cm ->
      reachable (set_config_mgr (Some (fst (ConfigManager_reload fs cm))) s).

(** A configuration used in the examples: models [a] and [b]. *)
Definition example_models : gmap string ModelConf :=
  {[ "a" := {[ "cmd" := "run --port ${PORT}" ]};
     "b" := {[ "cmd" := "serve -c $CTX --host ${HOST} -p $PORT" ]} ]}.

Definition example_boot : ServiceState :=
  main 4096 "localhost" "config.yaml" false (FileLoaded 1 (YMapping (Some example_models))).

Definition example_env (p pid_ : Z) : start_env :=
  {| free_port := p; kill := TermExited; spawn := Spawned pid_ |}.

(** [example_boot] after [start("a", ctx=8192)] got port 40001 and pid 100. *)
Definition example_running : ServiceState :=
  step (EvStart "a" (Some 8192) (example_env 40001 100)) example_boot.

(* ===================================================================== *)
(** ** Definitions used to state the properties *)
(* ===================================================================== *)

(** The fields [_stop_process_unsafe] assigns when it finds a process. *)
Definition cleared (s : ServiceState) : Prop :=
  process s = None /\ current_model s = None /\ current_port s = 0
  /\ ready s = false /\ stats s = zero_stats.

(** The generation-evaluation line of the scenario, nothing in front of it. *)
Definition eval_line : string :=
  "eval time =     100.00 ms /     5 tokens (   20.00 ms per token,    50.00 tokens per second)".

(** A stale reader: [a] is stopped, and only then does the reader thread of
    [a] get to handle two lines that [a] had already written. *)
Definition stale_events : list event :=
  [EvStop TermExited; EvLine "main: model loaded"; EvLine ("       " ++ eval_line)].

Definition stale_state : ServiceState := run stale_events example_running.

(** The configuration manager of [example_boot]. *)
Definition example_cm : ConfigManager :=
  {| config_file := "config.yaml"; watch := false; models := example_models; last_mtime := 1 |}.

(** Without a process there is no current model and no port. *)
Definition slot_consistent (s : ServiceState) : Prop :=
  process s = None -> current_model s = None /\ current_port s = 0.

(** The steps that run the teardown on an existing process: a stop, a
    configuration change, or a start that found its key. *)
Definition is_boundary (e : event) (s : ServiceState) : bool :=
  match process s with
  | None => false
  | Some _ =>
      match e with
      | EvStop _ => true
      | EvConfigChange _ _ => match config_mgr s with Some _ => true | None => false end
      | EvStart key _ _ =>
          match config_mgr s with
          | Some cm => match get_models cm !! key with Some _ => true | None => false end
          | None => false
          end
      | EvLine _ | EvExit _ => false
      end
  end.

(** [a] is stopped, and only then does the reader thread of [a] get to
    handle the readiness line that [a] had already written. *)
Definition stale_ready_state : ServiceState :=
  run [EvStop TermExited; EvLine "main: model loaded"] example_running.

(** The state the gateway finds when it reads the flag for the [n]-th time
    (counting from 0), starting to wait in [s]. *)
Fixpoint at_poll (bg : nat -> list bg_event) (n : nat) (s : ServiceState) : ServiceState :=
  match n with
  | O => s
  | S n' => run_bg (bg n') (at_poll bg n' s)
  end.

(** What a background step cannot change. *)
Definition same_backend (s s' : ServiceState) : Prop :=
  option_map pid (process s') = option_map pid (process s)
  /\ current_model s' = current_model s
  /\ current_ctx s' = current_ctx s
  /\ current_port s' = current_port s.

(** The scenario: [a] is running, a request names [b], and [b] writes a
    line every second without ever announcing that it is ready. *)
Definition example_proxy_env : proxy_env :=
  {| start := example_env 40002 101;
     during_sleep := fun _ => [BgLine "load_tensors: loading model tensors"];
     backend := UpstreamRaises "connection refused" |}.

Definition example_loading_b : ServiceState :=
  snd (fst (auto_load "b" example_proxy_env example_running)).

(** [re_eval] is [\s+] followed by the rest of the pattern. *)
Definition re_eval_tail : list Regex.atom := Eval vm_compute in tl re_eval.

Definition eval_line_tail : string :=
  Eval vm_compute in match eval_line with String _ r => r | EmptyString => "" end.

(** A state with statistics from an earlier generation: 9 tokens at 18.29
    tokens per second. *)
Definition example_generated : ServiceState :=
  fst (log_line
    "       eval time =     492.12 ms /     9 tokens (   54.68 ms per token,    18.29 tokens per second)"
    example_running).

(** The six placeholder forms, in the order [resolve_cmd] replaces them. *)
Inductive placeholder : Type :=
  | PortBraced | CtxBraced | HostBraced | PortBare | CtxBare | HostBare.

Definition ph_text (p : placeholder) : string :=
  match p with
  | PortBraced => "${PORT}" | CtxBraced => "${CTX}" | HostBraced => "${HOST}"
  | PortBare => "$PORT" | CtxBare => "$CTX" | HostBare => "$HOST"
  end.

Definition ph_value (p : placeholder) (port ctx : Z) (host : string) : string :=
  match p with
  | PortBraced | PortBare => Text.str port
  | CtxBraced | CtxBare => Text.str ctx
  | HostBraced | HostBare => host
  end.

Definition ph_eqb (p q : placeholder) : bool :=
  match p, q with
  | PortBraced, PortBraced | CtxBraced, CtxBraced | HostBraced, HostBraced
  | PortBare, PortBare | CtxBare, CtxBare | HostBare, HostBare => true
  | _, _ => false
  end.

(** A template as a sequence of plain text and placeholders. *)
Inductive seg : Type :=
  | Lit (t : string)
  | Ph (p : placeholder).

Fixpoint render (segs : list seg) : string :=
  match segs with
  | [] => ""
  | Lit t :: r => t ++ render r
  | Ph p :: r => ph_text p ++ render r
  end.

(** The template with every placeholder replaced by its value. *)
Fixpoint expand (segs : list seg) (port ctx : Z) (host : string) : string :=
  match segs with
  | [] => ""
  | Lit t :: r => t ++ expand r port ctx host
  | Ph p :: r => ph_value p port ctx host ++ expand r port ctx host
  end.

Definition no_dollar (t : string) : bool :=
  Text.all_chars (fun c => negb (Ascii.eqb c "$")) t.

Definition placeholders : list placeholder :=
  [PortBraced; CtxBraced; HostBraced; PortBare; CtxBare; HostBare].

(** [pat] and [u] agree as far as the shorter of them goes: [pat] occurs at
    the start of [u], or [u] stops in the middle of [pat]. *)
Fixpoint clash (pat u : string) : bool :=
  match pat, u with
  | EmptyString, _ => true
  | String _ _, EmptyString => true
  | String a pat', String b u' => Ascii.eqb a b && clash pat' u'
  end.

(** Text in which no placeholder begins: at no position does a placeholder
    occur, and the text does not end in the middle of one. *)
Fixpoint safe_text (t : string) : bool :=
  match t with
  | EmptyString => true
  | String _ t' =>
      forallb (fun p => negb (clash (ph_text p) t)) placeholders && safe_text t'
  end.

(** The plain text of the template is text in which no placeholder begins
    (other shell variables, such as [$HOME], are allowed). *)
Definition plain (segs : list seg) : bool :=
  forallb (fun sg => match sg with Lit t => safe_text t | Ph _ => true end) segs.

Definition mentions (p : placeholder) (segs : list seg) : bool :=
  existsb (fun sg => match sg with Lit _ => false | Ph q => ph_eqb q p end) segs.

(** The bind host must hold no dollar sign if the template asks for it. *)
Definition host_ok (segs : list seg) (host : string) : bool :=
  if mentions HostBraced segs || mentions HostBare segs then no_dollar host else true.

(** One pass of [replace] seen on the segments. *)
Definition subst1 (p : placeholder) (v : string) (sg : seg) : seg :=
  match sg with
  | Lit t => Lit t
  | Ph q => if ph_eqb q p then Lit v else Ph q
  end.

(** The same pattern with a group around every atom, and the selection of
    the groups an actual pattern has. *)
Definition capture_all (r : list Regex.atom) : list Regex.atom :=
  map (fun a => Regex.Atom (Regex.set a) (Regex.rep a) true) r.

Fixpoint pick (r : list Regex.atom) (all : list string) : list string :=
  match r, all with
  | a :: r', m :: all' => if Regex.cap a then m :: pick r' all' else pick r' all'
  | _, _ => []
  end.

(** What a group can hold: characters of its set, and at least one of them
    unless the quantifier is a star. *)
Definition fits (a : Regex.atom) (m : string) : Prop :=
  Text.all_chars (Regex.cls a) m = true /\ (Regex.rep a <> Regex.Star -> m <> "").

(** [re_prompt] after its first seven atoms, the literal ["prompt "]. *)
Definition re_prompt_tail : list Regex.atom := Eval vm_compute in skipn 7 re_prompt.

(** The prompt pattern with a group around its token count as well. *)
Definition re_prompt_counted : list Regex.atom := Eval vm_compute in
  default [] (Regex.compile
    "prompt eval time\s*=\s*[\d\.]+\s*ms\s*/\s*(\d+)\s*tokens\s*\(\s*[\d\.]+\s*ms per token,\s*([\d\.]+)\s*tokens per second\)").

Definition literal (t : string) : list Regex.atom :=
  map (fun c => Regex.Atom [Regex.IChar c] Regex.One false) (list_ascii_of_string t).

(** The line of the prompt-evaluation example. *)
Definition prompt_line : string :=
  "prompt eval time =       4.67 ms /    11 tokens (    0.42 ms per token,  2355.46 tokens per second)".

(** A line with a generation metric in front of the prompt metric, and a
    line whose rate field is not a number. *)
Definition two_metric_line : string :=
  " eval time = 1.00 ms / 2 tokens ( 0.50 ms per token, 4.00 tokens per second) prompt eval time = 5.00 ms / 6 tokens ( 0.83 ms per token, 8.00 tokens per second)".

Definition bad_rate_line : string :=
  "prompt eval time = 5.00 ms / 6 tokens ( 0.83 ms per token, 1.2.3 tokens per second)".

(** [n] times the digit 1. *)
Fixpoint ones (n : nat) : string :=
  match n with
  | O => EmptyString
  | S n' => String "1" (ones n')
  end.

(** A prompt line whose token count has 4301 digits. *)
Definition long_count_line : string :=
  "prompt eval time = 5.00 ms / " ++ ones 4301
  ++ " tokens ( 0.83 ms per token, 8.00 tokens per second)".

(* ===================================================================== *)
(** ** More of the service *)
(* ===================================================================== *)

(** The [log_reader] loop over what [readline()] returns, in order, until
    the loop breaks: an empty read (end of file while the process is still
    alive) is skipped, every other read is a line. *)
Definition log_reader (reads : list string) (s : ServiceState) : ServiceState :=
  fold_left (fun s line => match line with
                           | EmptyString => s
                           | _ => fst (log_line line s)
                           end) reads s.

(** What [os.path.exists] and [os.stat] tell one turn of [_watch_loop]. *)
Inductive stat_view : Type :=
  | StatMissing                 (* os.path.exists is False: continue *)
  | StatRaises (msg : string)   (* os.stat raises *)
  | StatMtime (mtime : Z).

(** One turn of [_watch_loop] after its sleep, in the thread that
    [ConfigManager] starts when [watch] is set; [fs] is what the reload, if
    it comes to it, finds on disk, and [on_change] is [on_config_change]. *)
Definition watch_tick (seen : stat_view) (fs : file_view) (k : kill_outcome)
    (s : ServiceState) : ServiceState * list effect :=
  match config_mgr s with
  | Some cm =>
      if watch cm then
        match seen with
        | StatMissing => (s, [])
        | StatRaises msg => (s, [Print ("[Config] Watch error: " ++ msg)])
        | StatMtime current_mtime =>
            if last_mtime cm <? current_mtime then
              let '(cm', eff1) := ConfigManager_reload fs cm in
              let '(s', eff2) := on_config_change k (set_config_mgr (Some cm') s) in
              (s', (Print "[Config] Change detected, reloading..." :: eff1 ++ eff2)%list)
            else (s, [])
        end
      else (s, [])
  | None => (s, [])
  end.

(** [get_config]: the model mapping and the default context size. *)
Definition get_config (s : ServiceState) : gmap string ModelConf * Z :=
  (match config_mgr s with
   | None => ∅
   | Some cm => get_models cm
   end,
   default_ctx s).

(** The shutdown half of [lifespan]. *)
Definition lifespan_shutdown (k : kill_outcome) (s : ServiceState)
  : ServiceState * list effect :=
  let banner :=
    Print (String (ascii_of_nat 10) "[Service] Shutting down... cleaning up processes") in
  match process s with
  | Some _ =>
      let '(s', eff) := _stop_process_unsafe k s in (s', (banner :: eff)%list)
  | None => (s, [banner])
  end.

(** The last [n] elements of a list. *)
Definition lastn {A} (n : nat) (l : list A) : list A := skipn (length l - n) l.

(** No statistic is negative. *)
Definition stats_nonneg (st : Stats) : Prop :=
  0 <= ctx_used st /\ 0 <= ctx_limit st /\ 0 <= total_tokens st
  /\ (0 <= prompt_speed st)%Q /\ (0 <= gen_speed st)%Q.

(** The last character of a string. *)
Fixpoint last_char (s : string) : option ascii :=
  match s with
  | EmptyString => None
  | String c EmptyString => Some c
  | String _ s' => last_char s'
  end.

(** A line as the reader stores it: it does not end in whitespace. *)
Definition stripped (l : string) : Prop :=
  match last_char l with
  | Some c => Text.isspace c = false
  | None => True
  end.

(** The effects that act on a process: a signal or a wait. *)
Definition is_signal (e : effect) : bool :=
  match e with
  | KillPg _ _ | WaitProc _ _ => true
  | _ => false
  end.

(** The four readiness markers of [log_reader]. *)
Definition ready_markers : list string :=
  ["main: model loaded"; json_model_loaded; "server is listening on";
   "main: server is listening"].

(** Pieces of text laid end to end in front of [tail]. *)
Fixpoint glue (ms : list string) (tail : string) : string :=
  match ms with
  | [] => tail
  | m :: ms' => m ++ glue ms' tail
  end.

(** [s] does not go on with a character of the set [p]. *)
Definition next_not (p : ascii -> bool) (s : string) : Prop :=
  match s with
  | EmptyString => True
  | String c _ => p c = false
  end.

(** [ms] cuts a text into one piece per atom of [r]: one character of the
    set for a plain atom, a run of characters of the set for a starred
    one, a non-empty run for a plussed one, every run going on as far as
    the characters of its set go. *)
Fixpoint munch (r : list Regex.atom) (ms : list string) (tail : string) : Prop :=
  match r, ms with
  | [], [] => True
  | a :: r', m :: ms' =>
      match Regex.rep a with
      | Regex.One =>
          match m with
          | String c EmptyString => Regex.cls a c = true
          | _ => False
          end
      | Regex.Star =>
          Text.all_chars (Regex.cls a) m = true /\ next_not (Regex.cls a) (glue ms' tail)
      | Regex.Plus =>
          Text.all_chars (Regex.cls a) m = true /\ m <> ""
          /\ next_not (Regex.cls a) (glue ms' tail)
      end
      /\ munch r' ms' tail
  | _, _ => False
  end.

(** The literal text [lit] begins at no position of [pre], and [pre] does
    not end in the middle of it. *)
Fixpoint free_of (lit pre : string) : bool :=
  match pre with
  | EmptyString => true
  | String _ pre' => negb (clash lit pre) && free_of lit pre'
  end.

Definition not_space (c : ascii) : bool := negb (Text.isspace c).

(** One piece per character of a literal text. *)
Definition chars (t : string) : list string :=
  map (fun c => String c EmptyString) (list_ascii_of_string t).

(** The timing text both metric patterns describe after ["prompt "] or
    after the leading whitespace: fixed words, the runs of whitespace
    [sp 1] .. [sp 11] between them, the two durations [a] and [b], the
    token count [n] and the rate [r]; [rest] is what follows on the line. *)
Definition timing_pieces (sp : nat -> string) (a n b r : string) : list string :=
  (chars "eval time" ++ [sp 1%nat] ++ chars "=" ++ [sp 2%nat; a; sp 3%nat] ++ chars "ms"
   ++ [sp 4%nat] ++ chars "/" ++ [sp 5%nat; n; sp 6%nat] ++ chars "tokens" ++ [sp 7%nat]
   ++ chars "(" ++ [sp 8%nat; b; sp 9%nat] ++ chars "ms per token,"
   ++ [sp 10%nat; r; sp 11%nat] ++ chars "tokens per second)")%list.

Definition timing_text (sp : nat -> string) (a n b r rest : string) : string :=
  "eval time" ++ sp 1%nat ++ "=" ++ sp 2%nat ++ a ++ sp 3%nat ++ "ms" ++ sp 4%nat ++ "/"
  ++ sp 5%nat ++ n ++ sp 6%nat ++ "tokens" ++ sp 7%nat ++ "(" ++ sp 8%nat ++ b ++ sp 9%nat
  ++ "ms per token," ++ sp 10%nat ++ r ++ sp 11%nat ++ "tokens per second)" ++ rest.

(** Well-formed numbers and spacing of a timing text. *)
Definition timing_ok (sp : nat -> string) (a n b r : string) : Prop :=
  (forall i, Text.all_chars Text.isspace (sp i) = true)
  /\ Text.all_chars Text.isdigit_or_dot a = true /\ a <> ""
  /\ Text.all_chars Text.isdigit n = true /\ n <> ""
  /\ Text.all_chars Text.isdigit_or_dot b = true /\ b <> ""
  /\ Text.all_chars Text.isdigit_or_dot r = true /\ r <> "".

(** Some whitespace character of [t] is directly followed by ["e"]: the
    only places where the generation pattern can begin. *)
Fixpoint space_before_e (t : string) : bool :=
  match t with
  | String c (String d _ as t') =>
      (Text.isspace c && Ascii.eqb d "e") || space_before_e t'
  | _ => false
  end.

(** The load of [reload] raises before it assigns anything: the file
    cannot be read, or cannot be parsed, or its document is not a
    mapping. *)
Definition load_fails (fs : file_view) : Prop :=
  match fs with
  | FileRaises _ | FileLoaded _ YOther => True
  | _ => False
  end.

(** What is on disk gives [reload] no model: the file is missing, cannot
    be read or parsed, its document is not a mapping or has no ["models"]
    key, or its ["models"] mapping is empty. *)
Definition loads_nothing (fs : file_view) : Prop :=
  match fs with
  | FileLoaded _ (YMapping (Some m)) => m = ∅
  | _ => True
  end.

(** The signals and waits among the effects, in order. *)
Definition signals (effs : list effect) : list effect := List.filter is_signal effs.

(** [sig] is nothing, or the termination sequence of the live process [p]:
    SIGTERM and a wait of five seconds, then at most one SIGKILL. *)
Definition orderly (p : option Popen) (sig : list effect) : Prop :=
  sig = []
  \/ exists q, p = Some q /\ poll q = None
     /\ (sig = [KillPg (pid q) SIGTERM; WaitProc (pid q) 5]
         \/ sig = [KillPg (pid q) SIGTERM; WaitProc (pid q) 5; KillPg (pid q) SIGKILL]).

(** [example_running] after the watcher has reloaded a file that no longer
    lists [a], and before its [on_change] call has stopped the backend. *)
Definition example_reloaded : ServiceState :=
  set_config_mgr
    (Some (fst (ConfigManager_reload
                  (FileLoaded 2 (YMapping (Some {[ "b" := {[ "cmd" := "serve" ]} ]})))
                  example_cm)))
    example_running.

(* ===================================================================== *)
(** * Properties *)
(* ===================================================================== *)

Example rstrip_ex : Text.rstrip ("ab  c " ++ String "010" "") = "ab  c".
Proof. reflexivity. Qed.
Example replace_ex : Text.replace "$P" "80" "a $P$P b $" = "a 8080 b $".
Proof. reflexivity. Qed.
Example str_ex : Text.str 8080 = "8080" /\ Text.str 0 = "0" /\ Text.str (-7) = "-7".
Proof. repeat split; reflexivity. Qed.
Example float_ex : Text.float "50.00" = Some (50 # 1) /\ Text.float "." = None
  /\ Text.float "1.2.3" = None /\ Text.float "7." = Some (7 # 1)
  /\ Text.float ".5" = Some (1 # 2) /\ Text.float "18.29" = Some (1829 # 100).
Proof. repeat split; vm_compute; reflexivity. Qed.

Example example_running_status :
  get_status example_running =
  {| StatusReport.running := true; StatusReport.ready := false;
     StatusReport.model := Some "a"; StatusReport.ctx := 8192;
     StatusReport.port := Some 40001; StatusReport.host := "localhost";
     StatusReport.pid := Some 100; StatusReport.stats := zero_stats |}.
Proof. vm_compute. reflexivity. Qed.

(* --------------------------------------------------------------------- *)
(** ** Stop *)
(* --------------------------------------------------------------------- *)

Lemma stop_no_process k s :
  process s = None -> _stop_process_unsafe k s = (s, []).
Proof. intros H. unfold _stop_process_unsafe. rewrite H. reflexivity. Qed.

Lemma stop_with_process k s p :
  process s = Some p -> cleared (fst (_stop_process_unsafe k s)).
Proof.
  intros H. unfold _stop_process_unsafe. rewrite H. cbn. repeat split.
Qed.

Lemma stop_process_none k s : process (fst (_stop_process_unsafe k s)) = None.
Proof.
  unfold _stop_process_unsafe. destruct (process s) eqn:E; cbn; [reflexivity | exact E].
Qed.

Lemma stop_keeps_ctx k s :
  current_ctx (fst (_stop_process_unsafe k s)) = current_ctx s.
Proof. unfold _stop_process_unsafe. destruct (process s); reflexivity. Qed.

(** The outcome of the termination sequence never shows in the state. *)
Lemma stop_state_any_outcome k k' s :
  fst (_stop_process_unsafe k s) = fst (_stop_process_unsafe k' s).
Proof. unfold _stop_process_unsafe. destruct (process s); reflexivity. Qed.

Lemma reachable_run es : forall s, reachable s -> reachable (run es s).
Proof.
  induction es as [|e es IH]; intros s Hs; cbn; [exact Hs|].
  apply IH. apply reach_step. exact Hs.
Defined.

Lemma reachable_example_running : reachable example_running.
Proof. apply reach_step. apply reach_main. Defined.

Lemma reachable_stale_state : reachable stale_state.
Proof. apply reachable_run. exact reachable_example_running. Defined.

(** C1 (as amended): [stop()] always leaves the service without a process,
    and a second call changes nothing and does nothing.  When no process
    exists the call is a no-op that leaves every field as it found it; when
    one exists the call clears model key, port and readiness flag and
    resets every statistic to zero, in one update, whatever the
    termination path. *)
Theorem stop_idempotent (k k' : kill_outcome) (s : ServiceState) :
  let s' := fst (_stop_process_unsafe k s) in
  process s' = None
  /\ _stop_process_unsafe k' s' = (s', [])
  /\ s' = fst (_stop_process_unsafe k' s)
  /\ match process s with
     | None => _stop_process_unsafe k s = (s, [])
     | Some _ =>
         current_model s' = None /\ current_port s' = 0 /\ ready s' = false
         /\ stats s' = zero_stats
     end.
Proof.
  cbn zeta. split; [apply stop_process_none|].
  split; [apply stop_no_process, stop_process_none|].
  split; [apply stop_state_any_outcome|].
  destruct (process s) as [p|] eqn:E.
  - destruct (stop_with_process k s p E) as (_ & H1 & H2 & H3 & H4). auto.
  - apply stop_no_process, E.
Qed.

(** C1, as stated, fails: in a reachable state without a process, [stop()]
    leaves the readiness flag set and the statistics non-zero. *)
Lemma stop_leaves_stale_fields :
  reachable stale_state
  /\ process stale_state = None
  /\ ready (fst (_stop_process_unsafe TermExited stale_state)) = true
  /\ total_tokens (stats (fst (_stop_process_unsafe TermExited stale_state))) = 5
  /\ gen_speed (stats (fst (_stop_process_unsafe TermExited stale_state))) = 50 # 1.
Proof.
  split; [exact reachable_stale_state|]. vm_compute. repeat split.
Qed.

(* --------------------------------------------------------------------- *)
(** ** Start with an unknown key *)
(* --------------------------------------------------------------------- *)

(** C2: for a key that the configuration mapping does not have, [start]
    raises the "not found" error, which the route turns into a 404, and the
    state, with all its fields, is the one it was called in. *)
Theorem start_unknown_key (key : string) (ctx : option Z) (env : start_env)
    (s : ServiceState) (cm : ConfigManager) :
  config_mgr s = Some cm ->
  get_models cm !! key = None ->
  _start_model_server key ctx env s = (inl (ValueError "Model not found in config"), s, [])
  /\ start_server {| model_key := key; req_ctx := ctx |} env s
     = (HTTPException 404 "Model not found in config", s, []).
Proof.
  intros Hcm Hkey. unfold start_server. cbn [model_key req_ctx].
  unfold _start_model_server. rewrite Hcm, Hkey. split; reflexivity.
Qed.

Lemma start_unknown_key_witness :
  config_mgr example_running = Some example_cm
  /\ get_models example_cm !! "z" = None
  /\ _start_model_server "z" None (example_env 40002 101) example_running
     = (inl (ValueError "Model not found in config"), example_running, [])
  /\ start_server {| model_key := "z"; req_ctx := None |} (example_env 40002 101)
       example_running
     = (HTTPException 404 "Model not found in config", example_running, []).
Proof.
  assert (H1 : config_mgr example_running = Some example_cm) by reflexivity.
  assert (H2 : get_models example_cm !! "z" = None) by (vm_compute; reflexivity).
  split; [exact H1|]. split; [exact H2|].
  exact (start_unknown_key "z" None (example_env 40002 101) example_running example_cm H1 H2).
Defined.

(** Without a configuration manager the failure is the other error, and
    the state is untouched as well. *)
Lemma start_without_config key ctx env s :
  config_mgr s = None ->
  _start_model_server key ctx env s = (inl (RuntimeError "Config not initialized"), s, []).
Proof. intros H. unfold _start_model_server. rewrite H. reflexivity. Qed.

(* --------------------------------------------------------------------- *)
(** ** What the Log Monitor leaves alone *)
(* --------------------------------------------------------------------- *)

Lemma log_line_frame line s :
  let s' := fst (log_line line s) in
  process s' = process s /\ current_model s' = current_model s
  /\ current_ctx s' = current_ctx s /\ current_port s' = current_port s
  /\ default_ctx s' = default_ctx s /\ host s' = host s
  /\ config_mgr s' = config_mgr s.
Proof.
  unfold log_line.
  destruct (is_ready_marker (Text.rstrip line)); [destruct (negb (ready _))|];
    match goal with |- context [parse_stats ?a ?b ?c] => destruct (parse_stats a b c) end;
    cbn; repeat split.
Qed.

Lemma log_line_ready line s :
  ready (fst (log_line line s)) = ready s || is_ready_marker (Text.rstrip line).
Proof.
  unfold log_line.
  destruct (is_ready_marker (Text.rstrip line)); cbn [set_logs ready].
  - destruct (ready s) eqn:E; cbn [negb];
      match goal with |- context [parse_stats ?a ?b ?c] => destruct (parse_stats a b c) end;
      cbn; rewrite ?E; reflexivity.
  - match goal with |- context [parse_stats ?a ?b ?c] => destruct (parse_stats a b c) end.
    cbn. rewrite orb_false_r. reflexivity.
Qed.

Lemma log_line_stats line s :
  stats (fst (log_line line s))
  = fst (parse_stats (Text.rstrip line) (current_ctx s) (stats s)).
Proof.
  unfold log_line.
  destruct (is_ready_marker (Text.rstrip line)); [destruct (negb (ready _))|];
    cbn [set_logs set_ready current_ctx stats];
    match goal with |- context [parse_stats ?a ?b ?c] => destruct (parse_stats a b c) end;
    reflexivity.
Qed.

Lemma log_line_logs line s :
  logs (fst (log_line line s)) = deque_append (Text.rstrip line) (logs s).
Proof.
  unfold log_line.
  destruct (is_ready_marker (Text.rstrip line)); [destruct (negb (ready _))|];
    match goal with |- context [parse_stats ?a ?b ?c] => destruct (parse_stats a b c) end;
    reflexivity.
Qed.

(* --------------------------------------------------------------------- *)
(** ** An invariant of the reachable states *)
(* --------------------------------------------------------------------- *)

Lemma stop_slot_consistent k s :
  slot_consistent s -> slot_consistent (fst (_stop_process_unsafe k s)).
Proof.
  intros H. unfold _stop_process_unsafe.
  destruct (process s) eqn:E; cbn; [intros _; split; reflexivity | exact H].
Qed.

Lemma stop_model_port k s :
  slot_consistent s ->
  current_model (fst (_stop_process_unsafe k s)) = None
  /\ current_port (fst (_stop_process_unsafe k s)) = 0.
Proof.
  intros H. apply (stop_slot_consistent k) in H. apply H. apply stop_process_none.
Qed.

Lemma start_slot_consistent key ctx env s :
  slot_consistent s -> slot_consistent (snd (fst (_start_model_server key ctx env s))).
Proof.
  intros H. unfold _start_model_server.
  destruct (config_mgr s) as [cm|]; [|exact H].
  destruct (get_models cm !! key) as [conf|]; [|exact H].
  pose proof (stop_model_port (kill env) s H) as [Hm Hp].
  destruct (_stop_process_unsafe (kill env) s) as [s1 eff] eqn:E. cbn in Hm, Hp.
  destruct (spawn env); cbn.
  - intros Habs. discriminate Habs.
  - intros _. split; assumption.
Qed.

Lemma step_slot_consistent e s : slot_consistent s -> slot_consistent (step e s).
Proof.
  intros H. destruct e as [key ctx env | k | line | code | fs k]; cbn [step].
  - apply start_slot_consistent, H.
  - apply stop_slot_consistent, H.
  - destruct (log_line_frame line s) as (Hp & Hm & _ & Hport & _).
    unfold slot_consistent. rewrite Hp, Hm, Hport. exact H.
  - unfold proc_exit. destruct (process s) as [p|] eqn:E; [|exact H].
    destruct (returncode p); [exact H|]. intros Habs. discriminate Habs.
  - destruct (config_mgr s) as [cm|]; [|exact H].
    unfold on_config_change.
    match goal with |- context [_stop_process_unsafe k ?x] =>
      pose proof (stop_slot_consistent k x) as Hs;
      destruct (_stop_process_unsafe k x) as [s1 eff] end.
    cbn in *. apply Hs. exact H.
Qed.

Lemma reachable_slot_consistent s : reachable s -> slot_consistent s.
Proof.
  induction 1 as [| ctx h file w fs | e s _ IH | fs s cm _ IH _].
  - intros _. split; reflexivity.
  - intros _. split; reflexivity.
  - apply step_slot_consistent, IH.
  - exact IH.
Qed.

(* --------------------------------------------------------------------- *)
(** ** Status after stop *)
(* --------------------------------------------------------------------- *)

(** C10: [stop()] does not touch [current_ctx].  In every state the
    service can reach, the status report after a stop still shows the
    context size of the last start, with [running] false and model, port
    and pid absent. *)
Theorem status_after_stop_keeps_ctx (k : kill_outcome) (s : ServiceState) :
  reachable s ->
  let r := get_status (fst (_stop_process_unsafe k s)) in
  StatusReport.ctx r = current_ctx s
  /\ StatusReport.running r = false
  /\ StatusReport.model r = None
  /\ StatusReport.port r = None
  /\ StatusReport.pid r = None.
Proof.
  intros Hr. cbn zeta.
  pose proof (stop_process_none k s) as Hp.
  pose proof (stop_model_port k s (reachable_slot_consistent s Hr)) as [Hm _].
  pose proof (stop_keeps_ctx k s) as Hc.
  unfold get_status, is_running. cbn. rewrite Hp, Hm, Hc. repeat split.
Qed.

Lemma status_after_stop_keeps_ctx_witness :
  reachable example_running
  /\ current_ctx example_running = 8192
  /\ let r := get_status (fst (_stop_process_unsafe TermTimeoutKilled example_running)) in
     StatusReport.ctx r = current_ctx example_running
     /\ StatusReport.running r = false
     /\ StatusReport.model r = None
     /\ StatusReport.port r = None
     /\ StatusReport.pid r = None.
Proof.
  split; [exact reachable_example_running|]. split; [reflexivity|].
  exact (status_after_stop_keeps_ctx TermTimeoutKilled example_running
           reachable_example_running).
Defined.

(* --------------------------------------------------------------------- *)
(** ** Reloading the configuration *)
(* --------------------------------------------------------------------- *)

Lemma reload_missing_empties cm :
  get_models (fst (ConfigManager_reload FileMissing cm)) = ∅.
Proof. reflexivity. Qed.

Lemma reload_raises_keeps cm msg :
  ConfigManager_reload (FileRaises msg) cm
  = (cm, [Print ("[Config] Failed to load config: " ++ msg)]).
Proof. reflexivity. Qed.

(** C8 on the code: with models [a] and [b] loaded, a reload whose parse
    raises logs the error and returns, and [get_models()] still answers
    with [a] and [b]; only the missing-file branch assigns the empty
    mapping. *)
Theorem reload_parse_error_keeps_previous_models :
  let cm' := fst (ConfigManager_reload (FileRaises "while scanning a simple key") example_cm) in
  get_models cm' = example_models
  /\ get_models cm' !! "a" = Some {[ "cmd" := "run --port ${PORT}" ]}
  /\ get_models cm' <> ∅
  /\ snd (ConfigManager_reload (FileRaises "while scanning a simple key") example_cm)
     = [Print "[Config] Failed to load config: while scanning a simple key"]
  /\ get_models (fst (ConfigManager_reload FileMissing example_cm)) = ∅.
Proof.
  cbn zeta. rewrite reload_raises_keeps. cbn [fst snd].
  split; [reflexivity|]. split; [vm_compute; reflexivity|].
  split; [|split; reflexivity].
  intros H. assert (Hl : get_models example_cm !! "a" = (∅ : gmap string ModelConf) !! "a")
    by (rewrite H; reflexivity).
  rewrite lookup_empty in Hl. vm_compute in Hl. discriminate Hl.
Qed.

(* --------------------------------------------------------------------- *)
(** ** Numbers read from log lines *)
(* --------------------------------------------------------------------- *)

Lemma isdigit_digit_val c : Text.isdigit c = true -> 0 <= Text.digit_val c <= 9.
Proof.
  unfold Text.isdigit, Text.digit_val. intros H.
  apply andb_true_iff in H. destruct H as [H1 H2].
  apply Nat.leb_le in H1, H2. lia.
Qed.

Lemma digits_val_nonneg s : forall acc,
  0 <= acc -> Text.all_chars Text.isdigit s = true -> 0 <= Text.digits_val acc s.
Proof.
  induction s as [|c s IH]; intros acc Hacc Hall; cbn in *; [exact Hacc|].
  apply andb_true_iff in Hall. destruct Hall as [Hc Hs].
  apply IH; [|exact Hs]. pose proof (isdigit_digit_val c Hc). lia.
Qed.

Lemma int_some s n :
  Text.int s = Some n ->
  s <> "" /\ Text.all_chars Text.isdigit s = true
  /\ (String.length s <= 4300)%nat /\ n = Text.digits_val 0 s.
Proof.
  unfold Text.int. destruct s as [|c s]; [discriminate|].
  destruct (Text.all_chars Text.isdigit (String c s)) eqn:E; [|discriminate].
  destruct (String.length (String c s) <=? Text.max_str_digits)%nat eqn:L; [|discriminate].
  intros [= <-]. apply Nat.leb_le in L. repeat split; [discriminate | exact L].
Qed.

Lemma int_of_digits s :
  s <> "" -> Text.all_chars Text.isdigit s = true -> (String.length s <= 4300)%nat ->
  Text.int s = Some (Text.digits_val 0 s).
Proof.
  intros Hne Hd Hl. unfold Text.int. destruct s as [|c s]; [congruence|].
  rewrite Hd. apply Nat.leb_le in Hl. fold Text.max_str_digits in Hl. rewrite Hl. reflexivity.
Qed.

Lemma int_too_long s : (4300 < String.length s)%nat -> Text.int s = None.
Proof.
  intros Hl. unfold Text.int. destruct s as [|c s]; [reflexivity|].
  apply Nat.leb_gt in Hl. fold Text.max_str_digits in Hl.
  rewrite Hl, andb_false_r. reflexivity.
Qed.

Lemma int_nonneg s n : Text.int s = Some n -> 0 <= n.
Proof.
  intros H. apply int_some in H. destruct H as (_ & E & _ & ->).
  exact (digits_val_nonneg s 0 (Z.le_refl 0) E).
Qed.

(* --------------------------------------------------------------------- *)
(** ** total_tokens *)
(* --------------------------------------------------------------------- *)

Lemma prompt_block_tokens d st st' :
  prompt_block d st = Some st' -> total_tokens st' = total_tokens st.
Proof.
  unfold prompt_block. destruct (Regex.search re_prompt d); [|intros [= <-]; reflexivity].
  destruct (Text.float _); [|discriminate]. intros [= <-]. reflexivity.
Qed.

Lemma eval_block_tokens d st st' :
  eval_block d st = Some st' ->
  exists n, 0 <= n /\ total_tokens st' = total_tokens st + n.
Proof.
  unfold eval_block. destruct (Regex.search re_eval d).
  - destruct (Text.int _) as [n|] eqn:En; [|discriminate].
    destruct (Text.float _); [|discriminate]. intros [= <-].
    exists n. split; [eapply int_nonneg, En | reflexivity].
  - intros [= <-]. exists 0. split; lia.
Qed.

Lemma release_block_tokens d c st st' :
  release_block d c st = Some st' -> total_tokens st' = total_tokens st.
Proof.
  unfold release_block. destruct (Regex.search re_release d); [|intros [= <-]; reflexivity].
  destruct (Text.int _); [|discriminate]. intros [= <-]. reflexivity.
Qed.

Lemma parse_stats_tokens d c st :
  exists n, 0 <= n /\ total_tokens (fst (parse_stats d c st)) = total_tokens st + n.
Proof.
  unfold parse_stats.
  destruct (prompt_block d st) as [st1|] eqn:E1; [|exists 0; cbn; lia].
  apply prompt_block_tokens in E1.
  destruct (eval_block d st1) as [st2|] eqn:E2; [|exists 0; cbn; lia].
  apply eval_block_tokens in E2. destruct E2 as (n & Hn & E2).
  destruct (release_block d c st2) as [st3|] eqn:E3.
  - apply release_block_tokens in E3. exists n. cbn. split; [exact Hn | lia].
  - exists n. cbn. split; [exact Hn | lia].
Qed.

Lemma log_line_tokens line s :
  exists n, 0 <= n
    /\ total_tokens (stats (fst (log_line line s))) = total_tokens (stats s) + n.
Proof. rewrite log_line_stats. apply parse_stats_tokens. Qed.

Lemma log_lines_tokens lines : forall s,
  total_tokens (stats s) <= total_tokens (stats (run (map EvLine lines) s)).
Proof.
  induction lines as [|l lines IH]; intros s; cbn; [lia|].
  destruct (log_line_tokens l s) as (n & Hn & E).
  specialize (IH (fst (log_line l s))). unfold run in IH. lia.
Qed.

Lemma start_stats key ctx env s :
  stats (snd (fst (_start_model_server key ctx env s)))
  = match config_mgr s with
    | Some cm =>
        match get_models cm !! key with
        | Some _ => stats (fst (_stop_process_unsafe (kill env) s))
        | None => stats s
        end
    | None => stats s
    end.
Proof.
  unfold _start_model_server.
  destruct (config_mgr s) as [cm|]; [|reflexivity].
  destruct (get_models cm !! key); [|reflexivity].
  destruct (_stop_process_unsafe (kill env) s) as [s1 eff].
  destruct (spawn env); reflexivity.
Qed.

Lemma stop_stats k s :
  stats (fst (_stop_process_unsafe k s))
  = match process s with Some _ => zero_stats | None => stats s end.
Proof. unfold _stop_process_unsafe. destruct (process s); reflexivity. Qed.

(** Where the statistics change: every line the Log Monitor handles leaves
    [total_tokens] as it is or adds a non-negative count to it, so it never
    decreases over any sequence of lines; the teardown of an existing
    process (by a stop, a configuration change or a start that found its
    key) resets all the statistics to zero; and every other step that is
    not a log line leaves them as they are, a start that finds no process to
    tear down included. *)
Lemma stats_reset_only_by_teardown :
  (forall line s, exists n, 0 <= n
     /\ total_tokens (stats (fst (log_line line s))) = total_tokens (stats s) + n)
  /\ (forall lines s,
        total_tokens (stats s) <= total_tokens (stats (run (map EvLine lines) s)))
  /\ (forall e s,
        if is_boundary e s then stats (step e s) = zero_stats
        else match e with
             | EvLine _ => total_tokens (stats s) <= total_tokens (stats (step e s))
             | _ => stats (step e s) = stats s
             end).
Proof.
  split; [exact log_line_tokens|]. split; [exact log_lines_tokens|].
  intros e s. unfold is_boundary.
  destruct e as [key ctx env | k | line | code | fs k]; cbn [step].
  - rewrite start_stats, stop_stats.
    destruct (process s); destruct (config_mgr s) as [cm|]; try reflexivity;
      destruct (get_models cm !! key); reflexivity.
  - rewrite stop_stats. destruct (process s); reflexivity.
  - destruct (log_line_tokens line s) as (n & Hn & E).
    destruct (process s); lia.
  - unfold proc_exit. destruct (process s) as [p|]; [|reflexivity].
    destruct (returncode p); reflexivity.
  - destruct (config_mgr s) as [cm|]; [|destruct (process s); reflexivity].
    unfold on_config_change.
    match goal with |- context [_stop_process_unsafe k ?x] =>
      pose proof (stop_stats k x) as Hs;
      destruct (_stop_process_unsafe k x) as [s1 eff] end.
    cbn in *. rewrite Hs. destruct (process s); reflexivity.
Qed.

(** C4 on the code: [total_tokens] is not reset at a restart that follows
    a stop.  After [a] is stopped, the reader thread of [a] handles a
    generation line that [a] had already written, which brings
    [total_tokens] to 5 while no process exists; the start of [b] finds
    nothing to tear down, succeeds, and leaves [total_tokens] at 5, so the
    new backend begins with the tokens of the old one. *)
Theorem restart_keeps_stale_total_tokens :
  let out := _start_model_server "b" None (example_env 40002 101) stale_state in
  reachable stale_state
  /\ process stale_state = None
  /\ total_tokens (stats stale_state) = 5
  /\ fst (fst out)
     = inr {| port := 40002; command := "serve -c 4096 --host localhost -p 40002" |}
  /\ process (snd (fst out)) = Some {| pid := 101; returncode := None |}
  /\ current_model (snd (fst out)) = Some "b"
  /\ total_tokens (stats (snd (fst out))) = 5.
Proof.
  cbn zeta. split.
  - apply reachable_run. exact reachable_example_running.
  - vm_compute. repeat split.
Qed.

(* --------------------------------------------------------------------- *)
(** ** Readiness *)
(* --------------------------------------------------------------------- *)

(** A successful start resets the flag through the teardown, that is, only
    if there was a process to tear down. *)
Lemma start_ready_flag key ctx env s d s' eff :
  _start_model_server key ctx env s = (inr d, s', eff) ->
  ready s' = match process s with Some _ => false | None => ready s end.
Proof.
  unfold _start_model_server.
  destruct (config_mgr s) as [cm|]; [|discriminate].
  destruct (get_models cm !! key); [|discriminate].
  unfold _stop_process_unsafe.
  destruct (process s); destruct (spawn env); intros [= <- <- <-]; reflexivity.
Qed.

(** The flag only moves from false to true, and only on a marker line. *)
Lemma ready_only_by_marker line s :
  ready s = false -> ready (fst (log_line line s)) = true ->
  is_ready_marker (Text.rstrip line) = true.
Proof. rewrite log_line_ready. intros ->. cbn. auto. Qed.

Lemma ready_one_way line s : ready s = true -> ready (fst (log_line line s)) = true.
Proof. rewrite log_line_ready. intros ->. reflexivity. Qed.

(** The scenario line: the first flips the flag, the second only lands in
    the log buffer. *)
Lemma model_loaded_twice s :
  let s1 := fst (log_line "main: model loaded" s) in
  ready s1 = true
  /\ fst (log_line "main: model loaded" s1)
     = set_logs (deque_append "main: model loaded" (logs s1)) s1.
Proof.
  cbn zeta. split.
  - rewrite log_line_ready. apply orb_true_r.
  - set (s1 := fst (log_line "main: model loaded" s)).
    assert (Hr : ready s1 = true) by (unfold s1; rewrite log_line_ready; apply orb_true_r).
    unfold log_line.
    change (Text.rstrip "main: model loaded") with "main: model loaded".
    change (is_ready_marker "main: model loaded") with true.
    cbn [set_logs ready current_ctx stats]. rewrite Hr. cbn [negb].
    unfold parse_stats.
    change (prompt_block "main: model loaded" (stats s1)) with (Some (stats s1)).
    change (eval_block "main: model loaded" (stats s1)) with (Some (stats s1)).
    change (release_block "main: model loaded" (current_ctx s1) (stats s1))
      with (Some (stats s1)).
    cbn. destruct s1; reflexivity.
Qed.

(** C3 on the code: after a stop, a readiness line of the stopped backend
    that its reader handles late sets the flag while no process exists;
    the next [start] finds nothing to tear down, so it succeeds and returns
    with the flag still true. *)
Theorem start_returns_ready_after_stale_line :
  let out := _start_model_server "b" None (example_env 40002 101) stale_ready_state in
  reachable stale_ready_state
  /\ process stale_ready_state = None
  /\ fst (fst out)
     = inr {| port := 40002; command := "serve -c 4096 --host localhost -p 40002" |}
  /\ process (snd (fst out)) = Some {| pid := 101; returncode := None |}
  /\ current_model (snd (fst out)) = Some "b"
  /\ ready (snd (fst out)) = true.
Proof.
  cbn zeta. split.
  - apply reachable_run. exact reachable_example_running.
  - vm_compute. repeat split.
Qed.

(* --------------------------------------------------------------------- *)
(** ** The gateway's readiness wait *)
(* --------------------------------------------------------------------- *)

Lemma same_backend_refl s : same_backend s s.
Proof. repeat split. Qed.

Lemma same_backend_trans s1 s2 s3 :
  same_backend s1 s2 -> same_backend s2 s3 -> same_backend s1 s3.
Proof.
  intros (A1 & A2 & A3 & A4) (B1 & B2 & B3 & B4).
  repeat split; congruence.
Qed.

Lemma bg_step_same_backend s e : same_backend s (bg_step s e).
Proof.
  destruct e as [l|c]; cbn [bg_step].
  - destruct (log_line_frame l s) as (Hp & Hm & Hc & Hport & _).
    unfold same_backend. rewrite Hp, Hm, Hc, Hport. repeat split.
  - unfold proc_exit. destruct (process s) as [p|] eqn:E; [|apply same_backend_refl].
    destruct (returncode p); [apply same_backend_refl|].
    unfold same_backend. cbn. rewrite E. repeat split.
Qed.

Lemma run_bg_same_backend es : forall s, same_backend s (run_bg es s).
Proof.
  induction es as [|e es IH]; intros s; cbn; [apply same_backend_refl|].
  eapply same_backend_trans; [apply bg_step_same_backend | apply IH].
Qed.

Lemma at_poll_same_backend bg n s : same_backend s (at_poll bg n s).
Proof.
  induction n as [|n IH]; cbn; [apply same_backend_refl|].
  eapply same_backend_trans; [exact IH | apply run_bg_same_backend].
Qed.

(** The loop, started with [retries] sleeps behind it: if the flag is false
    at every remaining poll, the loop runs to [retries + remaining]. *)
Lemma wait_ready_never bg s0 : forall remaining retries,
  (forall n, (retries <= n < retries + remaining)%nat -> ready (at_poll bg n s0) = false) ->
  wait_ready remaining retries bg (at_poll bg retries s0)
  = (at_poll bg (retries + remaining) s0, (retries + remaining)%nat).
Proof.
  induction remaining as [|r IH]; intros retries H; cbn [wait_ready].
  - rewrite Nat.add_0_r. reflexivity.
  - rewrite (H retries) by lia.
    change (run_bg (bg retries) (at_poll bg retries s0)) with (at_poll bg (S retries) s0).
    rewrite IH by (intros n Hn; apply H; lia).
    replace (S retries + r)%nat with (retries + S r)%nat by lia. reflexivity.
Qed.

Lemma await_timeout path env s eff :
  (forall n, (n <= 60)%nat -> ready (at_poll (during_sleep env) n s) = false) ->
  await_ready_and_forward path env s eff
  = (HTTPException 504 "Model failed to load within timeout",
     at_poll (during_sleep env) 60 s,
     (eff ++ repeat (Sleep 1) 60)%list).
Proof.
  intros H. unfold await_ready_and_forward, max_retries.
  pose proof (wait_ready_never (during_sleep env) s 60 0) as Hw.
  change (at_poll (during_sleep env) 0 s) with s in Hw.
  rewrite Hw by (intros n Hn; apply H; lia).
  cbn [Nat.add]. rewrite (H 60%nat) by lia. reflexivity.
Qed.

(** No marker line while waiting, and the flag false to begin with: the
    flag is false at every poll. *)
Lemma run_bg_not_ready es : forall s,
  ready s = false ->
  (forall l, In (BgLine l) es -> is_ready_marker (Text.rstrip l) = false) ->
  ready (run_bg es s) = false.
Proof.
  induction es as [|e es IH]; intros s Hs H; cbn; [exact Hs|].
  apply IH.
  - destruct e as [l|c]; cbn [bg_step].
    + rewrite log_line_ready, Hs, (H l) by (left; reflexivity). reflexivity.
    + unfold proc_exit. destruct (process s) as [p|]; [|exact Hs].
      destruct (returncode p); exact Hs.
  - intros l Hl. apply H. right. exact Hl.
Qed.

Lemma at_poll_not_ready bg s n :
  ready s = false ->
  (forall i l, (i < n)%nat -> In (BgLine l) (bg i) -> is_ready_marker (Text.rstrip l) = false) ->
  ready (at_poll bg n s) = false.
Proof.
  intros Hs. induction n as [|n IH]; intros H; cbn; [exact Hs|].
  apply run_bg_not_ready.
  - apply IH. intros i l Hi. apply H. lia.
  - intros l Hl. apply (H n l); [lia | exact Hl].
Qed.

Lemma auto_load_loaded requested env s s1 eff :
  auto_load requested env s = (None, s1, eff) ->
  (Some requested = current_model s /\ is_running s = true /\ s1 = s /\ eff = [])
  \/ (exists d eff0,
        _start_model_server requested None (start env) s = (inr d, s1, eff0)
        /\ eff = (Print ("[Proxy] Auto-loading model: " ++ requested) :: eff0)%list
        /\ current_model s1 = Some requested
        /\ exists pid_, spawn (start env) = Spawned pid_
             /\ process s1 = Some {| pid := pid_; returncode := None |}).
Proof.
  unfold auto_load.
  destruct (bool_decide (Some requested = current_model s)) eqn:Eb;
    destruct (is_running s) eqn:Er; cbn [negb orb].
  1: { intros [= <- <-]. left. apply bool_decide_eq_true in Eb. auto. }
  all: destruct (_start_model_server requested None (start env) s) as [[r s'] eff'] eqn:Es;
    destruct r as [[m|m]|d]; intros [= <- <-]; right; exists d, eff';
    (split; [reflexivity|]); (split; [reflexivity|]);
    revert Es; unfold _start_model_server;
    destruct (config_mgr s) as [cm|]; try discriminate;
    destruct (get_models cm !! requested); try discriminate;
    destruct (_stop_process_unsafe (kill (start env)) s) as [s0 e0];
    destruct (spawn (start env)) as [p|msg]; intros [= <- <- <-];
    (split; [reflexivity|]); exists p; split; reflexivity.
Qed.

(** The timeout path: when the flag is false at each of the 61 times the
    gateway reads it (before each of the 60 one-second sleeps, and once
    after the last), the request ends in the 504 response after exactly 60
    sleeps of one second.
    The gateway sends no signal on that path: the state returned is the one
    the background left, with the same process, model, context and port as
    when the wait began; if the gateway had loaded the model, that is the
    requested model and the process it spawned, not the previous one. *)
Lemma proxy_readiness_timeout (path requested : string) (env : proxy_env)
    (s s1 : ServiceState) (eff : list effect) :
  requested <> "" ->
  auto_load requested env s = (None, s1, eff) ->
  (forall n, (n <= 60)%nat -> ready (at_poll (during_sleep env) n s1) = false) ->
  let s2 := at_poll (during_sleep env) 60 s1 in
  proxy_to_llama path (Json (Some requested)) env s
  = (HTTPException 504 "Model failed to load within timeout", s2,
     (eff ++ repeat (Sleep 1) 60)%list)
  /\ same_backend s1 s2
  /\ current_model s2 = Some requested
  /\ (if negb (bool_decide (Some requested = current_model s)) || negb (is_running s)
      then exists pid_, spawn (start env) = Spawned pid_
             /\ option_map pid (process s2) = Some pid_
      else s1 = s).
Proof.
  intros Hne Hload Hnever. cbn zeta.
  pose proof (at_poll_same_backend (during_sleep env) 60 s1) as Hsame.
  split; [|split; [exact Hsame|]].
  - unfold proxy_to_llama. destruct requested as [|c r]; [congruence|].
    rewrite Hload. apply await_timeout, Hnever.
  - destruct Hsame as (Hp & Hm & _).
    destruct (auto_load_loaded _ _ _ _ _ Hload) as [(Hc & Hr & -> & _) | (d & eff0 & _ & _ & Hc & pid_ & Hs & Hproc)].
    + split; [congruence|].
      rewrite (bool_decide_eq_true_2 _ Hc), Hr. reflexivity.
    + split; [congruence|].
      assert (Hex : exists pid_, spawn (start env) = Spawned pid_
                /\ option_map pid (process (at_poll (during_sleep env) 60 s1)) = Some pid_)
        by (exists pid_; split; [exact Hs | rewrite Hp, Hproc; reflexivity]).
      destruct (negb (bool_decide (Some requested = current_model s)) || negb (is_running s))
        eqn:Eneed; [exact Hex|].
      revert Hload. unfold auto_load. rewrite Eneed. intros [= <- _]. reflexivity.
Qed.

Lemma proxy_readiness_timeout_witness :
  "b" <> ""
  /\ auto_load "b" example_proxy_env example_running
     = (None, example_loading_b, snd (auto_load "b" example_proxy_env example_running))
  /\ (forall n, (n <= 60)%nat ->
        ready (at_poll (during_sleep example_proxy_env) n example_loading_b) = false)
  /\ fst (fst (proxy_to_llama "/v1/chat/completions" (Json (Some "b")) example_proxy_env
                 example_running))
     = HTTPException 504 "Model failed to load within timeout"
  /\ current_model (snd (fst (proxy_to_llama "/v1/chat/completions" (Json (Some "b"))
                                example_proxy_env example_running))) = Some "b".
Proof.
  assert (H1 : "b" <> "") by discriminate.
  assert (H2 : auto_load "b" example_proxy_env example_running
               = (None, example_loading_b,
                  snd (auto_load "b" example_proxy_env example_running)))
    by (vm_compute; reflexivity).
  assert (H3 : forall n, (n <= 60)%nat ->
             ready (at_poll (during_sleep example_proxy_env) n example_loading_b) = false).
  { intros n _. apply at_poll_not_ready; [vm_compute; reflexivity|].
    intros i l _ [[= <-]|[]]. vm_compute. reflexivity. }
  split; [exact H1|]. split; [exact H2|]. split; [exact H3|].
  destruct (proxy_readiness_timeout "/v1/chat/completions" "b" example_proxy_env
              example_running example_loading_b _ H1 H2 H3) as (E & _ & Hm & _).
  rewrite E. cbn [fst snd]. split; [reflexivity | exact Hm].
Defined.

(** C6 on the code: a backend that never signals readiness is not always
    waited for.  After [a] is stopped, the reader thread of [a] handles the
    readiness line that [a] had already written, so the flag is true while
    no process exists.  A completion request for [b] then starts [b], which
    leaves the flag as it is; the gateway reads it true at its first look
    and forwards at once, without a single sleep and without the 504
    response, although no line of [b] is a readiness marker.  Here the
    forward fails because [b] does not listen yet. *)
Theorem proxy_forwards_on_stale_flag :
  let out := proxy_to_llama "/v1/chat/completions" (Json (Some "b")) example_proxy_env
               stale_ready_state in
  reachable stale_ready_state
  /\ process stale_ready_state = None
  /\ (forall n l, In (BgLine l) (during_sleep example_proxy_env n) ->
        is_ready_marker (Text.rstrip l) = false)
  /\ fst (fst out) = HTTPException 500 "Proxy error: connection refused"
  /\ snd out
     = [Print "[Proxy] Auto-loading model: b";
        Print "Starting model b on localhost:40002 with command: serve -c 4096 --host localhost -p 40002";
        SpawnShell "serve -c 4096 --host localhost -p 40002" 101;
        StartLogReader 101]
  /\ process (snd (fst out)) = Some {| pid := 101; returncode := None |}
  /\ current_model (snd (fst out)) = Some "b".
Proof.
  cbn zeta. split; [apply reachable_run; exact reachable_example_running|].
  split; [vm_compute; reflexivity|]. split.
  - intros n l [[= <-]|[]]. vm_compute. reflexivity.
  - vm_compute. repeat split.
Qed.

(* --------------------------------------------------------------------- *)
(** ** Text lemmas *)
(* --------------------------------------------------------------------- *)

Lemma isspace_eqb c d :
  Text.isspace c = true -> Text.isspace d = false -> Ascii.eqb d c = false.
Proof.
  intros Hc Hd. destruct (Ascii.eqb_spec d c) as [->|]; [congruence | reflexivity].
Qed.

Lemma append_cons c w l : String c w ++ l = String c (w ++ l).
Proof. reflexivity. Qed.

Lemma append_nil l : "" ++ l = l.
Proof. reflexivity. Qed.

Lemma rstrip_app w l :
  Text.rstrip l <> "" -> Text.rstrip (w ++ l) = w ++ Text.rstrip l.
Proof.
  intros Hl. induction w as [|c w IH]; [reflexivity|].
  rewrite !append_cons. cbn [Text.rstrip]. rewrite IH.
  destruct (w ++ Text.rstrip l) eqn:E; [|reflexivity].
  destruct w; [rewrite append_nil in E; congruence | rewrite append_cons in E; discriminate].
Qed.

(** A needle that starts with a non-space character is not found any
    earlier for a run of spaces in front of the text. *)
Lemma contains_skip_spaces d needle w rest :
  Text.isspace d = false ->
  Text.all_chars Text.isspace w = true ->
  Text.contains (String d needle) (w ++ rest) = Text.contains (String d needle) rest.
Proof.
  intros Hd. induction w as [|c w IH]; intros Hw; [reflexivity|].
  cbn in Hw. apply andb_true_iff in Hw. destruct Hw as [Hc Hw].
  rewrite append_cons. cbn [Text.contains Text.startswith].
  rewrite (isspace_eqb c d Hc Hd). cbn [andb orb]. apply IH, Hw.
Qed.

(* --------------------------------------------------------------------- *)
(** ** Matcher lemmas *)
(* --------------------------------------------------------------------- *)

Lemma match_here_literal_mismatch d q cp r c s :
  Ascii.eqb d c = false ->
  q <> Regex.Star ->
  Regex.match_here (Regex.Atom [Regex.IChar d] q cp :: r) (String c s) = None.
Proof.
  intros H Hq. cbn [Regex.match_here Regex.rep].
  unfold Regex.cls. cbn [Regex.set existsb Regex.item_matches]. rewrite H. cbn.
  destruct q; [reflexivity | congruence | reflexivity].
Qed.

Lemma search_skip_spaces d q cp r w rest :
  Text.isspace d = false ->
  q <> Regex.Star ->
  Text.all_chars Text.isspace w = true ->
  Regex.search (Regex.Atom [Regex.IChar d] q cp :: r) (w ++ rest)
  = Regex.search (Regex.Atom [Regex.IChar d] q cp :: r) rest.
Proof.
  intros Hd Hq. induction w as [|c w IH]; intros Hw; [reflexivity|].
  cbn in Hw. apply andb_true_iff in Hw. destruct Hw as [Hc Hw].
  rewrite append_cons. cbn [Regex.search].
  rewrite (match_here_literal_mismatch d q cp r c _ (isspace_eqb c d Hc Hd) Hq).
  apply IH, Hw.
Qed.

(** A greedy repetition in front of a run [w] of matching characters that
    ends at a non-matching one: if the continuation accepts the whole run,
    that is the first match. *)
Lemma greedy_whole_run {R} (p : ascii -> bool) w : forall (k : string -> string -> option R) c rest x,
  Text.all_chars p w = true ->
  p c = false ->
  k w (String c rest) = Some x ->
  Regex.greedy p k (w ++ String c rest) = Some x.
Proof.
  induction w as [|a w IH]; intros k c rest x Hw Hc Hk.
  - rewrite append_nil. cbn. rewrite Hc. exact Hk.
  - cbn in Hw. apply andb_true_iff in Hw. destruct Hw as [Ha Hw].
    rewrite append_cons. cbn [Regex.greedy]. rewrite Ha.
    rewrite (IH (fun m r => k (String a m) r) c rest x Hw Hc Hk). reflexivity.
Qed.

Lemma all_chars_ext p q w :
  (forall c, p c = q c) -> Text.all_chars p w = Text.all_chars q w.
Proof. intros H. induction w as [|c w IH]; cbn; [reflexivity|]. rewrite H, IH. reflexivity. Qed.

Lemma not_space_p : Text.isspace "p" = false. Proof. vm_compute. reflexivity. Qed.
Lemma not_space_s : Text.isspace "s" = false. Proof. vm_compute. reflexivity. Qed.
Lemma not_space_m : Text.isspace "m" = false. Proof. vm_compute. reflexivity. Qed.
Lemma not_space_e : Text.isspace "e" = false. Proof. vm_compute. reflexivity. Qed.
Lemma not_space_dquote : Text.isspace dquote = false. Proof. vm_compute. reflexivity. Qed.

Lemma search_prompt_skip_spaces w rest :
  Text.all_chars Text.isspace w = true ->
  Regex.search re_prompt (w ++ rest) = Regex.search re_prompt rest.
Proof.
  intros H.
  exact (search_skip_spaces "p" Regex.One false (tl re_prompt) w rest not_space_p
           ltac:(discriminate) H).
Qed.

Lemma search_release_skip_spaces w rest :
  Text.all_chars Text.isspace w = true ->
  Regex.search re_release (w ++ rest) = Regex.search re_release rest.
Proof.
  intros H.
  exact (search_skip_spaces "s" Regex.One false (tl re_release) w rest not_space_s
           ltac:(discriminate) H).
Qed.

(* --------------------------------------------------------------------- *)
(** ** The generation-evaluation line *)
(* --------------------------------------------------------------------- *)

Lemma match_here_plus its cp r c s :
  Regex.match_here (Regex.Atom its Regex.Plus cp :: r) (String c s)
  = if Regex.cls (Regex.Atom its Regex.Plus cp) c
    then Regex.greedy (Regex.cls (Regex.Atom its Regex.Plus cp))
           (fun m rest =>
              option_map (fun caps => if cp then String c m :: caps else caps)
                (Regex.match_here r rest)) s
    else None.
Proof. reflexivity. Qed.

Lemma cls_space q cp c : Regex.cls (Regex.Atom [Regex.ISpace] q cp) c = Text.isspace c.
Proof. unfold Regex.cls. cbn [Regex.set existsb Regex.item_matches]. apply orb_false_r. Qed.

Lemma re_eval_cons : re_eval = Regex.Atom [Regex.ISpace] Regex.Plus false :: re_eval_tail.
Proof. vm_compute. reflexivity. Qed.

Lemma eval_line_cons : eval_line = String "e" eval_line_tail.
Proof. vm_compute. reflexivity. Qed.

Lemma search_eval_after_spaces w :
  w <> "" ->
  Text.all_chars Text.isspace w = true ->
  Regex.search re_eval (w ++ eval_line) = Some ["5"; "50.00"].
Proof.
  intros Hne Hw. destruct w as [|c w]; [congruence|].
  cbn in Hw. apply andb_true_iff in Hw. destruct Hw as [Hc Hw].
  rewrite append_cons. cbn [Regex.search].
  assert (Hm : Regex.match_here re_eval (String c (w ++ eval_line)) = Some ["5"; "50.00"]).
  { rewrite re_eval_cons, match_here_plus, cls_space, Hc, eval_line_cons.
    apply greedy_whole_run.
    - rewrite (all_chars_ext _ _ w (cls_space Regex.Plus false)). exact Hw.
    - rewrite cls_space. exact not_space_e.
    - vm_compute. reflexivity. }
  rewrite Hm. reflexivity.
Qed.

Lemma is_ready_marker_skip_spaces w rest :
  Text.all_chars Text.isspace w = true ->
  is_ready_marker (w ++ rest) = is_ready_marker rest.
Proof.
  intros Hw. unfold is_ready_marker.
  rewrite (contains_skip_spaces "m" "ain: model loaded" w rest not_space_m Hw).
  rewrite (contains_skip_spaces "s" "erver is listening on" w rest not_space_s Hw).
  rewrite (contains_skip_spaces "m" "ain: server is listening" w rest not_space_m Hw).
  change json_model_loaded with (String dquote (match json_model_loaded with
                                                | String _ r => r | EmptyString => "" end)).
  rewrite (contains_skip_spaces dquote _ w rest not_space_dquote Hw). reflexivity.
Qed.

Lemma parse_stats_eval_line_after_spaces w c st :
  w <> "" ->
  Text.all_chars Text.isspace w = true ->
  parse_stats (w ++ eval_line) c st = (set_gen (50 # 1) 5 st, false).
Proof.
  intros Hne Hw. unfold parse_stats, prompt_block, eval_block, release_block.
  rewrite (search_prompt_skip_spaces w eval_line Hw).
  rewrite (search_eval_after_spaces w Hne Hw).
  rewrite (search_release_skip_spaces w eval_line Hw).
  change (Regex.search re_prompt eval_line) with (@None (list string)).
  change (Regex.search re_release eval_line) with (@None (list string)).
  change (Text.int (group 1 ["5"; "50.00"])) with (Some 5).
  change (Text.float (group 2 ["5"; "50.00"])) with (Some (50 # 1)).
  reflexivity.
Qed.

Lemma parse_stats_eval_line_bare c st : parse_stats eval_line c st = (st, false).
Proof.
  unfold parse_stats, prompt_block, eval_block, release_block.
  change (Regex.search re_prompt eval_line) with (@None (list string)).
  change (Regex.search re_eval eval_line) with (@None (list string)).
  change (Regex.search re_release eval_line) with (@None (list string)).
  reflexivity.
Qed.

(** C7 (as amended): the generation pattern begins with [\s+], so the line
    counts as a generation-evaluation metric when at least one whitespace
    character precedes ["eval time"], as in the backend's output: then
    [gen_speed] becomes 50.00 and [total_tokens] grows by exactly 5, the
    other statistics and the readiness flag staying as they were.  The
    same line with nothing in front of it changes no statistic. *)
Theorem eval_line_needs_leading_space (w : string) (s : ServiceState) :
  w <> "" ->
  Text.all_chars Text.isspace w = true ->
  let s' := fst (log_line (w ++ eval_line) s) in
  gen_speed (stats s') = 50 # 1
  /\ total_tokens (stats s') = total_tokens (stats s) + 5
  /\ prompt_speed (stats s') = prompt_speed (stats s)
  /\ ctx_used (stats s') = ctx_used (stats s)
  /\ ctx_limit (stats s') = ctx_limit (stats s)
  /\ ready s' = ready s
  /\ stats (fst (log_line eval_line s)) = stats s.
Proof.
  intros Hne Hw. cbn zeta.
  assert (Hstrip : Text.rstrip (w ++ eval_line) = w ++ eval_line).
  { rewrite rstrip_app; [reflexivity | discriminate]. }
  rewrite log_line_ready, !log_line_stats, Hstrip.
  rewrite (parse_stats_eval_line_after_spaces w _ _ Hne Hw).
  rewrite (is_ready_marker_skip_spaces w eval_line Hw).
  change (Text.rstrip eval_line) with eval_line.
  rewrite parse_stats_eval_line_bare.
  change (is_ready_marker eval_line) with false. rewrite orb_false_r.
  cbn. repeat split; reflexivity.
Qed.

Lemma eval_line_needs_leading_space_witness :
  " " <> ""
  /\ Text.all_chars Text.isspace " " = true
  /\ gen_speed (stats (fst (log_line (" " ++ eval_line) example_running))) = 50 # 1
  /\ total_tokens (stats (fst (log_line (" " ++ eval_line) example_running)))
     = total_tokens (stats example_running) + 5.
Proof.
  assert (H1 : " " <> "") by discriminate.
  assert (H2 : Text.all_chars Text.isspace " " = true) by reflexivity.
  split; [exact H1|]. split; [exact H2|].
  destruct (eval_line_needs_leading_space " " example_running H1 H2) as (A & B & _).
  split; [exact A | exact B].
Defined.

(** C7, as stated, fails: the line with no leading whitespace is not
    matched by the generation pattern, so [gen_speed] stays 18.29 and
    [total_tokens] stays 9. *)
Lemma eval_line_without_leading_space_ignored :
  Regex.search re_eval eval_line = None
  /\ gen_speed (stats example_generated) = 1829 # 100
  /\ total_tokens (stats example_generated) = 9
  /\ gen_speed (stats (fst (log_line eval_line example_generated))) = 1829 # 100
  /\ total_tokens (stats (fst (log_line eval_line example_generated))) = 9.
Proof. vm_compute. repeat split. Qed.

(* --------------------------------------------------------------------- *)
(** ** Command templates *)
(* --------------------------------------------------------------------- *)

Lemma append_nil_r s : s ++ "" = s.
Proof. induction s as [|c s IH]; [reflexivity|]. rewrite append_cons, IH. reflexivity. Qed.

Lemma append_assoc a b c : (a ++ b) ++ c = a ++ (b ++ c).
Proof.
  induction a as [|x a IH]; [reflexivity|]. rewrite !append_cons, IH. reflexivity.
Qed.

Lemma startswith_self old rest : Text.startswith old (old ++ rest) = true.
Proof.
  induction old as [|c old IH]; [reflexivity|].
  rewrite append_cons. cbn. rewrite Ascii.eqb_refl, IH. reflexivity.
Qed.

Lemma replace_from_skip old new a : forall rest,
  Text.replace_from (String.length a) old new (a ++ rest) = Text.replace_from 0 old new rest.
Proof.
  induction a as [|c a IH]; intros rest; [reflexivity|].
  rewrite append_cons. cbn [String.length Text.replace_from]. apply IH.
Qed.

Lemma replace_from_match c old new rest :
  Text.replace_from 0 (String c old) new (String c old ++ rest)
  = new ++ Text.replace_from 0 (String c old) new rest.
Proof.
  pose proof (startswith_self (String c old) rest) as H.
  rewrite append_cons in *. cbn [Text.replace_from]. rewrite H.
  cbn [String.length].
  replace (S (String.length old) - 1)%nat with (String.length old) by lia.
  rewrite replace_from_skip. reflexivity.
Qed.

Lemma clash_startswith pat : forall u rest,
  clash pat u = false -> Text.startswith pat (u ++ rest) = false.
Proof.
  induction pat as [|a pat IH]; intros u rest H; [discriminate H|].
  destruct u as [|b u]; [discriminate H|].
  rewrite append_cons. cbn [clash Text.startswith] in *.
  destruct (Ascii.eqb a b); [|reflexivity]. cbn [andb] in *. apply IH, H.
Qed.

Lemma in_placeholders p : In p placeholders.
Proof. destruct p; cbn; tauto. Qed.

Lemma replace_from_safe p new t : forall rest,
  safe_text t = true ->
  Text.replace_from 0 (ph_text p) new (t ++ rest)
  = t ++ Text.replace_from 0 (ph_text p) new rest.
Proof.
  induction t as [|c t IH]; intros rest Ht; [reflexivity|].
  cbn [safe_text] in Ht. apply andb_true_iff in Ht. destruct Ht as [Hc Ht].
  assert (Hp : clash (ph_text p) (String c t) = false).
  { apply negb_true_iff.
    exact (proj1 (forallb_forall _ placeholders) Hc p (in_placeholders p)). }
  pose proof (clash_startswith _ _ rest Hp) as Hs.
  rewrite !append_cons in *. cbn [Text.replace_from]. rewrite Hs.
  rewrite IH by exact Ht. reflexivity.
Qed.

Lemma no_dollar_safe t : no_dollar t = true -> safe_text t = true.
Proof.
  induction t as [|c t IH]; intros H; [reflexivity|].
  cbn in H. apply andb_true_iff in H. destruct H as [Hc H].
  cbn [safe_text]. rewrite (IH H), andb_true_r.
  apply negb_true_iff in Hc. rewrite Ascii.eqb_sym in Hc.
  apply forallb_forall. intros p _. apply negb_true_iff.
  destruct p; cbn [ph_text clash]; rewrite Hc; reflexivity.
Qed.

Lemma ph_text_dollar p : exists tail, ph_text p = String "$" tail.
Proof. destruct p; eexists; reflexivity. Qed.

Lemma ph_eqb_eq p q : ph_eqb p q = true -> p = q.
Proof. destruct p, q; cbn; congruence. Qed.

(** At another placeholder the search for [p] moves on. *)
Lemma replace_from_other p q v rest :
  ph_eqb q p = false ->
  Text.replace_from 0 (ph_text p) v (ph_text q ++ rest)
  = ph_text q ++ Text.replace_from 0 (ph_text p) v rest.
Proof.
  intros H. destruct p, q; try discriminate H; unfold ph_text;
    rewrite !append_cons, !append_nil; reflexivity.
Qed.

Lemma replace_render p v segs :
  plain segs = true ->
  Text.replace (ph_text p) v (render segs) = render (map (subst1 p v) segs).
Proof.
  unfold Text.replace. induction segs as [|sg segs IH]; intros Hp; [reflexivity|].
  cbn in Hp. apply andb_true_iff in Hp. destruct Hp as [Hsg Hp].
  destruct sg as [t|q]; cbn [map subst1 render].
  - rewrite replace_from_safe by exact Hsg. rewrite IH by exact Hp. reflexivity.
  - destruct (ph_eqb q p) eqn:Eq.
    + apply ph_eqb_eq in Eq. subst q. cbn [render].
      destruct (ph_text_dollar p) as [tail E]. rewrite E, replace_from_match, <- E.
      rewrite IH by exact Hp. reflexivity.
    + cbn [render]. rewrite replace_from_other by exact Eq.
      rewrite IH by exact Hp. reflexivity.
Qed.

Lemma no_dollar_uint d : no_dollar (NilEmpty.string_of_uint d) = true.
Proof. induction d; cbn; auto. Qed.

Lemma no_dollar_str n : no_dollar (Text.str n) = true.
Proof.
  unfold Text.str. destruct (Z.to_int n) as [d|d]; cbn.
  - destruct d; try reflexivity; apply (no_dollar_uint (_ d)).
  - destruct d; try reflexivity; apply (no_dollar_uint (_ d)).
Qed.

Lemma plain_subst1 p v segs :
  plain segs = true ->
  (mentions p segs = true -> no_dollar v = true) ->
  plain (map (subst1 p v) segs) = true.
Proof.
  induction segs as [|sg segs IH]; intros Hp Hv; [reflexivity|].
  cbn in Hp. apply andb_true_iff in Hp. destruct Hp as [Hsg Hp].
  cbn [map plain forallb]. apply andb_true_iff. split.
  - destruct sg as [t|q]; cbn [subst1]; [exact Hsg|].
    destruct (ph_eqb q p) eqn:E; [|reflexivity].
    apply no_dollar_safe, Hv. cbn. rewrite E. reflexivity.
  - apply IH; [exact Hp|]. intros Hm. apply Hv.
    unfold mentions in *. cbn [existsb]. rewrite Hm. apply orb_true_r.
Qed.

Lemma mentions_subst1 q p v segs :
  mentions q (map (subst1 p v) segs) = true -> mentions q segs = true.
Proof.
  induction segs as [|sg segs IH]; [intros H; exact H|].
  cbn [map mentions existsb]. intros H. apply orb_true_iff in H. apply orb_true_iff.
  destruct H as [H|H]; [left | right; apply IH, H].
  destruct sg as [t|r]; cbn [subst1] in H; [discriminate H|].
  destruct (ph_eqb r p); [discriminate H | exact H].
Qed.

(** After the six passes every placeholder has become its value. *)
Lemma render_all_passes segs port ctx host :
  render
    (map (subst1 HostBare host)
       (map (subst1 CtxBare (Text.str ctx))
          (map (subst1 PortBare (Text.str port))
             (map (subst1 HostBraced host)
                (map (subst1 CtxBraced (Text.str ctx))
                   (map (subst1 PortBraced (Text.str port)) segs))))))
  = expand segs port ctx host.
Proof.
  induction segs as [|sg segs IH]; [reflexivity|].
  cbn [map]. destruct sg as [t|p]; [|destruct p]; cbn [subst1 ph_eqb render expand ph_value];
    rewrite IH; reflexivity.
Qed.

Lemma resolve_cmd_render segs port ctx host :
  plain segs = true ->
  host_ok segs host = true ->
  resolve_cmd (render segs) port ctx host = expand segs port ctx host.
Proof.
  intros Hp Hh. unfold resolve_cmd.
  assert (Hb : mentions HostBraced segs = true -> no_dollar host = true).
  { intros Hm. unfold host_ok in Hh. rewrite Hm in Hh. exact Hh. }
  assert (Hr : mentions HostBare segs = true -> no_dollar host = true).
  { intros Hm. unfold host_ok in Hh. rewrite Hm, orb_true_r in Hh. exact Hh. }
  pose proof (plain_subst1 PortBraced (Text.str port) segs Hp
                (fun _ => no_dollar_str port)) as H1.
  pose proof (plain_subst1 CtxBraced (Text.str ctx) _ H1 (fun _ => no_dollar_str ctx)) as H2.
  pose proof (plain_subst1 HostBraced host _ H2
                (fun Hm => Hb (mentions_subst1 _ _ _ _ (mentions_subst1 _ _ _ _ Hm)))) as H3.
  pose proof (plain_subst1 PortBare (Text.str port) _ H3 (fun _ => no_dollar_str port)) as H4.
  pose proof (plain_subst1 CtxBare (Text.str ctx) _ H4 (fun _ => no_dollar_str ctx)) as H5.
  rewrite (replace_render PortBraced _ _ Hp).
  rewrite (replace_render CtxBraced _ _ H1).
  rewrite (replace_render HostBraced _ _ H2).
  rewrite (replace_render PortBare _ _ H3).
  rewrite (replace_render CtxBare _ _ H4).
  rewrite (replace_render HostBare _ _ H5).
  apply render_all_passes.
Qed.

Example resolve_cmd_shell_variable :
  plain [Lit "$HOME/bin/llama-server --port "; Ph PortBraced; Lit " -c "; Ph CtxBare] = true
  /\ resolve_cmd "$HOME/bin/llama-server --port ${PORT} -c $CTX" 8080 4096 "0.0.0.0"
     = "$HOME/bin/llama-server --port 8080 -c 4096".
Proof. vm_compute. split; reflexivity. Qed.

(** What a successful start returns. *)
Lemma start_returns key ctx env s cm conf pid_ :
  config_mgr s = Some cm ->
  get_models cm !! key = Some conf ->
  spawn env = Spawned pid_ ->
  fst (fst (_start_model_server key ctx env s))
  = inr {| port := free_port env;
           command := resolve_cmd (default "" (conf !! "cmd")) (free_port env)
                        (default (default_ctx s) ctx) (host s) |}.
Proof.
  intros Hcm Hkey Hs. unfold _start_model_server. rewrite Hcm, Hkey, Hs.
  destruct (_stop_process_unsafe (kill env) s). reflexivity.
Qed.

(** C5: for a template made of the placeholders [${PORT}], [${CTX}],
    [${HOST}], [$PORT], [$CTX], [$HOST] and of text in which no
    placeholder begins, and a bind host without dollar sign, a successful start
    returns the allocated port and the template with every placeholder
    replaced by the allocated port, by the context size (the argument if
    given, else the configured default) or by the bind host; and the
    template ["run --port ${PORT}"] resolves to ["run --port P"] for every
    port [P]. *)
Theorem start_resolves_command (key : string) (ctx : option Z) (env : start_env)
    (s : ServiceState) (cm : ConfigManager) (conf : ModelConf) (segs : list seg)
    (pid_ : Z) :
  config_mgr s = Some cm ->
  get_models cm !! key = Some conf ->
  conf !! "cmd" = Some (render segs) ->
  plain segs = true ->
  host_ok segs (host s) = true ->
  spawn env = Spawned pid_ ->
  fst (fst (_start_model_server key ctx env s))
  = inr {| port := free_port env;
           command := expand segs (free_port env)
                        (match ctx with Some c => c | None => default_ctx s end) (host s) |}
  /\ forall P c h, resolve_cmd "run --port ${PORT}" P c h = "run --port " ++ Text.str P.
Proof.
  intros Hcm Hkey Hcmd Hp Hh Hs. split.
  - rewrite (start_returns key ctx env s cm conf pid_ Hcm Hkey Hs), Hcmd. cbn [default].
    rewrite (resolve_cmd_render segs _ _ _ Hp Hh). destruct ctx; reflexivity.
  - intros P c h.
    pose proof (resolve_cmd_render [Lit "run --port "; Ph PortBraced] P c h eq_refl eq_refl)
      as H.
    cbn [expand ph_value] in H. rewrite append_nil_r in H. exact H.
Qed.

Lemma start_resolves_command_witness :
  config_mgr example_running = Some example_cm
  /\ get_models example_cm !! "b"
     = Some {[ "cmd" := "serve -c $CTX --host ${HOST} -p $PORT" ]}
  /\ fst (fst (_start_model_server "b" None (example_env 40002 101) example_running))
     = inr {| port := 40002; command := "serve -c 4096 --host localhost -p 40002" |}
  /\ fst (fst (_start_model_server "b" (Some 512) (example_env 40002 101) example_running))
     = inr {| port := 40002; command := "serve -c 512 --host localhost -p 40002" |}.
Proof.
  pose (segs := [Lit "serve -c "; Ph CtxBare; Lit " --host "; Ph HostBraced; Lit " -p ";
                 Ph PortBare]).
  pose (conf := ({[ "cmd" := "serve -c $CTX --host ${HOST} -p $PORT" ]} : ModelConf)).
  assert (H1 : config_mgr example_running = Some example_cm) by reflexivity.
  assert (H2 : get_models example_cm !! "b" = Some conf) by (vm_compute; reflexivity).
  assert (H3 : conf !! "cmd" = Some (render segs)) by (vm_compute; reflexivity).
  assert (H4 : plain segs = true) by (vm_compute; reflexivity).
  assert (H5 : host_ok segs (host example_running) = true) by (vm_compute; reflexivity).
  assert (H6 : spawn (example_env 40002 101) = Spawned 101) by reflexivity.
  split; [exact H1|]. split; [exact H2|]. split.
  - rewrite (proj1 (start_resolves_command "b" None (example_env 40002 101) example_running
                      example_cm conf segs 101 H1 H2 H3 H4 H5 H6)).
    vm_compute. reflexivity.
  - rewrite (proj1 (start_resolves_command "b" (Some 512) (example_env 40002 101)
                      example_running example_cm conf segs 101 H1 H2 H3 H4 H5 H6)).
    vm_compute. reflexivity.
Defined.

(* --------------------------------------------------------------------- *)
(** ** Captures *)
(* --------------------------------------------------------------------- *)

Lemma greedy_map {R S} (F : R -> S) p s : forall (k1 : string -> string -> option S)
    (k2 : string -> string -> option R),
  (forall m r, k1 m r = option_map F (k2 m r)) ->
  Regex.greedy p k1 s = option_map F (Regex.greedy p k2 s).
Proof.
  induction s as [|c s IH]; intros k1 k2 H; cbn [Regex.greedy]; [apply H|].
  destruct (p c); [|apply H].
  rewrite (IH (fun m r => k1 (String c m) r) (fun m r => k2 (String c m) r))
    by (intros; apply H).
  destruct (Regex.greedy p (fun m r => k2 (String c m) r) s); [reflexivity | apply H].
Qed.

Lemma match_here_pick r : forall s,
  Regex.match_here r s = option_map (pick r) (Regex.match_here (capture_all r) s).
Proof.
  induction r as [|a r IH]; intros s; [reflexivity|].
  assert (Hk : forall m rest,
    option_map (fun caps => if Regex.cap a then m :: caps else caps) (Regex.match_here r rest)
    = option_map (pick (a :: r))
        (option_map (fun caps => m :: caps) (Regex.match_here (capture_all r) rest))).
  { intros m rest. rewrite IH.
    destruct (Regex.match_here (capture_all r) rest); reflexivity. }
  destruct a as [its q cp]. cbn [capture_all map Regex.match_here Regex.rep Regex.set Regex.cap] in *.
  change (Regex.cls (Regex.Atom its q true)) with (Regex.cls (Regex.Atom its q cp)).
  destruct q.
  - destruct s as [|c s]; [reflexivity|].
    destruct (Regex.cls (Regex.Atom its Regex.One cp) c); [apply Hk | reflexivity].
  - apply greedy_map. intros m rest. apply Hk.
  - destruct s as [|c s]; [reflexivity|].
    destruct (Regex.cls (Regex.Atom its Regex.Plus cp) c); [|reflexivity].
    apply greedy_map. intros m rest. apply Hk.
Qed.

Lemma greedy_some {R} p s : forall (k : string -> string -> option R) x,
  Regex.greedy p k s = Some x ->
  exists m rest, s = m ++ rest /\ Text.all_chars p m = true /\ k m rest = Some x.
Proof.
  induction s as [|c s IH]; intros k x H; cbn [Regex.greedy] in H.
  - exists "", "". auto.
  - destruct (p c) eqn:Ec; [|exists "", (String c s); auto].
    destruct (Regex.greedy p (fun m r => k (String c m) r) s) as [y|] eqn:Eg.
    + injection H as <-. apply IH in Eg. destruct Eg as (m & rest & -> & Hm & Hk).
      exists (String c m), rest. rewrite append_cons. cbn. rewrite Ec, Hm. auto.
    + exists "", (String c s). auto.
Qed.

Lemma match_all_fits r : forall s all,
  Regex.match_here (capture_all r) s = Some all -> Forall2 fits r all.
Proof.
  induction r as [|a r IH]; intros s all H.
  - injection H as <-. constructor.
  - destruct a as [its q cp].
    change (capture_all (Regex.Atom its q cp :: r))
      with (Regex.Atom its q true :: capture_all r) in H.
    cbn [Regex.match_here Regex.rep Regex.set Regex.cap] in H.
    change (Regex.cls (Regex.Atom its q true)) with (Regex.cls (Regex.Atom its q cp)) in H.
    destruct q.
    + destruct s as [|c s]; [discriminate|].
      destruct (Regex.cls (Regex.Atom its Regex.One cp) c) eqn:Ec; [|discriminate].
      destruct (Regex.match_here (capture_all r) s) as [l|] eqn:E; [|discriminate].
      cbn [option_map] in H. injection H as <-. constructor; [|eapply IH, E].
      split; [cbn [Text.all_chars]; rewrite Ec; reflexivity | discriminate].
    + apply greedy_some in H. destruct H as (m & rest & _ & Hm & Hk).
      destruct (Regex.match_here (capture_all r) rest) as [l|] eqn:E; [|discriminate].
      cbn [option_map] in Hk. injection Hk as <-. constructor; [|eapply IH, E].
      split; [exact Hm | intros Hq; exfalso; apply Hq; reflexivity].
    + destruct s as [|c s]; [discriminate|].
      destruct (Regex.cls (Regex.Atom its Regex.Plus cp) c) eqn:Ec; [|discriminate].
      apply greedy_some in H. destruct H as (m & rest & _ & Hm & Hk).
      destruct (Regex.match_here (capture_all r) rest) as [l|] eqn:E; [|discriminate].
      cbn [option_map] in Hk. injection Hk as <-. constructor; [|eapply IH, E].
      split; [cbn [Text.all_chars]; rewrite Ec; exact Hm | discriminate].
Qed.

(** A literal at the head of the pattern fixes the next character. *)
Lemma match_here_literal d r s caps :
  Regex.match_here (Regex.Atom [Regex.IChar d] Regex.One false :: r) s = Some caps ->
  exists s', s = String d s' /\ Regex.match_here r s' = Some caps.
Proof.
  cbn [Regex.match_here Regex.rep Regex.cap]. destruct s as [|c s]; [discriminate|].
  unfold Regex.cls. cbn [Regex.set existsb Regex.item_matches]. rewrite orb_false_r.
  destruct (Ascii.eqb_spec d c) as [->|]; [|discriminate].
  intros H. exists s. split; [reflexivity|].
  destruct (Regex.match_here r s); [injection H as <-; reflexivity | discriminate].
Qed.

(* --------------------------------------------------------------------- *)
(** ** The prompt pattern against the generation pattern *)
(* --------------------------------------------------------------------- *)

Lemma re_prompt_split : re_prompt = (literal "prompt " ++ re_prompt_tail)%list.
Proof. vm_compute. reflexivity. Qed.

Lemma re_prompt_counted_split :
  re_prompt_counted = (literal "prompt " ++ re_eval_tail)%list.
Proof. vm_compute. reflexivity. Qed.

Lemma re_tails_same_atoms : capture_all re_prompt_tail = capture_all re_eval_tail.
Proof. vm_compute. reflexivity. Qed.

Lemma re_tails_start :
  re_prompt_tail = Regex.Atom [Regex.IChar "e"] Regex.One false :: tl re_prompt_tail
  /\ re_eval_tail = Regex.Atom [Regex.IChar "e"] Regex.One false :: tl re_eval_tail.
Proof. split; vm_compute; reflexivity. Qed.

Lemma cls_digit q cp c : Regex.cls (Regex.Atom [Regex.IDigit] q cp) c = Text.isdigit c.
Proof. unfold Regex.cls. cbn [Regex.set existsb Regex.item_matches]. apply orb_false_r. Qed.

Lemma fits_digits q cp m :
  fits (Regex.Atom [Regex.IDigit] q cp) m -> Text.all_chars Text.isdigit m = true.
Proof.
  intros [H _]. rewrite <- H. symmetry. apply all_chars_ext. intros c. apply cls_digit.
Qed.

(** The groups of the two tails, read off one match of all the atoms. *)
Lemma tails_pick all :
  Forall2 fits re_eval_tail all ->
  exists n r,
    pick re_eval_tail all = [n; r] /\ pick re_prompt_tail all = [r]
    /\ Text.all_chars Text.isdigit n = true /\ n <> "".
Proof.
  unfold re_eval_tail. intros H.
  repeat (apply Forall2_cons_inv_l in H;
          let m := fresh "m" in let Hm := fresh "Hm" in
          destruct H as (m & ? & Hm & H & ->)).
  apply Forall2_nil_inv_l in H. subst.
  match goal with
  | Hn : fits (Regex.Atom [Regex.IDigit] Regex.Plus true) ?n |- _ =>
      exists n; eexists; split; [reflexivity|]; split; [reflexivity|]; split;
        [exact (fits_digits _ _ _ Hn) | apply (proj2 Hn); discriminate]
  end.
Qed.

Lemma eval_tail_shape s caps :
  Regex.match_here re_eval_tail s = Some caps ->
  exists n r, caps = [n; r] /\ Text.all_chars Text.isdigit n = true /\ n <> "".
Proof.
  rewrite match_here_pick.
  destruct (Regex.match_here (capture_all re_eval_tail) s) as [all|] eqn:E; [|discriminate].
  cbn [option_map]. intros H. apply match_all_fits in E.
  destruct (tails_pick all E) as (n & r & H1 & _ & H2 & H3).
  exists n, r. rewrite H1 in H. injection H as <-. auto.
Qed.

Lemma prompt_tail_to_eval_tail s caps :
  Regex.match_here re_prompt_tail s = Some caps ->
  exists n r, caps = [r] /\ Regex.match_here re_eval_tail s = Some [n; r]
    /\ Text.all_chars Text.isdigit n = true /\ n <> "".
Proof.
  rewrite (match_here_pick re_prompt_tail), (match_here_pick re_eval_tail), re_tails_same_atoms.
  destruct (Regex.match_here (capture_all re_eval_tail) s) as [all|] eqn:E; [|discriminate].
  cbn [option_map]. intros H. apply match_all_fits in E.
  destruct (tails_pick all E) as (n & r & H1 & H2 & H3 & H4).
  exists n, r. rewrite H1. rewrite H2 in H. injection H as <-. auto.
Qed.

Lemma match_here_literal_ok d r s :
  Regex.match_here (Regex.Atom [Regex.IChar d] Regex.One false :: r) (String d s)
  = Regex.match_here r s.
Proof.
  cbn [Regex.match_here Regex.rep Regex.cap].
  unfold Regex.cls. cbn [Regex.set existsb Regex.item_matches].
  rewrite Ascii.eqb_refl. cbn [orb].
  destruct (Regex.match_here r s); reflexivity.
Qed.

Lemma eval_here_nonspace c s :
  Text.isspace c = false -> Regex.match_here re_eval (String c s) = None.
Proof. intros H. rewrite re_eval_cons, match_here_plus, cls_space, H. reflexivity. Qed.

Lemma eval_here_some s caps :
  Regex.match_here re_eval s = Some caps ->
  exists rest, Regex.match_here re_eval_tail rest = Some caps.
Proof.
  rewrite re_eval_cons. destruct s as [|c s]; [discriminate|].
  rewrite match_here_plus. destruct (Regex.cls _ c); [|discriminate].
  intros H. apply greedy_some in H. destruct H as (m & rest & _ & _ & H).
  exists rest. destruct (Regex.match_here re_eval_tail rest); [exact H | discriminate].
Qed.

Lemma eval_here_space_e s :
  Regex.match_here re_eval (String " " (String "e" s))
  = Regex.match_here re_eval_tail (String "e" s).
Proof.
  rewrite re_eval_cons, match_here_plus, cls_space.
  change (Text.isspace " ") with true. cbn [Regex.greedy].
  rewrite cls_space, not_space_e.
  destruct (Regex.match_here re_eval_tail (String "e" s)); reflexivity.
Qed.

Lemma not_space_r : Text.isspace "r" = false. Proof. vm_compute. reflexivity. Qed.
Lemma not_space_o : Text.isspace "o" = false. Proof. vm_compute. reflexivity. Qed.
Lemma not_space_t : Text.isspace "t" = false. Proof. vm_compute. reflexivity. Qed.

(** Where the prompt pattern matches, the generation pattern matches from
    the space before ["eval"], with the same token count and rate. *)
Lemma prompt_here_to_eval d caps :
  Regex.match_here re_prompt d = Some caps ->
  exists n r,
    caps = [r]
    /\ Regex.search re_eval d = Some [n; r]
    /\ Regex.match_here re_prompt_counted d = Some [n; r]
    /\ Text.all_chars Text.isdigit n = true /\ n <> "".
Proof.
  rewrite re_prompt_split. unfold literal. cbn [list_ascii_of_string map app]. intros H.
  do 7 (apply match_here_literal in H; destruct H as (? & -> & H)).
  destruct (prompt_tail_to_eval_tail _ _ H) as (n & r & -> & He & Hn & Hne).
  exists n, r. split; [reflexivity|].
  pose proof He as He'. rewrite (proj2 re_tails_start) in He'.
  apply match_here_literal in He'. destruct He' as (x' & Hx & _). subst.
  split; [|split; [|split; assumption]].
  - cbn [Regex.search].
    rewrite (eval_here_nonspace "p") by exact not_space_p.
    rewrite (eval_here_nonspace "r") by exact not_space_r.
    rewrite (eval_here_nonspace "o") by exact not_space_o.
    rewrite (eval_here_nonspace "m") by exact not_space_m.
    rewrite (eval_here_nonspace "p") by exact not_space_p.
    rewrite (eval_here_nonspace "t") by exact not_space_t.
    rewrite eval_here_space_e, He. reflexivity.
  - rewrite re_prompt_counted_split. unfold literal. cbn [list_ascii_of_string map app].
    rewrite !match_here_literal_ok. exact He.
Qed.

Lemma search_cons r c d :
  Regex.search r (String c d)
  = match Regex.match_here r (String c d) with
    | Some caps => Some caps
    | None => Regex.search r d
    end.
Proof. reflexivity. Qed.

Lemma search_here r d caps :
  Regex.match_here r d = Some caps -> Regex.search r d = Some caps.
Proof. intros H. destruct d; cbn [Regex.search]; rewrite H; reflexivity. Qed.

Lemma search_prompt_to_eval d : forall caps,
  Regex.search re_prompt d = Some caps ->
  exists r n r',
    caps = [r] /\ Regex.search re_eval d = Some [n; r']
    /\ Text.all_chars Text.isdigit n = true /\ n <> "".
Proof.
  induction d as [|c d IH]; intros caps H.
  - cbn [Regex.search] in H.
    destruct (Regex.match_here re_prompt "") as [x|] eqn:E; [|discriminate].
    injection H as <-.
    destruct (prompt_here_to_eval _ _ E) as (n & r & -> & Hs & _ & Hn & Hne).
    exists r, n, r. exact (conj eq_refl (conj Hs (conj Hn Hne))).
  - rewrite search_cons in H.
    destruct (Regex.match_here re_prompt (String c d)) as [x|] eqn:E.
    + injection H as <-.
      destruct (prompt_here_to_eval _ _ E) as (n & r & -> & Hs & _ & Hn & Hne).
      exists r, n, r. exact (conj eq_refl (conj Hs (conj Hn Hne))).
    + destruct (IH caps H) as (r & n & r' & -> & Hs & Hn & Hne).
      destruct (Regex.match_here re_eval (String c d)) as [y|] eqn:Ey.
      * destruct (eval_here_some _ _ Ey) as (rest & Hr).
        destruct (eval_tail_shape _ _ Hr) as (n2 & r2 & -> & Hn2 & Hne2).
        exists r, n2, r2.
        exact (conj eq_refl (conj (search_here _ _ _ Ey) (conj Hn2 Hne2))).
      * exists r, n, r'. rewrite search_cons, Ey.
        exact (conj eq_refl (conj Hs (conj Hn Hne))).
Qed.

Lemma release_block_frame d c st :
  let st' := match release_block d c st with Some x => x | None => st end in
  prompt_speed st' = prompt_speed st /\ gen_speed st' = gen_speed st
  /\ total_tokens st' = total_tokens st.
Proof.
  cbn zeta. unfold release_block.
  destruct (Regex.search re_release d); [|repeat split].
  destruct (Text.int _); repeat split.
Qed.

Lemma parse_stats_release_frame d c st2 :
  let st' := fst (match release_block d c st2 with
                  | Some st3 => (st3, false)
                  | None => (st2, true)
                  end) in
  prompt_speed st' = prompt_speed st2 /\ gen_speed st' = gen_speed st2
  /\ total_tokens st' = total_tokens st2.
Proof.
  cbn zeta. pose proof (release_block_frame d c st2) as H. cbn zeta in H.
  destruct (release_block d c st2); exact H.
Qed.

(** C9 (as amended): whenever the prompt pattern matches a line, the
    generation pattern matches it too and captures a run of digits and a
    rate.  If both rates are well-formed numbers and the run of digits has
    at most 4300 digits (the most that [int] converts), handling the line
    sets [prompt_speed] to the prompt rate, sets [gen_speed] to the rate the
    generation pattern captured and adds its token count to
    [total_tokens]; if the prompt rate is not a number nothing changes, and
    if only the token count or the other rate cannot be converted, only
    [prompt_speed] changes.  When the line begins with the prompt metric,
    as in the example, what the generation pattern captures is the prompt
    token count and the prompt rate. *)
Theorem prompt_line_also_counts_as_generation (line : string) (s : ServiceState)
    (caps : list string) :
  Regex.search re_prompt (Text.rstrip line) = Some caps ->
  exists n r',
    Regex.search re_eval (Text.rstrip line) = Some [n; r']
    /\ Text.all_chars Text.isdigit n = true /\ n <> ""
    /\ ((String.length n <= 4300)%nat -> Text.int n = Some (Text.digits_val 0 n))
    /\ ((4300 < String.length n)%nat -> Text.int n = None)
    /\ (let st' := stats (fst (log_line line s)) in
        match Text.float (group 1 caps), Text.int n, Text.float r' with
        | Some v, Some tokens, Some v' =>
            0 <= tokens
            /\ prompt_speed st' = v /\ gen_speed st' = v'
            /\ total_tokens st' = total_tokens (stats s) + tokens
        | Some v, _, _ => st' = set_prompt_speed v (stats s)
        | None, _, _ => st' = stats s
        end)
    /\ match Regex.match_here re_prompt (Text.rstrip line) with
       | Some caps0 =>
           r' = group 1 caps0
           /\ Regex.match_here re_prompt_counted (Text.rstrip line) = Some [n; r']
       | None => True
       end.
Proof.
  intros H. set (d := Text.rstrip line) in *.
  destruct (search_prompt_to_eval d caps H) as (r & n & r' & -> & Hs & Hn & Hne).
  exists n, r'.
  split; [exact Hs|]. split; [exact Hn|]. split; [exact Hne|].
  split; [intros Hl; apply int_of_digits; assumption|].
  split; [intros Hl; apply int_too_long, Hl|]. split.
  - cbn zeta. rewrite log_line_stats. fold d.
    unfold parse_stats, prompt_block, eval_block. rewrite H, Hs.
    change (group 1 [r]) with r. change (group 1 [n; r']) with n.
    change (group 2 [n; r']) with r'.
    destruct (Text.float r) as [v|];
      [|destruct (Text.int n); destruct (Text.float r'); reflexivity].
    destruct (Text.int n) as [tokens|] eqn:Hint;
      [|destruct (Text.float r'); reflexivity].
    destruct (Text.float r') as [v'|]; [|reflexivity].
    destruct (parse_stats_release_frame d (current_ctx s)
                (set_gen v' tokens (set_prompt_speed v (stats s)))) as (A & B & C).
    cbn zeta in A, B, C. rewrite A, B, C.
    split; [exact (int_nonneg n tokens Hint) | repeat split].
  - destruct (Regex.match_here re_prompt d) as [caps0|] eqn:E; [|exact I].
    destruct (prompt_here_to_eval d caps0 E) as (n0 & r0 & -> & Hs0 & Hc & _).
    rewrite Hs in Hs0. injection Hs0 as <- <-. split; [reflexivity | exact Hc].
Qed.

Lemma prompt_line_also_counts_as_generation_witness :
  Regex.search re_prompt (Text.rstrip prompt_line) = Some ["2355.46"]
  /\ exists n r',
       Regex.search re_eval (Text.rstrip prompt_line) = Some [n; r']
       /\ Text.all_chars Text.isdigit n = true /\ n <> ""
       /\ ((String.length n <= 4300)%nat -> Text.int n = Some (Text.digits_val 0 n))
       /\ ((4300 < String.length n)%nat -> Text.int n = None)
       /\ (let st' := stats (fst (log_line prompt_line example_running)) in
           match Text.float (group 1 ["2355.46"]), Text.int n, Text.float r' with
           | Some v, Some tokens, Some v' =>
               0 <= tokens
               /\ prompt_speed st' = v /\ gen_speed st' = v'
               /\ total_tokens st' = total_tokens (stats example_running) + tokens
           | Some v, _, _ => st' = set_prompt_speed v (stats example_running)
           | None, _, _ => st' = stats example_running
           end)
       /\ match Regex.match_here re_prompt (Text.rstrip prompt_line) with
          | Some caps0 =>
              r' = group 1 caps0
              /\ Regex.match_here re_prompt_counted (Text.rstrip prompt_line)
                 = Some [n; r']
          | None => True
          end.
Proof.
  assert (H : Regex.search re_prompt (Text.rstrip prompt_line) = Some ["2355.46"])
    by (vm_compute; reflexivity).
  split; [exact H|].
  exact (prompt_line_also_counts_as_generation prompt_line example_running _ H).
Defined.

Example prompt_line_stats :
  Regex.search re_eval prompt_line = Some ["11"; "2355.46"]
  /\ stats (fst (log_line prompt_line example_running))
     = {| ctx_used := 0; ctx_limit := 0; total_tokens := 11;
          prompt_speed := 117773 # 50; gen_speed := 117773 # 50 |}.
Proof. vm_compute. split; reflexivity. Qed.

(** C9, as stated, fails: the three lines match the prompt pattern, but
    the first sets [gen_speed] to 4.00 and adds 2 tokens, not the prompt
    rate 8.00 and the 6 prompt tokens, the second changes no statistic at
    all, and the third, whose token count has 4301 digits, sets
    [prompt_speed] only. *)
Lemma prompt_line_counterexamples :
  Regex.search re_prompt two_metric_line = Some ["8.00"]
  /\ prompt_speed (stats (fst (log_line two_metric_line example_running))) = 8 # 1
  /\ gen_speed (stats (fst (log_line two_metric_line example_running))) = 4 # 1
  /\ total_tokens (stats (fst (log_line two_metric_line example_running))) = 2
  /\ Regex.search re_prompt bad_rate_line = Some ["1.2.3"]
  /\ stats (fst (log_line bad_rate_line example_running)) = stats example_running
  /\ Regex.search re_prompt long_count_line = Some ["8.00"]
  /\ stats (fst (log_line long_count_line example_running))
     = set_prompt_speed (8 # 1) (stats example_running).
Proof. vm_compute. repeat split. Qed.

(* ===================================================================== *)
(** * Further properties *)
(* ===================================================================== *)

(* --------------------------------------------------------------------- *)
(** ** The log buffer *)
(* --------------------------------------------------------------------- *)

Lemma deque_append_lastn x q :
  (length q <= logs_maxlen)%nat ->
  deque_append x q = lastn logs_maxlen (q ++ [x])%list.
Proof.
  intros H. unfold deque_append, lastn. rewrite length_app. cbn [length].
  destruct (Nat.ltb_spec logs_maxlen (length q + 1)) as [Hlt|Hge].
  - replace (length q + 1 - logs_maxlen)%nat with 1%nat by lia.
    destruct (q ++ [x])%list; reflexivity.
  - replace (length q + 1 - logs_maxlen)%nat with 0%nat by lia. reflexivity.
Qed.

Lemma deque_append_length x q :
  (length q <= logs_maxlen)%nat -> (length (deque_append x q) <= logs_maxlen)%nat.
Proof.
  intros H. unfold deque_append.
  destruct (Nat.ltb_spec logs_maxlen (length (q ++ [x])%list)) as [Hlt|Hge]; [|exact Hge].
  rewrite length_app in *. cbn [length] in *.
  destruct (q ++ [x])%list eqn:E; cbn; [lia|].
  apply (f_equal (@length string)) in E. rewrite length_app in E. cbn in E. lia.
Qed.

Lemma lastn_app_lastn {A} n (l : list A) x :
  lastn n (lastn n l ++ [x])%list = lastn n (l ++ [x])%list.
Proof.
  unfold lastn. rewrite !length_app, length_skipn. cbn [length].
  destruct (Nat.le_gt_cases (length l) n) as [Hle|Hgt].
  - replace (length l - n)%nat with 0%nat by lia. cbn [skipn]. f_equal. lia.
  - rewrite !skipn_app, skipn_skipn, length_skipn. f_equal; f_equal; lia.
Qed.

Lemma lastn_app_lastn_list {A} n (q rest : list A) :
  lastn n (lastn n q ++ rest)%list = lastn n (q ++ rest)%list.
Proof.
  induction rest as [|y rest IH] using rev_ind.
  - rewrite !app_nil_r. unfold lastn. rewrite length_skipn.
    replace (length q - (length q - n) - n)%nat with 0%nat by lia. reflexivity.
  - rewrite !app_assoc. rewrite <- (lastn_app_lastn n (lastn n q ++ rest)).
    rewrite IH. apply lastn_app_lastn.
Qed.

Lemma stop_logs k s : logs (fst (_stop_process_unsafe k s)) = logs s.
Proof. unfold _stop_process_unsafe. destruct (process s); reflexivity. Qed.

Lemma start_logs key ctx env s :
  logs (snd (fst (_start_model_server key ctx env s))) = logs s.
Proof.
  unfold _start_model_server.
  destruct (config_mgr s) as [cm|]; [|reflexivity].
  destruct (get_models cm !! key); [|reflexivity].
  pose proof (stop_logs (kill env) s) as H.
  destruct (_stop_process_unsafe (kill env) s) as [s1 eff]. cbn in H.
  destruct (spawn env); cbn; exact H.
Qed.

Lemma step_logs e s :
  logs (step e s)
  = match e with
    | EvLine line => deque_append (Text.rstrip line) (logs s)
    | _ => logs s
    end.
Proof.
  destruct e as [key ctx env | k | line | code | fs k]; cbn [step].
  - apply start_logs.
  - apply stop_logs.
  - apply log_line_logs.
  - unfold proc_exit. destruct (process s) as [p|]; [|reflexivity].
    destruct (returncode p); reflexivity.
  - destruct (config_mgr s) as [cm|]; [|reflexivity].
    unfold on_config_change.
    match goal with |- context [_stop_process_unsafe k ?x] =>
      pose proof (stop_logs k x) as Hs;
      destruct (_stop_process_unsafe k x) as [s1 eff] end.
    cbn in *. exact Hs.
Qed.

Lemma reachable_logs_bounded s : reachable s -> (length (logs s) <= logs_maxlen)%nat.
Proof.
  induction 1 as [| ctx h file w fs | e s _ IH | fs s cm _ IH _];
    [cbn; lia | cbn; lia | | exact IH].
  rewrite step_logs. destruct e; try exact IH. apply deque_append_length, IH.
Qed.

Lemma log_reader_logs reads : forall s,
  (length (logs s) <= logs_maxlen)%nat ->
  logs (log_reader reads s)
  = lastn logs_maxlen
      (logs s ++ map Text.rstrip (List.filter (fun l => negb (String.eqb l "")) reads))%list.
Proof.
  induction reads as [|l reads IH]; intros s Hs.
  - cbn. rewrite app_nil_r. unfold lastn.
    replace (length (logs s) - logs_maxlen)%nat with 0%nat by lia. reflexivity.
  - cbn [log_reader fold_left]. destruct l as [|c l].
    + cbn [List.filter String.eqb negb]. apply IH, Hs.
    + change (fold_left _ reads ?x) with (log_reader reads x).
      rewrite IH by (rewrite log_line_logs; apply deque_append_length, Hs).
      rewrite log_line_logs, deque_append_lastn by exact Hs.
      cbn [List.filter String.eqb negb map].
      set (r := Text.rstrip (String c l)). set (rest := map Text.rstrip _).
      replace (logs s ++ r :: rest)%list with ((logs s ++ [r]) ++ rest)%list
        by (rewrite <- app_assoc; reflexivity).
      apply lastn_app_lastn_list.
Qed.

(** The log buffer never holds more than 2000 lines, and after the reader
    has gone through any sequence of reads it holds the last 2000 of what
    it held before followed by the lines read, each stripped of trailing
    whitespace, in order. *)
Theorem log_buffer_keeps_last_2000 (reads : list string) (s : ServiceState) :
  reachable s ->
  (length (get_logs s) <= 2000)%nat
  /\ (length (get_logs (log_reader reads s)) <= 2000)%nat
  /\ get_logs (log_reader reads s)
     = lastn 2000
         (get_logs s
          ++ map Text.rstrip (List.filter (fun l => negb (String.eqb l "")) reads))%list.
Proof.
  intros Hr. pose proof (reachable_logs_bounded s Hr) as Hb.
  unfold get_logs. split; [exact Hb|].
  pose proof (log_reader_logs reads s Hb) as E. split; [|exact E].
  rewrite E. unfold lastn. rewrite length_skipn. unfold logs_maxlen. lia.
Qed.

Lemma log_buffer_keeps_last_2000_witness :
  reachable example_running
  /\ get_logs (log_reader ["loading" ++ String (ascii_of_nat 10) ""; ""; "done   "]
                 example_running)
     = ["loading"; "done"].
Proof.
  split; [exact reachable_example_running|].
  rewrite (proj2 (proj2 (log_buffer_keeps_last_2000
                           ["loading" ++ String (ascii_of_nat 10) ""; ""; "done   "]
                           example_running reachable_example_running))).
  vm_compute. reflexivity.
Defined.

Lemma rstrip_stripped s : stripped (Text.rstrip s).
Proof.
  unfold stripped. induction s as [|c s IH]; [exact I|].
  cbn [Text.rstrip]. destruct (Text.rstrip s) as [|a r] eqn:E.
  - destruct (Text.isspace c) eqn:Ec; [exact I | exact Ec].
  - exact IH.
Qed.

Lemma rstrip_idem s : Text.rstrip (Text.rstrip s) = Text.rstrip s.
Proof.
  induction s as [|c s IH]; [reflexivity|].
  cbn [Text.rstrip]. destruct (Text.rstrip s) as [|a r] eqn:E.
  - destruct (Text.isspace c) eqn:Ec; [reflexivity|]. cbn. rewrite Ec. reflexivity.
  - change (Text.rstrip (String c (String a r)))
      with (match Text.rstrip (String a r) with
            | EmptyString => if Text.isspace c then EmptyString else String c EmptyString
            | x => String c x
            end).
    rewrite IH. reflexivity.
Qed.

Lemma deque_append_Forall (P : string -> Prop) x q :
  P x -> Forall P q -> Forall P (deque_append x q).
Proof.
  intros Hx Hq. unfold deque_append.
  assert (H : Forall P (q ++ [x])%list) by (apply Forall_app; split; [exact Hq | repeat constructor; exact Hx]).
  destruct (logs_maxlen <? length (q ++ [x])%list)%nat; [|exact H].
  destruct (q ++ [x])%list; [exact H|]. inversion H; assumption.
Qed.

(** Every line in the log buffer is stored without trailing whitespace (so
    without its newline), and stripping it again changes nothing. *)
Theorem log_buffer_lines_are_stripped (s : ServiceState) :
  reachable s ->
  Forall (fun l => stripped l /\ Text.rstrip l = l) (get_logs s).
Proof.
  unfold get_logs. induction 1 as [| ctx h file w fs | e s _ IH | fs s cm _ IH _];
    [constructor | constructor | | exact IH].
  rewrite step_logs. destruct e; try exact IH.
  apply deque_append_Forall; [|exact IH].
  split; [apply rstrip_stripped | apply rstrip_idem].
Qed.

Lemma log_buffer_lines_are_stripped_witness :
  reachable stale_state
  /\ Forall (fun l => stripped l /\ Text.rstrip l = l) (get_logs stale_state).
Proof.
  split; [exact reachable_stale_state|].
  exact (log_buffer_lines_are_stripped stale_state reachable_stale_state).
Defined.

(* --------------------------------------------------------------------- *)
(** ** Statistics are never negative *)
(* --------------------------------------------------------------------- *)

Lemma all_chars_app p a b :
  Text.all_chars p (a ++ b) = Text.all_chars p a && Text.all_chars p b.
Proof.
  induction a as [|c a IH]; [reflexivity|].
  rewrite append_cons. cbn [Text.all_chars]. rewrite IH, andb_assoc. reflexivity.
Qed.

Lemma float_nonneg s q : Text.float s = Some q -> (0 <= q)%Q.
Proof.
  unfold Text.float. destruct (Text.split_dot s) as [ip [fp|]].
  - destruct (Text.all_chars Text.isdigit ip && Text.all_chars Text.isdigit fp
              && negb (String.length ip + String.length fp =? 0)%nat) eqn:E; [|discriminate].
    intros [= <-]. rewrite Qred_correct.
    apply andb_true_iff in E. destruct E as [E _].
    assert (Hd : Text.all_chars Text.isdigit (ip ++ fp) = true)
      by (rewrite all_chars_app; exact E).
    pose proof (digits_val_nonneg (ip ++ fp) 0 (Z.le_refl 0) Hd) as Hn.
    unfold Qle, inject_Z. cbn [Qnum Qden]. lia.
  - destruct ip as [|c ip]; [discriminate|].
    destruct (Text.all_chars Text.isdigit (String c ip)) eqn:E; [|discriminate].
    intros [= <-].
    pose proof (digits_val_nonneg (String c ip) 0 (Z.le_refl 0) E) as Hn.
    cbn [Text.digits_val] in Hn. unfold Qle, inject_Z. cbn [Qnum Qden]. lia.
Qed.

Lemma parse_stats_nonneg d c st :
  stats_nonneg st -> stats_nonneg (fst (parse_stats d c st)).
Proof.
  intros Hst. unfold parse_stats.
  assert (H1 : forall st1, prompt_block d st = Some st1 -> stats_nonneg st1).
  { unfold prompt_block. intros st1. destruct (Regex.search re_prompt d); [|intros [= <-]; exact Hst].
    destruct (Text.float _) as [v|] eqn:Ev; [|discriminate]. intros [= <-].
    destruct Hst as (A & B & C & D & E). apply float_nonneg in Ev.
    repeat split; assumption. }
  assert (H2 : forall st1 st2, stats_nonneg st1 -> eval_block d st1 = Some st2 -> stats_nonneg st2).
  { unfold eval_block. intros st1 st2 Hs. destruct (Regex.search re_eval d); [|intros [= <-]; exact Hs].
    destruct (Text.int _) as [n|] eqn:En; [|discriminate].
    destruct (Text.float _) as [v|] eqn:Ev; [|discriminate]. intros [= <-].
    destruct Hs as (A & B & C & D & E). apply float_nonneg in Ev. apply int_nonneg in En.
    repeat split; cbn; try assumption. lia. }
  assert (H3 : forall st2 st3, stats_nonneg st2 -> release_block d c st2 = Some st3 -> stats_nonneg st3).
  { unfold release_block. intros st2 st3 Hs. destruct (Regex.search re_release d); [|intros [= <-]; exact Hs].
    destruct (Text.int _) as [n|] eqn:En; [|discriminate]. intros [= <-].
    destruct Hs as (A & B & C & D & E). apply int_nonneg in En.
    repeat split; cbn; try assumption.
    destruct (Z.ltb_spec 0 c); [lia | assumption]. }
  destruct (prompt_block d st) as [st1|] eqn:E1; [|exact Hst].
  destruct (eval_block d st1) as [st2|] eqn:E2; [|exact (H1 _ eq_refl)].
  destruct (release_block d c st2) as [st3|] eqn:E3; cbn [fst]; eauto.
Qed.

Lemma zero_stats_nonneg : stats_nonneg zero_stats.
Proof. repeat split; cbn; try lia; unfold Qle; cbn; lia. Qed.

Lemma step_stats_nonneg e s : stats_nonneg (stats s) -> stats_nonneg (stats (step e s)).
Proof.
  intros H. destruct e as [key ctx env | k | line | code | fs k]; cbn [step].
  - rewrite start_stats, stop_stats.
    destruct (config_mgr s) as [cm|]; [|exact H].
    destruct (get_models cm !! key); [|exact H].
    destruct (process s); [apply zero_stats_nonneg | exact H].
  - rewrite stop_stats. destruct (process s); [apply zero_stats_nonneg | exact H].
  - rewrite log_line_stats. apply parse_stats_nonneg, H.
  - unfold proc_exit. destruct (process s) as [p|]; [|exact H].
    destruct (returncode p); exact H.
  - destruct (config_mgr s) as [cm|]; [|exact H].
    unfold on_config_change.
    match goal with |- context [_stop_process_unsafe k ?x] =>
      pose proof (stop_stats k x) as Hs;
      destruct (_stop_process_unsafe k x) as [s1 eff] end.
    cbn in *. rewrite Hs. destruct (process s); [apply zero_stats_nonneg | exact H].
Qed.

(** Whatever text the backend writes, no statistic the status route reports
    is ever negative: token counts and context sizes are at least 0 and
    both speeds are at least 0. *)
Theorem reported_stats_never_negative (s : ServiceState) :
  reachable s -> stats_nonneg (StatusReport.stats (get_status s)).
Proof.
  cbn [get_status StatusReport.stats].
  induction 1 as [| ctx h file w fs | e s _ IH | fs s cm _ IH _];
    [apply zero_stats_nonneg | apply zero_stats_nonneg | apply step_stats_nonneg, IH
    | exact IH].
Qed.

Lemma reported_stats_never_negative_witness :
  reachable stale_state /\ stats_nonneg (StatusReport.stats (get_status stale_state)).
Proof.
  split; [exact reachable_stale_state|].
  exact (reported_stats_never_negative stale_state reachable_stale_state).
Defined.

(* --------------------------------------------------------------------- *)
(** ** The backend slot *)
(* --------------------------------------------------------------------- *)

Lemma stop_model_none k s : process s <> None ->
  current_model (fst (_stop_process_unsafe k s)) = None.
Proof. unfold _stop_process_unsafe. destruct (process s); [reflexivity | congruence]. Qed.

Lemma step_process_has_model e s :
  (process s = None <-> current_model s = None) ->
  (process (step e s) = None <-> current_model (step e s) = None).
Proof.
  intros H. destruct e as [key ctx env | k | line | code | fs k]; cbn [step].
  - unfold _start_model_server.
    destruct (config_mgr s) as [cm|]; [|exact H].
    destruct (get_models cm !! key); [|exact H].
    unfold _stop_process_unsafe. destruct (process s) eqn:E; destruct (spawn env); cbn;
      try (split; discriminate); try (split; reflexivity).
    split; [intros _; apply H; reflexivity | reflexivity].
  - unfold _stop_process_unsafe. destruct (process s) eqn:E; cbn; [split; reflexivity|].
    rewrite E. exact H.
  - destruct (log_line_frame line s) as (Hp & Hm & _). rewrite Hp, Hm. exact H.
  - unfold proc_exit. destruct (process s) as [p|] eqn:E; [|rewrite E; exact H].
    destruct (returncode p); [rewrite E; exact H|]. cbn.
    split; [discriminate|]. intros Hm. apply H in Hm. discriminate Hm.
  - destruct (config_mgr s) as [cm|]; [|exact H].
    unfold on_config_change, _stop_process_unsafe. cbn [set_config_mgr process].
    destruct (process s) eqn:E; cbn; [split; reflexivity|]. rewrite E. exact H.
Qed.

Lemma reachable_process_has_model s :
  reachable s -> (process s = None <-> current_model s = None).
Proof.
  induction 1 as [| ctx h file w fs | e s _ IH | fs s cm _ IH _];
    [split; reflexivity | split; reflexivity | apply step_process_has_model, IH
    | exact IH].
Qed.

(** The slot is consistent in every state the service can reach: there is a
    current model key exactly when there is a process handle, and without
    one the port is 0 and the status report shows neither port nor pid. *)
Theorem slot_has_model_iff_process (s : ServiceState) :
  reachable s ->
  (process s = None <-> current_model s = None)
  /\ (current_model s = None ->
      current_port s = 0
      /\ StatusReport.running (get_status s) = false
      /\ StatusReport.port (get_status s) = None
      /\ StatusReport.pid (get_status s) = None).
Proof.
  intros Hr. pose proof (reachable_process_has_model s Hr) as Hiff.
  split; [exact Hiff|]. intros Hm. apply Hiff in Hm.
  destruct (reachable_slot_consistent s Hr Hm) as [_ Hp].
  unfold get_status, is_running. cbn. rewrite Hm. auto.
Qed.

Lemma slot_has_model_iff_process_witness :
  reachable stale_state
  /\ (process stale_state = None <-> current_model stale_state = None)
  /\ current_model stale_state = None.
Proof.
  split; [exact reachable_stale_state|].
  split; [exact (proj1 (slot_has_model_iff_process stale_state reachable_stale_state))|].
  reflexivity.
Defined.

(* --------------------------------------------------------------------- *)
(** ** What the steps leave alone *)
(* --------------------------------------------------------------------- *)

Lemma stop_frame k s :
  let s' := fst (_stop_process_unsafe k s) in
  host s' = host s /\ default_ctx s' = default_ctx s /\ config_mgr s' = config_mgr s
  /\ logs s' = logs s /\ current_ctx s' = current_ctx s.
Proof. cbn zeta. unfold _stop_process_unsafe. destruct (process s); cbn; auto. Qed.

Lemma start_frame key ctx env s :
  let s' := snd (fst (_start_model_server key ctx env s)) in
  host s' = host s /\ default_ctx s' = default_ctx s /\ config_mgr s' = config_mgr s
  /\ logs s' = logs s.
Proof.
  cbn zeta. unfold _start_model_server.
  pose proof (stop_frame (kill env) s) as Hs. cbn zeta in Hs.
  destruct (config_mgr s) as [cm|] eqn:Ec; [|cbn [fst snd]; auto].
  destruct (get_models cm !! key); [|cbn [fst snd]; auto].
  destruct Hs as (A & B & C & D & _).
  destruct (_stop_process_unsafe (kill env) s) as [s1 eff]. cbn in A, B, C, D.
  destruct (spawn env); cbn; rewrite A, B, C, D; auto.
Qed.

Lemma proc_exit_frame code s :
  let s' := proc_exit code s in
  host s' = host s /\ default_ctx s' = default_ctx s /\ config_mgr s' = config_mgr s.
Proof.
  cbn zeta. unfold proc_exit. destruct (process s) as [p|]; [|auto].
  destruct (returncode p); cbn; auto.
Qed.

Lemma step_host_default_ctx e s :
  host (step e s) = host s /\ default_ctx (step e s) = default_ctx s.
Proof.
  destruct e as [key ctx env | k | line | code | fs k]; cbn [step].
  - destruct (start_frame key ctx env s) as (A & B & _). auto.
  - destruct (stop_frame k s) as (A & B & _). auto.
  - destruct (log_line_frame line s) as (_ & _ & _ & _ & A & B & _). auto.
  - destruct (proc_exit_frame code s) as (A & B & _). auto.
  - destruct (config_mgr s) as [cm|]; [|auto].
    unfold on_config_change.
    match goal with |- context [_stop_process_unsafe k ?x] =>
      pose proof (stop_frame k x) as Hs;
      destruct (_stop_process_unsafe k x) as [s1 eff] end.
    cbn in *. destruct Hs as (A & B & _). auto.
Qed.

Lemma step_config_mgr e s :
  match e with
  | EvConfigChange _ _ => True
  | _ => config_mgr (step e s) = config_mgr s
  end.
Proof.
  destruct e as [key ctx env | k | line | code | fs k]; cbn [step].
  - apply start_frame.
  - apply stop_frame.
  - apply log_line_frame.
  - apply proc_exit_frame.
  - exact I.
Qed.

(** No step ever changes the bind host or the default context size; the
    model mapping changes only on a configuration change; and the log
    buffer changes only when the reader handles a line: stopping or
    starting a backend leaves the lines of the previous one in place. *)
Theorem steps_leave_settings_and_logs (e : event) (s : ServiceState) :
  host (step e s) = host s
  /\ default_ctx (step e s) = default_ctx s
  /\ match e with
     | EvConfigChange _ _ => True
     | _ => config_mgr (step e s) = config_mgr s
     end
  /\ get_logs (step e s)
     = match e with
       | EvLine line => deque_append (Text.rstrip line) (get_logs s)
       | _ => get_logs s
       end.
Proof.
  destruct (step_host_default_ctx e s) as [A B].
  split; [exact A|]. split; [exact B|]. split; [apply step_config_mgr|].
  unfold get_logs. apply step_logs.
Qed.

(* --------------------------------------------------------------------- *)
(** ** Start: success, failure, and back *)
(* --------------------------------------------------------------------- *)

Lemma start_found key ctx env s cm conf :
  config_mgr s = Some cm ->
  get_models cm !! key = Some conf ->
  _start_model_server key ctx env s
  = let cmd_str := resolve_cmd (default "" (conf !! "cmd")) (free_port env)
                     (default (default_ctx s) ctx) (host s) in
    let banner := Print ("Starting model " ++ key ++ " on " ++ host s ++ ":"
                         ++ Text.str (free_port env) ++ " with command: " ++ cmd_str) in
    let s1 := fst (_stop_process_unsafe (kill env) s) in
    let eff := snd (_stop_process_unsafe (kill env) s) in
    match spawn env with
    | Spawned pid_ =>
        (inr {| port := free_port env; command := cmd_str |},
         {| process := Some {| pid := pid_; returncode := None |};
            current_model := Some key;
            current_ctx := default (default_ctx s) ctx;
            current_port := free_port env;
            default_ctx := default_ctx s1;
            host := host s1;
            ready := ready s1;
            logs := logs s1;
            config_mgr := config_mgr s1;
            stats := stats s1 |},
         (banner :: eff ++ [SpawnShell cmd_str pid_; StartLogReader pid_])%list)
    | SpawnRaises msg => (inl (RuntimeError msg), set_process None s1, (banner :: eff)%list)
    end.
Proof.
  intros Hcm Hkey. unfold _start_model_server. rewrite Hcm, Hkey.
  destruct (_stop_process_unsafe (kill env) s) as [s1 eff]. reflexivity.
Qed.

Lemma set_process_none_id s : process s = None -> set_process None s = s.
Proof. intros H. destruct s. cbn in *. subst. reflexivity. Qed.

(** Start and stop undo each other on a clean stopped service: a successful
    start followed by a stop gives back the state before the start, except
    that the context size of that start stays recorded. *)
Theorem start_then_stop_round_trip (key : string) (ctx : option Z) (env : start_env)
    (k : kill_outcome) (s : ServiceState) (cm : ConfigManager) (conf : ModelConf)
    (pid_ : Z) :
  cleared s ->
  config_mgr s = Some cm ->
  get_models cm !! key = Some conf ->
  spawn env = Spawned pid_ ->
  fst (_stop_process_unsafe k (snd (fst (_start_model_server key ctx env s))))
  = {| process := process s; current_model := current_model s;
       current_ctx := match ctx with Some c => c | None => default_ctx s end;
       current_port := current_port s; default_ctx := default_ctx s; host := host s;
       ready := ready s; logs := logs s; config_mgr := config_mgr s; stats := stats s |}.
Proof.
  intros (Hp & Hm & Hport & Hr & Hst) Hcm Hkey Hs.
  rewrite (start_found key ctx env s cm conf Hcm Hkey). cbn zeta. rewrite Hs.
  rewrite (stop_no_process (kill env) s Hp). cbn [fst snd].
  unfold _stop_process_unsafe. cbn.
  rewrite Hp, Hm, Hport, Hr, Hst. destruct ctx; reflexivity.
Qed.

Lemma start_then_stop_round_trip_witness :
  cleared example_boot
  /\ fst (_stop_process_unsafe TermExited example_running)
     = {| process := None; current_model := None; current_ctx := 8192;
          current_port := 0; default_ctx := 4096; host := "localhost";
          ready := false; logs := []; config_mgr := Some example_cm;
          stats := zero_stats |}.
Proof.
  assert (H1 : cleared example_boot) by (repeat split).
  assert (H2 : config_mgr example_boot = Some example_cm) by reflexivity.
  assert (H3 : get_models example_cm !! "a" = Some {[ "cmd" := "run --port ${PORT}" ]})
    by (vm_compute; reflexivity).
  split; [exact H1|].
  exact (start_then_stop_round_trip "a" (Some 8192) (example_env 40001 100) TermExited
           example_boot example_cm _ 100 H1 H2 H3 eq_refl).
Defined.

(** When the spawn fails, the caller gets the 500 response carrying the
    error text, and the state is exactly the one a plain stop would have
    left: the previously running backend has been torn down all the same,
    no process, model or port is recorded, and the context size of the
    failed start is not recorded either. *)
Theorem spawn_failure_leaves_stopped (key : string) (ctx : option Z) (env : start_env)
    (s : ServiceState) (cm : ConfigManager) (conf : ModelConf) (msg : string) :
  reachable s ->
  config_mgr s = Some cm ->
  get_models cm !! key = Some conf ->
  spawn env = SpawnRaises msg ->
  let out := start_server {| model_key := key; req_ctx := ctx |} env s in
  fst (fst out) = HTTPException 500 msg
  /\ snd (fst out) = fst (_stop_process_unsafe (kill env) s)
  /\ process (snd (fst out)) = None
  /\ current_model (snd (fst out)) = None
  /\ current_port (snd (fst out)) = 0
  /\ current_ctx (snd (fst out)) = current_ctx s
  /\ (process s <> None -> ready (snd (fst out)) = false /\ stats (snd (fst out)) = zero_stats).
Proof.
  intros Hr Hcm Hkey Hs. cbn zeta. unfold start_server. cbn [model_key req_ctx].
  rewrite (start_found key ctx env s cm conf Hcm Hkey). cbn zeta. rewrite Hs. cbn [fst snd].
  rewrite (set_process_none_id _ (stop_process_none (kill env) s)).
  split; [reflexivity|]. split; [reflexivity|].
  split; [apply stop_process_none|].
  destruct (stop_model_port (kill env) s (reachable_slot_consistent s Hr)) as [Hm Hp].
  split; [exact Hm|]. split; [exact Hp|]. split; [apply stop_keeps_ctx|].
  intros Hproc. destruct (process s) as [p|] eqn:E; [|congruence].
  destruct (stop_with_process (kill env) s p E) as (_ & _ & _ & A & B). auto.
Qed.

Lemma spawn_failure_leaves_stopped_witness :
  reachable example_running
  /\ fst (fst (start_server {| model_key := "b"; req_ctx := None |}
                 {| free_port := 40002; kill := TermExited;
                    spawn := SpawnRaises "Cannot allocate memory" |} example_running))
     = HTTPException 500 "Cannot allocate memory"
  /\ get_status (snd (fst (start_server {| model_key := "b"; req_ctx := None |}
                 {| free_port := 40002; kill := TermExited;
                    spawn := SpawnRaises "Cannot allocate memory" |} example_running)))
     = {| StatusReport.running := false; StatusReport.ready := false;
          StatusReport.model := None; StatusReport.ctx := 8192;
          StatusReport.port := None; StatusReport.host := "localhost";
          StatusReport.pid := None; StatusReport.stats := zero_stats |}.
Proof.
  split; [exact reachable_example_running|].
  assert (H3 : get_models example_cm !! "b"
               = Some {[ "cmd" := "serve -c $CTX --host ${HOST} -p $PORT" ]})
    by (vm_compute; reflexivity).
  pose proof (spawn_failure_leaves_stopped "b" None
                {| free_port := 40002; kill := TermExited;
                   spawn := SpawnRaises "Cannot allocate memory" |}
                example_running example_cm _ "Cannot allocate memory"
                reachable_example_running eq_refl H3 eq_refl) as H.
  cbn zeta in H. destruct H as (A & B & _).
  split; [exact A|]. rewrite B. vm_compute. reflexivity.
Defined.

Lemma start_unknown_key_plain key ctx env s cm :
  config_mgr s = Some cm ->
  get_models cm !! key = None ->
  _start_model_server key ctx env s = (inl (ValueError "Model not found in config"), s, []).
Proof. intros Hcm Hkey. unfold _start_model_server. rewrite Hcm, Hkey. reflexivity. Qed.

(** The keys [/api/config] lists are exactly the keys [start] accepts: a
    key is absent from the mapping that [get_config] returns (empty when
    there is no configuration manager) if and only if [start] raises
    "Model not found in config" or "Config not initialized" having changed
    nothing and done nothing: no print, no signal, no spawn. *)
Theorem startable_iff_listed (key : string) (ctx : option Z) (env : start_env)
    (s : ServiceState) :
  fst (get_config s) !! key = None
  <-> (_start_model_server key ctx env s
       = (inl (ValueError "Model not found in config"), s, [])
       \/ _start_model_server key ctx env s
          = (inl (RuntimeError "Config not initialized"), s, [])).
Proof.
  unfold get_config. cbn [fst]. split.
  - intros H. destruct (config_mgr s) as [cm|] eqn:Ec.
    + left. apply (start_unknown_key_plain key ctx env s cm Ec H).
    + right. apply start_without_config, Ec.
  - intros H. destruct (config_mgr s) as [cm|] eqn:Ec; [|apply lookup_empty].
    destruct (get_models cm !! key) as [conf|] eqn:Ek; [|reflexivity].
    rewrite (start_found key ctx env s cm conf Ec Ek) in H. cbn zeta in H.
    destruct (spawn env); destruct H as [H|H]; discriminate H.
Qed.

(** After a successful start the status route reports the backend as
    running with the requested key, the allocated port, the pid of the new
    process and the context size of the request (the default when none was
    given); readiness and statistics are those the teardown left: false and
    zero when a backend was replaced. *)
Theorem status_after_start (key : string) (ctx : option Z) (env : start_env)
    (s : ServiceState) (cm : ConfigManager) (conf : ModelConf) (pid_ : Z) :
  config_mgr s = Some cm ->
  get_models cm !! key = Some conf ->
  spawn env = Spawned pid_ ->
  get_status (snd (fst (_start_model_server key ctx env s)))
  = {| StatusReport.running := true;
       StatusReport.ready := match process s with Some _ => false | None => ready s end;
       StatusReport.model := Some key;
       StatusReport.ctx := match ctx with Some c => c | None => default_ctx s end;
       StatusReport.port := Some (free_port env);
       StatusReport.host := host s;
       StatusReport.pid := Some pid_;
       StatusReport.stats := match process s with Some _ => zero_stats | None => stats s end |}.
Proof.
  intros Hcm Hkey Hs.
  rewrite (start_found key ctx env s cm conf Hcm Hkey). cbn zeta. rewrite Hs. cbn [fst snd].
  unfold get_status, is_running, _stop_process_unsafe. cbn.
  destruct (process s); destruct ctx; reflexivity.
Qed.

Lemma status_after_start_witness :
  config_mgr example_running = Some example_cm
  /\ get_status (snd (fst (_start_model_server "b" None (example_env 40002 101)
                             example_running)))
     = {| StatusReport.running := true; StatusReport.ready := false;
          StatusReport.model := Some "b"; StatusReport.ctx := 4096;
          StatusReport.port := Some 40002; StatusReport.host := "localhost";
          StatusReport.pid := Some 101; StatusReport.stats := zero_stats |}.
Proof.
  split; [reflexivity|].
  assert (H3 : get_models example_cm !! "b"
               = Some {[ "cmd" := "serve -c $CTX --host ${HOST} -p $PORT" ]})
    by (vm_compute; reflexivity).
  rewrite (status_after_start "b" None (example_env 40002 101) example_running example_cm
             _ 101 eq_refl H3 eq_refl).
  reflexivity.
Defined.

(* --------------------------------------------------------------------- *)
(** ** A backend that exits by itself *)
(* --------------------------------------------------------------------- *)

(** When the backend process exits by itself, the status route reports it
    as not running, without port or pid, but the model key and the
    readiness flag stay as they were.  The next completion request for that
    same model starts it again: no signal is sent to the dead process, the
    new process is installed and the readiness flag and the statistics are
    reset. *)
Theorem exited_backend_is_restarted (code : Z) (env : proxy_env) (s : ServiceState)
    (p : Popen) (m : string) (cm : ConfigManager) (conf : ModelConf) (pid_ : Z) :
  process s = Some p ->
  returncode p = None ->
  current_model s = Some m ->
  config_mgr s = Some cm ->
  get_models cm !! m = Some conf ->
  spawn (start env) = Spawned pid_ ->
  let s1 := proc_exit code s in
  let out := auto_load m env s1 in
  StatusReport.running (get_status s1) = false
  /\ StatusReport.port (get_status s1) = None
  /\ StatusReport.pid (get_status s1) = None
  /\ StatusReport.model (get_status s1) = Some m
  /\ StatusReport.ready (get_status s1) = ready s
  /\ fst (fst out) = None
  /\ process (snd (fst out)) = Some {| pid := pid_; returncode := None |}
  /\ current_model (snd (fst out)) = Some m
  /\ ready (snd (fst out)) = false
  /\ stats (snd (fst out)) = zero_stats
  /\ List.filter is_signal (snd out) = [].
Proof.
  intros Hp Hrc Hm Hcm Hkey Hs. cbn zeta.
  assert (E1 : proc_exit code s
               = set_process (Some {| pid := pid p; returncode := Some code |}) s)
    by (unfold proc_exit; rewrite Hp, Hrc; reflexivity).
  rewrite E1. unfold get_status, is_running. cbn. rewrite Hm.
  do 5 (split; [reflexivity|]).
  unfold auto_load, is_running. cbn [set_process process current_model poll returncode].
  rewrite orb_true_r.
  rewrite (start_found m None (start env)
             (set_process (Some {| pid := pid p; returncode := Some code |}) s)
             cm conf Hcm Hkey).
  cbn zeta. rewrite Hs.
  unfold _stop_process_unsafe, terminate. cbn. repeat split.
Qed.

Lemma exited_backend_is_restarted_witness :
  process example_running = Some {| pid := 100; returncode := None |}
  /\ StatusReport.running (get_status (proc_exit 139 example_running)) = false
  /\ process (snd (fst (auto_load "a" example_proxy_env (proc_exit 139 example_running))))
     = Some {| pid := 101; returncode := None |}.
Proof.
  split; [reflexivity|].
  assert (H3 : get_models example_cm !! "a" = Some {[ "cmd" := "run --port ${PORT}" ]})
    by (vm_compute; reflexivity).
  pose proof (exited_backend_is_restarted 139 example_proxy_env example_running
                {| pid := 100; returncode := None |} "a" example_cm _ 101
                eq_refl eq_refl eq_refl eq_refl H3 eq_refl) as H.
  cbn zeta in H. destruct H as (A & _ & _ & _ & _ & _ & B & _).
  split; [exact A | exact B].
Defined.

(* --------------------------------------------------------------------- *)
(** ** The gateway: rejections, the fast path, and waiting *)
(* --------------------------------------------------------------------- *)

(** A completion request that cannot be served is rejected without any
    change to the state: invalid JSON and a missing or empty model field
    give 400 with no effect at all, and a model that the configuration does
    not have gives 404 naming it, whatever backend runs staying as it is.
    The one exception is a model that is absent from the configuration but
    is the current model with its backend running (the configuration was
    reloaded without it and the backend is not stopped yet): the gateway
    does not look the model up and serves the request from that backend. *)
Theorem proxy_rejections_leave_state (path : string) (env : proxy_env) (s : ServiceState)
    (m : string) (cm : ConfigManager) :
  m <> "" ->
  config_mgr s = Some cm ->
  get_models cm !! m = None ->
  proxy_to_llama path InvalidJSON env s = (HTTPException 400 "Invalid JSON", s, [])
  /\ proxy_to_llama path (Json None) env s = (HTTPException 400 "Model field required", s, [])
  /\ proxy_to_llama path (Json (Some "")) env s
     = (HTTPException 400 "Model field required", s, [])
  /\ (current_model s <> Some m \/ is_running s = false ->
      proxy_to_llama path (Json (Some m)) env s
      = (HTTPException 404 ("Model " ++ m ++ " not found"), s,
         [Print ("[Proxy] Auto-loading model: " ++ m)]))
  /\ (current_model s = Some m -> is_running s = true ->
      proxy_to_llama path (Json (Some m)) env s = await_ready_and_forward path env s []).
Proof.
  intros Hne Hcm Hkey. do 3 (split; [reflexivity|]).
  destruct m as [|c m]; [congruence|]. split.
  - intros Hnot. unfold proxy_to_llama, auto_load.
    assert (Hneed : negb (bool_decide (Some (String c m) = current_model s))
                    || negb (is_running s) = true).
    { destruct Hnot as [Hcur|Hrun].
      - rewrite bool_decide_eq_false_2 by congruence. reflexivity.
      - rewrite Hrun. apply orb_true_r. }
    rewrite Hneed.
    rewrite (start_unknown_key_plain _ None (start env) s cm Hcm Hkey). reflexivity.
  - intros Hcur Hrun. unfold proxy_to_llama, auto_load.
    rewrite bool_decide_eq_true_2 by congruence. rewrite Hrun. reflexivity.
Qed.

Lemma proxy_rejections_leave_state_witness :
  proxy_to_llama "/v1/completions" (Json (Some "z")) example_proxy_env example_running
  = (HTTPException 404 "Model z not found", example_running,
     [Print "[Proxy] Auto-loading model: z"])
  /\ reachable example_reloaded
  /\ proxy_to_llama "/v1/completions" (Json (Some "a")) example_proxy_env example_reloaded
     = await_ready_and_forward "/v1/completions" example_proxy_env example_reloaded [].
Proof.
  assert (H2 : get_models example_cm !! "z" = None) by (vm_compute; reflexivity).
  assert (H1 : "z" <> "") by discriminate.
  split; [|split].
  - apply (proj1 (proj2 (proj2 (proj2 (proxy_rejections_leave_state "/v1/completions"
             example_proxy_env example_running "z" example_cm H1 eq_refl H2))))).
    left. discriminate.
  - exact (reach_reload _ example_running example_cm reachable_example_running eq_refl).
  - apply (proj2 (proj2 (proj2 (proj2 (proxy_rejections_leave_state "/v1/completions"
             example_proxy_env example_reloaded "a"
             (fst (ConfigManager_reload
                     (FileLoaded 2 (YMapping (Some {[ "b" := {[ "cmd" := "serve" ]} ]})))
                     example_cm))
             ltac:(discriminate) eq_refl ltac:(vm_compute; reflexivity))))));
      reflexivity.
Defined.






(** A request for the model that is loaded, running and ready is forwarded
    at once: nothing is stopped or started, nothing is slept, and the state
    is unchanged. *)
Theorem proxy_fast_path (path m : string) (env : proxy_env) (s : ServiceState) :
  m <> "" ->
  current_model s = Some m ->
  is_running s = true ->
  ready s = true ->
  proxy_to_llama path (Json (Some m)) env s = (forward path env s, s, []).
Proof.
  intros Hne Hm Hrun Hready. unfold proxy_to_llama. destruct m as [|c m]; [congruence|].
  unfold auto_load. rewrite Hrun, (bool_decide_eq_true_2 _ (eq_sym Hm)). cbn [negb orb].
  unfold await_ready_and_forward, max_retries. cbn [wait_ready]. rewrite Hready.
  cbv beta iota. rewrite Hready. reflexivity.
Qed.

Lemma proxy_fast_path_witness :
  let s := fst (log_line "main: model loaded" example_running) in
  proxy_to_llama "/v1/completions" (Json (Some "a"))
    {| start := example_env 40002 101; during_sleep := fun _ => [];
       backend := UpstreamResponds 200 (Some "application/json") |} s
  = (StreamingResponse "http://localhost:40001/v1/completions" 200 (Some "application/json"),
     s, []).
Proof.
  cbn zeta.
  rewrite (proxy_fast_path "/v1/completions" "a" _
             (fst (log_line "main: model loaded" example_running))
             ltac:(discriminate) eq_refl eq_refl eq_refl).
  vm_compute. reflexivity.
Defined.

(* --------------------------------------------------------------------- *)
(** ** Readiness markers *)
(* --------------------------------------------------------------------- *)

Lemma contains_app needle pre post :
  Text.contains needle (pre ++ needle ++ post) = true.
Proof.
  induction pre as [|c pre IH].
  - rewrite append_nil. destruct (needle ++ post) eqn:E; cbn [Text.contains];
      rewrite <- E, startswith_self; reflexivity.
  - rewrite append_cons. cbn [Text.contains]. rewrite IH. apply orb_true_r.
Qed.

Lemma rstrip_append a b :
  Text.rstrip (a ++ b)
  = match Text.rstrip b with
    | EmptyString => Text.rstrip a
    | _ => a ++ Text.rstrip b
    end.
Proof.
  induction a as [|c a IH].
  - rewrite !append_nil. destruct (Text.rstrip b); reflexivity.
  - rewrite append_cons. cbn [Text.rstrip]. rewrite IH.
    destruct (Text.rstrip b) as [|x r] eqn:E; [reflexivity|].
    rewrite append_cons. destruct a; [rewrite append_nil | rewrite append_cons]; reflexivity.
Qed.

Lemma contains_rstrip needle pre post :
  needle <> "" -> Text.rstrip needle = needle ->
  Text.contains needle (Text.rstrip (pre ++ needle ++ post)) = true.
Proof.
  intros Hne Hs.
  assert (H : exists t, Text.rstrip (needle ++ post) = needle ++ t /\ needle ++ t <> "").
  { rewrite rstrip_append. destruct (Text.rstrip post) as [|x r].
    - exists "". rewrite append_nil_r, Hs. split; [reflexivity | exact Hne].
    - exists (String x r). split; [reflexivity|].
      destruct needle; [congruence | rewrite append_cons; discriminate]. }
  destruct H as (t & Ht & Hnz).
  rewrite rstrip_append, Ht. destruct (needle ++ t) eqn:E; [congruence|].
  rewrite <- E. apply contains_app.
Qed.

(** Each of the four marker texts sets the readiness flag wherever it
    stands in a line, whatever comes before or after it, trailing newline
    included; and a line changes the flag in no other way: the flag after
    the line is the flag before it or'ed with the presence of a marker. *)
Theorem marker_anywhere_sets_ready :
  Forall (fun m => forall pre post s, ready (fst (log_line (pre ++ m ++ post) s)) = true)
    ready_markers
  /\ forall line s,
       ready (fst (log_line line s))
       = ready s || existsb (fun m => Text.contains m (Text.rstrip line)) ready_markers.
Proof.
  split.
  - unfold ready_markers. repeat constructor; intros pre post s;
      match goal with |- context [log_line (pre ++ ?m ++ post)] =>
        pose proof (contains_rstrip m pre post ltac:(discriminate)
                      ltac:(vm_compute; reflexivity)) as Hc
      end;
      rewrite log_line_ready; unfold is_ready_marker; rewrite Hc;
      rewrite ?orb_true_r; reflexivity.
  - intros line s. rewrite log_line_ready. unfold is_ready_marker, ready_markers.
    cbn [existsb]. rewrite orb_false_r, !orb_assoc. reflexivity.
Qed.

(* --------------------------------------------------------------------- *)
(** ** Matching a text that is cut into maximal pieces *)
(* --------------------------------------------------------------------- *)

Lemma greedy_run_next {R} (p : ascii -> bool) w :
  forall (k : string -> string -> option R) rest x,
  Text.all_chars p w = true ->
  next_not p rest ->
  k w rest = Some x ->
  Regex.greedy p k (w ++ rest) = Some x.
Proof.
  induction w as [|a w IH]; intros k rest x Hw Hn Hk.
  - rewrite append_nil. destruct rest as [|c rest]; cbn [Regex.greedy]; [exact Hk|].
    cbn in Hn. rewrite Hn. exact Hk.
  - cbn in Hw. apply andb_true_iff in Hw. destruct Hw as [Ha Hw].
    rewrite append_cons. cbn [Regex.greedy]. rewrite Ha.
    rewrite (IH (fun m r => k (String a m) r) rest x Hw Hn Hk). reflexivity.
Qed.

Lemma match_here_munch r : forall ms tail,
  munch r ms tail -> Regex.match_here r (glue ms tail) = Some (pick r ms).
Proof.
  induction r as [|a r IH]; intros ms tail H.
  - destruct ms; [reflexivity | contradiction].
  - destruct ms as [|m ms]; [contradiction|].
    cbn [munch] in H. destruct H as [Ha Hr]. specialize (IH ms tail Hr).
    destruct a as [its q cp]. cbn [glue pick Regex.cap Regex.rep] in *.
    destruct q.
    + destruct m as [|c [|c' m]]; try contradiction.
      rewrite append_cons, append_nil.
      cbn [Regex.match_here Regex.rep Regex.cap]. rewrite Ha, IH. reflexivity.
    + destruct Ha as [Hall Hnext].
      cbn [Regex.match_here Regex.rep Regex.cap].
      apply greedy_run_next; [exact Hall | exact Hnext |]. rewrite IH. reflexivity.
    + destruct Ha as (Hall & Hne & Hnext). destruct m as [|c m]; [congruence|].
      cbn [Text.all_chars] in Hall. apply andb_true_iff in Hall. destruct Hall as [Hc Hall].
      rewrite append_cons, match_here_plus, Hc.
      apply greedy_run_next; [exact Hall | exact Hnext |]. rewrite IH. reflexivity.
Qed.

Lemma match_here_literal_clash t : forall r u rest,
  clash t u = false -> Regex.match_here (literal t ++ r)%list (u ++ rest) = None.
Proof.
  unfold literal. induction t as [|a t IH]; intros r u rest H; [discriminate H|].
  destruct u as [|b u]; [discriminate H|].
  cbn [clash] in H. cbn [list_ascii_of_string map app]. rewrite append_cons.
  destruct (Ascii.eqb_spec a b) as [->|Hab].
  - rewrite match_here_literal_ok. apply IH. exact H.
  - apply match_here_literal_mismatch; [|discriminate].
    destruct (Ascii.eqb_spec a b); [congruence | reflexivity].
Qed.

Lemma search_skip_free t r pre rest :
  free_of t pre = true ->
  Regex.search (literal t ++ r)%list (pre ++ rest)
  = Regex.search (literal t ++ r)%list rest.
Proof.
  induction pre as [|c pre IH]; intros H; [reflexivity|].
  cbn [free_of] in H. apply andb_true_iff in H. destruct H as [Hc H].
  apply negb_true_iff in Hc.
  pose proof (match_here_literal_clash t r (String c pre) rest Hc) as Hm.
  rewrite append_cons in *. rewrite search_cons, Hm. apply IH, H.
Qed.

Lemma next_not_first p q a rest :
  a <> "" -> Text.all_chars q a = true ->
  (forall c, q c = true -> p c = false) ->
  next_not p (a ++ rest).
Proof.
  intros Hne Hq Hpq. destruct a as [|c a]; [congruence|].
  rewrite append_cons. cbn in *. apply andb_true_iff in Hq. apply Hpq, Hq.
Qed.

Lemma next_not_skip p q w rest :
  Text.all_chars q w = true ->
  (forall c, q c = true -> p c = false) ->
  next_not p rest ->
  next_not p (w ++ rest).
Proof.
  intros Hq Hpq Hn. destruct w as [|c w]; [rewrite append_nil; exact Hn|].
  rewrite append_cons. cbn in *. apply andb_true_iff in Hq. apply Hpq, Hq.
Qed.

(* --------------------------------------------------------------------- *)
(** ** The slot-release line *)
(* --------------------------------------------------------------------- *)

Lemma re_release_split :
  re_release = (literal "stop processing: n_tokens = "
                ++ [Regex.Atom [Regex.IDigit] Regex.Plus true])%list.
Proof. vm_compute. reflexivity. Qed.

Lemma search_release_found pre n rest :
  free_of "stop processing: n_tokens = " pre = true ->
  Text.all_chars Text.isdigit n = true -> n <> "" ->
  next_not Text.isdigit rest ->
  Regex.search re_release (pre ++ "stop processing: n_tokens = " ++ n ++ rest) = Some [n].
Proof.
  intros Hfree Hd Hne Hnext.
  rewrite re_release_split, search_skip_free by exact Hfree.
  apply search_here.
  assert (Hlit : forall t r x, Regex.match_here (literal t ++ r)%list (t ++ x)
                               = Regex.match_here r x).
  { unfold literal. induction t as [|c t IH]; intros r x; [reflexivity|].
    cbn [list_ascii_of_string map app]. rewrite append_cons, match_here_literal_ok.
    apply IH. }
  rewrite Hlit.
  change (n ++ rest) with (glue [n] rest).
  rewrite (match_here_munch [Regex.Atom [Regex.IDigit] Regex.Plus true] [n] rest);
    [reflexivity|].
  cbn [munch Regex.rep glue]. split; [|exact I].
  split; [|split; [exact Hne|]].
  - rewrite (all_chars_ext _ Text.isdigit); [exact Hd | intros c; apply cls_digit].
  - destruct rest as [|c rest]; [exact I|]. cbn [next_not] in *.
    rewrite cls_digit. exact Hnext.
Qed.

(** A line that carries "stop processing: n_tokens = N", with anything
    before it in which that text does not begin and anything but a digit
    after the digits of N (at most 4300 of them, the most that [int]
    converts), and that is neither a prompt nor a generation metric, sets
    [ctx_used] to N and sets [ctx_limit] to the current context size when
    that is positive (leaving it otherwise); the other statistics are not
    affected. *)
Theorem release_line_sets_ctx_used (line pre n rest : string) (s : ServiceState) :
  Text.rstrip line = pre ++ "stop processing: n_tokens = " ++ n ++ rest ->
  free_of "stop processing: n_tokens = " pre = true ->
  Text.all_chars Text.isdigit n = true -> n <> "" ->
  (String.length n <= 4300)%nat ->
  next_not Text.isdigit rest ->
  Regex.search re_prompt (Text.rstrip line) = None ->
  Regex.search re_eval (Text.rstrip line) = None ->
  stats (fst (log_line line s))
  = {| ctx_used := Text.digits_val 0 n;
       ctx_limit := if 0 <? current_ctx s then current_ctx s else ctx_limit (stats s);
       total_tokens := total_tokens (stats s);
       prompt_speed := prompt_speed (stats s);
       gen_speed := gen_speed (stats s) |}.
Proof.
  intros Hline Hfree Hd Hne Hlen Hnext Hp He.
  rewrite log_line_stats. unfold parse_stats, prompt_block, eval_block, release_block.
  rewrite Hp, He, Hline, (search_release_found pre n rest Hfree Hd Hne Hnext).
  change (group 1 [n]) with n. rewrite (int_of_digits n Hne Hd Hlen). reflexivity.
Qed.

Lemma release_line_sets_ctx_used_witness :
  stats (fst (log_line
    ("slot      release: id  3 | task 10 | stop processing: n_tokens = 73, truncated = 0"
     ++ String (ascii_of_nat 10) "") example_running))
  = {| ctx_used := 73; ctx_limit := 8192; total_tokens := 0;
       prompt_speed := 0; gen_speed := 0 |}.
Proof.
  rewrite (release_line_sets_ctx_used _ "slot      release: id  3 | task 10 | " "73"
             ", truncated = 0" example_running);
    [reflexivity | vm_compute; reflexivity | vm_compute; reflexivity | reflexivity
    | discriminate | cbn [String.length]; lia | vm_compute; reflexivity
    | vm_compute; reflexivity | vm_compute; reflexivity].
Defined.

(* --------------------------------------------------------------------- *)
(** ** Well-formed timing lines *)
(* --------------------------------------------------------------------- *)

Lemma space_not_digit_or_dot c : Text.isspace c = true -> Text.isdigit_or_dot c = false.
Proof. destruct c as [[] [] [] [] [] [] [] []]; vm_compute; congruence. Qed.

Lemma digit_or_dot_not_space c : Text.isdigit_or_dot c = true -> Text.isspace c = false.
Proof.
  intros H. destruct (Text.isspace c) eqn:E; [|reflexivity].
  apply space_not_digit_or_dot in E. congruence.
Qed.

Lemma digit_is_digit_or_dot c : Text.isdigit c = true -> Text.isdigit_or_dot c = true.
Proof. unfold Text.isdigit_or_dot. intros ->. reflexivity. Qed.

Lemma cls_digit_dot q cp c :
  Regex.cls (Regex.Atom [Regex.IDigit; Regex.IChar "."] q cp) c = Text.isdigit_or_dot c.
Proof.
  unfold Regex.cls, Text.isdigit_or_dot. cbn [Regex.set existsb Regex.item_matches].
  rewrite orb_false_r, Ascii.eqb_sym. reflexivity.
Qed.

Lemma all_chars_impl (p q : ascii -> bool) w :
  (forall c, p c = true -> q c = true) ->
  Text.all_chars p w = true -> Text.all_chars q w = true.
Proof.
  intros H. induction w as [|c w IH]; [reflexivity|]. cbn. intros Hw.
  apply andb_true_iff in Hw. destruct Hw as [Hc Hw]. rewrite (H c Hc), (IH Hw). reflexivity.
Qed.

Lemma next_not_cons p c rest : p c = false -> next_not p (String c "" ++ rest).
Proof. intros H. exact H. Qed.

Lemma munch_same_atoms r1 : forall r2 ms tail,
  capture_all r1 = capture_all r2 -> munch r1 ms tail -> munch r2 ms tail.
Proof.
  induction r1 as [|a1 r1 IH]; intros r2 ms tail He H.
  - destruct r2; [exact H | discriminate He].
  - destruct r2 as [|a2 r2]; [discriminate He|].
    destruct a1 as [i1 q1 c1], a2 as [i2 q2 c2].
    cbn [capture_all map Regex.set Regex.rep] in He. injection He as -> -> He.
    destruct ms as [|m ms]; [contradiction|].
    cbn [munch Regex.rep] in *. destruct H as [Ha Hr].
    split; [|apply (IH r2 ms tail He Hr)].
    change (Regex.cls (Regex.Atom i2 q2 c2)) with (Regex.cls (Regex.Atom i2 q2 c1)).
    exact Ha.
Qed.

Ltac solve_next_not Hsp :=
  first
    [ exact I
    | apply next_not_cons; vm_compute; reflexivity
    | apply (next_not_skip _ Text.isspace);
        [ apply Hsp
        | intros ? ?; rewrite ?cls_digit_dot, ?cls_digit;
          first [ apply space_not_digit_or_dot; assumption
                | match goal with
                  | H : Text.isspace ?c = true |- Text.isdigit ?c = false =>
                      pose proof (space_not_digit_or_dot c H) as Hx;
                      unfold Text.isdigit_or_dot in Hx;
                      apply orb_false_iff in Hx; exact (proj1 Hx)
                  end ]
        | apply next_not_cons; vm_compute; reflexivity ]
    | apply (next_not_first _ Text.isdigit_or_dot);
        [ assumption
        | first [ assumption | apply (all_chars_impl Text.isdigit); [apply digit_is_digit_or_dot | assumption] ]
        | intros ? ?; rewrite cls_space; apply digit_or_dot_not_space; assumption ] ].

Lemma timing_munch sp a n b r rest :
  timing_ok sp a n b r ->
  munch re_eval_tail (timing_pieces sp a n b r) rest.
Proof.
  intros (Hsp & Ha & Ha0 & Hn & Hn0 & Hb & Hb0 & Hr & Hr0).
  unfold re_eval_tail, timing_pieces, chars.
  cbn [list_ascii_of_string map app munch Regex.rep glue].
  repeat match goal with
  | |- _ /\ _ => split
  | |- True => exact I
  | |- Regex.cls _ _ = true => vm_compute; reflexivity
  | |- Text.all_chars (Regex.cls (Regex.Atom [Regex.ISpace] _ _)) _ = true =>
      rewrite (all_chars_ext _ Text.isspace) by (intros; apply cls_space); apply Hsp
  | |- Text.all_chars (Regex.cls (Regex.Atom [Regex.IDigit] _ _)) _ = true =>
      rewrite (all_chars_ext _ Text.isdigit) by (intros; apply cls_digit); assumption
  | |- Text.all_chars (Regex.cls (Regex.Atom [Regex.IDigit; Regex.IChar "."] _ _)) _ = true =>
      rewrite (all_chars_ext _ Text.isdigit_or_dot) by (intros; apply cls_digit_dot);
      assumption
  | |- _ <> "" => assumption
  | |- next_not _ _ => solve_next_not Hsp
  end.
Qed.

Lemma glue_timing sp a n b r rest :
  glue (timing_pieces sp a n b r) rest = timing_text sp a n b r rest.
Proof. reflexivity. Qed.

Lemma match_here_literal_prefix t : forall r x,
  Regex.match_here (literal t ++ r)%list (t ++ x) = Regex.match_here r x.
Proof.
  unfold literal. induction t as [|c t IH]; intros r x; [reflexivity|].
  cbn [list_ascii_of_string map app]. rewrite append_cons, match_here_literal_ok.
  apply IH.
Qed.

Lemma match_here_literal_no c d r y :
  Ascii.eqb d c = false ->
  Regex.match_here (Regex.Atom [Regex.IChar c] Regex.One false :: r) (String d y) = None.
Proof.
  intros H. cbn [Regex.match_here Regex.rep Regex.cap].
  unfold Regex.cls. cbn [Regex.set existsb Regex.item_matches].
  rewrite Ascii.eqb_sym, H. reflexivity.
Qed.

Lemma tail_needs_e d y :
  Ascii.eqb d "e" = false -> Regex.match_here re_eval_tail (String d y) = None.
Proof.
  intros H. rewrite (proj2 re_tails_start). apply match_here_literal_no, H.
Qed.

Lemma space_before_e_cons c d t :
  space_before_e (String c (String d t)) = false ->
  (Text.isspace c = true -> Ascii.eqb d "e" = false)
  /\ space_before_e (String d t) = false.
Proof.
  cbn [space_before_e]. intros H. apply orb_false_iff in H. destruct H as [H1 H2].
  split; [|exact H2]. intros Hc. rewrite Hc in H1. exact H1.
Qed.

Lemma greedy_blocked t : forall c d y,
  Text.isspace c = true ->
  space_before_e (String c (t ++ String d "")) = false ->
  Text.isspace d = false ->
  Regex.greedy (Regex.cls (Regex.Atom [Regex.ISpace] Regex.Plus false))
    (fun _ r => Regex.match_here re_eval_tail r) (t ++ String d y) = None.
Proof.
  induction t as [|d' t IH]; intros c d y Hc Hq Hd.
  - rewrite append_nil in *. apply space_before_e_cons in Hq. destruct Hq as [He _].
    cbn [Regex.greedy]. rewrite cls_space, Hd. apply tail_needs_e, He, Hc.
  - rewrite append_cons in *. apply space_before_e_cons in Hq. destruct Hq as [He Hq].
    cbn [Regex.greedy]. rewrite cls_space.
    destruct (Text.isspace d') eqn:Hd'.
    + rewrite (IH d' d y Hd' Hq Hd). apply tail_needs_e, He, Hc.
    + apply tail_needs_e, He, Hc.
Qed.

Lemma eval_here_blocked t c d y :
  space_before_e (String c (t ++ String d "")) = false ->
  Text.isspace d = false ->
  Regex.match_here re_eval (String c (t ++ String d y)) = None.
Proof.
  intros Hq Hd. destruct (Text.isspace c) eqn:Hc; [|apply eval_here_nonspace, Hc].
  rewrite re_eval_cons, match_here_plus, cls_space, Hc.
  rewrite (greedy_map (fun x => x) _ _ _ (fun _ r => Regex.match_here re_eval_tail r)).
  - rewrite (greedy_blocked t c d y Hc Hq Hd). reflexivity.
  - intros m rest. reflexivity.
Qed.

Lemma search_eval_skip t : forall d y,
  space_before_e (t ++ String d "") = false ->
  Text.isspace d = false ->
  Regex.search re_eval (t ++ String d y) = Regex.search re_eval (String d y).
Proof.
  induction t as [|c t IH]; intros d y Hq Hd; [reflexivity|].
  rewrite append_cons in *. rewrite search_cons, (eval_here_blocked t c d y Hq Hd).
  apply IH; [|exact Hd].
  destruct t; [reflexivity|]. rewrite append_cons in *.
  apply space_before_e_cons in Hq. apply Hq.
Qed.

Lemma last_split s :
  s <> "" -> exists t d, s = t ++ String d "" /\ last_char s = Some d.
Proof.
  induction s as [|c s IH]; intros H; [congruence|].
  destruct s as [|c' s].
  - exists "", c. split; reflexivity.
  - destruct IH as (t & d & E & L); [discriminate|].
    exists (String c t), d. rewrite append_cons, <- E. split; [reflexivity | exact L].
Qed.

Lemma search_eval_skip_stripped pre c y :
  space_before_e pre = false ->
  stripped pre ->
  Regex.search re_eval (pre ++ String c y) = Regex.search re_eval (String c y).
Proof.
  intros Hq Hs. destruct pre as [|p pre]; [reflexivity|].
  destruct (last_split (String p pre)) as (t & d & E & L); [discriminate|].
  unfold stripped in Hs. rewrite L in Hs. rewrite E in *.
  replace ((t ++ String d "") ++ String c y) with (t ++ String d (String c y)).
  - rewrite search_eval_skip by assumption.
    rewrite search_cons, (eval_here_nonspace d _ Hs). reflexivity.
  - clear. induction t as [|x t IH]; [reflexivity|]. rewrite !append_cons, IH. reflexivity.
Qed.

Lemma eval_tail_on_timing sp a n b r rest :
  timing_ok sp a n b r ->
  Regex.match_here re_eval_tail (timing_text sp a n b r rest) = Some [n; r].
Proof.
  intros H. rewrite <- glue_timing.
  rewrite (match_here_munch _ _ _ (timing_munch sp a n b r rest H)). reflexivity.
Qed.

Lemma prompt_tail_on_timing sp a n b r rest :
  timing_ok sp a n b r ->
  Regex.match_here re_prompt_tail (timing_text sp a n b r rest) = Some [r].
Proof.
  intros H. rewrite <- glue_timing.
  rewrite (match_here_munch re_prompt_tail (timing_pieces sp a n b r) rest); [reflexivity|].
  apply (munch_same_atoms re_eval_tail); [symmetry; apply re_tails_same_atoms|].
  apply timing_munch, H.
Qed.

Lemma search_eval_on_timing pre sp a n b r rest :
  space_before_e pre = false ->
  stripped pre ->
  sp 0%nat <> "" ->
  timing_ok sp a n b r ->
  Regex.search re_eval (pre ++ sp 0%nat ++ timing_text sp a n b r rest) = Some [n; r].
Proof.
  intros Hq Hpre H0 H.
  pose proof (eval_tail_on_timing sp a n b r rest H) as Ht.
  destruct (sp 0%nat) as [|c w] eqn:E0; [congruence|].
  assert (Hw : Text.all_chars Text.isspace (String c w) = true)
    by (rewrite <- E0; apply H).
  cbn [Text.all_chars] in Hw. apply andb_true_iff in Hw. destruct Hw as [Hc Hw].
  rewrite append_cons, search_eval_skip_stripped by assumption.
  apply search_here. rewrite re_eval_cons.
  rewrite match_here_plus, cls_space, Hc.
  rewrite (greedy_run_next _ w _ _ [n; r]); [reflexivity | | | rewrite Ht; reflexivity].
  - rewrite (all_chars_ext _ Text.isspace) by (intros; apply cls_space). exact Hw.
  - unfold timing_text. apply next_not_cons. rewrite cls_space. exact not_space_e.
Qed.

(** Every well-formed generation-evaluation line is recognised, whatever
    its numbers and its spacing: a prefix that does not end in whitespace
    and in which no whitespace is directly followed by "e" (such as a logger
    name), then whitespace, then "eval time = A ms / N tokens ( B ms per
    token, R tokens per second)" with any whitespace runs between the
    words.  If R reads as a number, N has at most 4300 digits (the most
    that [int] converts) and the line is not a prompt line,
    [gen_speed] becomes R, [total_tokens] grows by N and [prompt_speed]
    stays. *)
Theorem generation_line_is_recognised (line pre : string) (sp : nat -> string)
    (a n b r rest : string) (v : Q) (s : ServiceState) :
  Text.rstrip line = pre ++ sp 0%nat ++ timing_text sp a n b r rest ->
  space_before_e pre = false ->
  stripped pre ->
  sp 0%nat <> "" ->
  timing_ok sp a n b r ->
  (String.length n <= 4300)%nat ->
  Text.float r = Some v ->
  Regex.search re_prompt (Text.rstrip line) = None ->
  Regex.search re_eval (Text.rstrip line) = Some [n; r]
  /\ gen_speed (stats (fst (log_line line s))) = v
  /\ total_tokens (stats (fst (log_line line s)))
     = total_tokens (stats s) + Text.digits_val 0 n
  /\ prompt_speed (stats (fst (log_line line s))) = prompt_speed (stats s).
Proof.
  intros Hline Hq Hpre H0 Hok Hlen Hv Hp.
  pose proof (search_eval_on_timing pre sp a n b r rest Hq Hpre H0 Hok) as Hs.
  rewrite <- Hline in Hs. split; [exact Hs|].
  rewrite log_line_stats. unfold parse_stats, prompt_block, eval_block. rewrite Hp, Hs.
  change (group 1 [n; r]) with n. change (group 2 [n; r]) with r. rewrite Hv.
  destruct Hok as (_ & _ & _ & Hn & Hn0 & _).
  pose proof (int_of_digits n Hn0 Hn Hlen) as Hint.
  rewrite Hint.
  destruct (parse_stats_release_frame (Text.rstrip line) (current_ctx s)
              (set_gen v (Text.digits_val 0 n) (stats s))) as (A & B & C).
  cbn zeta in A, B, C. rewrite A, B, C. repeat split.
Qed.

Lemma generation_line_is_recognised_witness :
  let line :=
    "llama_perf_context_print:        eval time =     492.12 ms /     9 tokens (   54.68 ms per token,    18.29 tokens per second)"
    ++ String (ascii_of_nat 10) "" in
  gen_speed (stats (fst (log_line line example_running))) = 1829 # 100
  /\ total_tokens (stats (fst (log_line line example_running))) = 9.
Proof.
  cbn zeta.
  pose (sp := fun i : nat =>
    match i with
    | 0%nat => "        " | 2%nat => "     " | 5%nat => "     " | 8%nat => "   "
    | 10%nat => "    " | _ => " "
    end).
  assert (Hok : timing_ok sp "492.12" "9" "54.68" "18.29").
  { split; [|repeat split; try discriminate; vm_compute; reflexivity].
    intros i. do 11 (destruct i as [|i]; [vm_compute; reflexivity|]). reflexivity. }
  destruct (generation_line_is_recognised
              ("llama_perf_context_print:        eval time =     492.12 ms /     9 tokens (   54.68 ms per token,    18.29 tokens per second)"
               ++ String (ascii_of_nat 10) "")
              "llama_perf_context_print:" sp "492.12" "9" "54.68" "18.29" ""
              (1829 # 100) example_running
              ltac:(vm_compute; reflexivity) ltac:(vm_compute; reflexivity)
              ltac:(vm_compute; reflexivity)
              ltac:(discriminate) Hok ltac:(cbn [String.length]; lia)
              ltac:(vm_compute; reflexivity)
              ltac:(vm_compute; reflexivity)) as (_ & A & B & _).
  split; [exact A | rewrite B; reflexivity].
Defined.

(** Every well-formed prompt-evaluation line is recognised, whatever its
    numbers and its spacing: a prefix in which "prompt " does not begin and
    no whitespace is directly followed by "e", then "prompt eval time = A
    ms / N tokens ( B ms per token, R tokens per second)" with any
    whitespace runs between the words after "prompt eval time".  If R
    reads as a number and N has at most 4300 digits (the most that [int]
    converts), [prompt_speed] becomes R, and, the generation pattern
    matching from the space after "prompt", [gen_speed] becomes R as well
    and [total_tokens] grows by N. *)
Theorem prompt_line_is_recognised (line pre : string) (sp : nat -> string)
    (a n b r rest : string) (v : Q) (s : ServiceState) :
  Text.rstrip line = pre ++ "prompt " ++ timing_text sp a n b r rest ->
  space_before_e (pre ++ "p") = false ->
  free_of "prompt " pre = true ->
  timing_ok sp a n b r ->
  (String.length n <= 4300)%nat ->
  Text.float r = Some v ->
  Regex.search re_prompt (Text.rstrip line) = Some [r]
  /\ Regex.search re_eval (Text.rstrip line) = Some [n; r]
  /\ prompt_speed (stats (fst (log_line line s))) = v
  /\ gen_speed (stats (fst (log_line line s))) = v
  /\ total_tokens (stats (fst (log_line line s)))
     = total_tokens (stats s) + Text.digits_val 0 n.
Proof.
  intros Hline Hpre Hfree Hok Hlen Hv.
  set (tt := timing_text sp a n b r rest) in *.
  assert (Hhere : Regex.match_here re_prompt ("prompt " ++ tt) = Some [r]).
  { rewrite re_prompt_split, match_here_literal_prefix.
    apply prompt_tail_on_timing, Hok. }
  assert (Hp : Regex.search re_prompt (Text.rstrip line) = Some [r]).
  { rewrite Hline, re_prompt_split, search_skip_free by exact Hfree.
    rewrite <- re_prompt_split. apply search_here, Hhere. }
  assert (He : Regex.search re_eval (Text.rstrip line) = Some [n; r]).
  { rewrite Hline.
    change ("prompt " ++ tt) with (String "p" ("rompt " ++ tt)).
    rewrite (search_eval_skip pre "p" _ Hpre not_space_p).
    change (String "p" ("rompt " ++ tt)) with ("prompt " ++ tt).
    destruct (prompt_here_to_eval _ _ Hhere) as (n0 & r0 & Hr0 & Hs & Hc & _).
    injection Hr0 as <-.
    rewrite re_prompt_counted_split, match_here_literal_prefix in Hc.
    unfold tt in Hc. rewrite (eval_tail_on_timing sp a n b r rest Hok) in Hc.
    injection Hc as <-. exact Hs. }
  split; [exact Hp|]. split; [exact He|].
  rewrite log_line_stats. unfold parse_stats, prompt_block, eval_block. rewrite Hp, He.
  change (group 1 [r]) with r. change (group 1 [n; r]) with n.
  change (group 2 [n; r]) with r. rewrite Hv.
  destruct Hok as (_ & _ & _ & Hn & Hn0 & _).
  pose proof (int_of_digits n Hn0 Hn Hlen) as Hint.
  rewrite Hint.
  destruct (parse_stats_release_frame (Text.rstrip line) (current_ctx s)
              (set_gen v (Text.digits_val 0 n) (set_prompt_speed v (stats s))))
    as (A & B & C).
  cbn zeta in A, B, C. rewrite A, B, C. repeat split.
Qed.

Lemma prompt_line_is_recognised_witness :
  let line :=
    "llama_perf_context_print: prompt eval time =       4.67 ms /    11 tokens (    0.42 ms per token,  2355.46 tokens per second)"
    ++ String (ascii_of_nat 10) "" in
  prompt_speed (stats (fst (log_line line example_running))) = 117773 # 50
  /\ gen_speed (stats (fst (log_line line example_running))) = 117773 # 50
  /\ total_tokens (stats (fst (log_line line example_running))) = 11.
Proof.
  cbn zeta.
  pose (sp := fun i : nat =>
    match i with
    | 2%nat => "       " | 5%nat => "    " | 8%nat => "    " | 10%nat => "  " | _ => " "
    end).
  assert (Hok : timing_ok sp "4.67" "11" "0.42" "2355.46").
  { split; [|repeat split; try discriminate; vm_compute; reflexivity].
    intros i. do 11 (destruct i as [|i]; [vm_compute; reflexivity|]). reflexivity. }
  destruct (prompt_line_is_recognised
              ("llama_perf_context_print: prompt eval time =       4.67 ms /    11 tokens (    0.42 ms per token,  2355.46 tokens per second)"
               ++ String (ascii_of_nat 10) "")
              "llama_perf_context_print: " sp "4.67" "11" "0.42" "2355.46" ""
              (117773 # 50) example_running
              ltac:(vm_compute; reflexivity) ltac:(vm_compute; reflexivity)
              ltac:(vm_compute; reflexivity) Hok ltac:(cbn [String.length]; lia)
              ltac:(vm_compute; reflexivity))
    as (_ & _ & A & B & C).
  split; [exact A|]. split; [exact B | rewrite C; reflexivity].
Defined.

(* --------------------------------------------------------------------- *)
(** ** The configuration watcher *)
(* --------------------------------------------------------------------- *)

Lemma watch_tick_newer t fs k s cm :
  config_mgr s = Some cm -> watch cm = true -> last_mtime cm < t ->
  fst (watch_tick (StatMtime t) fs k s)
  = fst (_stop_process_unsafe k
           (set_config_mgr (Some (fst (ConfigManager_reload fs cm))) s)).
Proof.
  intros Hcm Hw Ht. unfold watch_tick. rewrite Hcm, Hw.
  destruct (Z.ltb_spec (last_mtime cm) t) as [_|]; [|lia].
  destruct (ConfigManager_reload fs cm) as [cm' eff1]. unfold on_config_change.
  cbn [fst]. destruct (_stop_process_unsafe k (set_config_mgr (Some cm') s)). reflexivity.
Qed.

Lemma reload_fails_id fs cm : load_fails fs -> fst (ConfigManager_reload fs cm) = cm.
Proof. destruct fs as [| |m [e|]]; cbn; intros H; solve [reflexivity | destruct H]. Qed.

Lemma stop_config_mgr k c s :
  config_mgr (fst (_stop_process_unsafe k (set_config_mgr c s))) = c.
Proof.
  destruct (stop_frame k (set_config_mgr c s)) as (_ & _ & H & _). cbn zeta in H.
  rewrite H. reflexivity.
Qed.

(** A watched configuration file that is newer but cannot be read or
    parsed, or whose document is not a mapping, is tried again at every
    turn of the watcher: [reload] raises before it assigns anything, so the
    turn stops the backend and leaves the mapping and the remembered
    modification time as they were, and a backend started afterwards is
    stopped by the next turn too. *)
Theorem broken_config_is_retried_every_tick (s : ServiceState) (cm : ConfigManager)
    (t : Z) (fs fs2 : file_view) (k k2 : kill_outcome)
    (key : string) (ctx : option Z) (env : start_env) :
  config_mgr s = Some cm ->
  watch cm = true ->
  last_mtime cm < t ->
  load_fails fs ->
  load_fails fs2 ->
  let s1 := fst (watch_tick (StatMtime t) fs k s) in
  let s2 := snd (fst (_start_model_server key ctx env s1)) in
  let s3 := fst (watch_tick (StatMtime t) fs2 k2 s2) in
  process s1 = None /\ config_mgr s1 = Some cm
  /\ process s3 = None /\ config_mgr s3 = Some cm.
Proof.
  intros Hcm Hw Ht Hf Hf2. cbn zeta.
  assert (H1 : config_mgr (fst (watch_tick (StatMtime t) fs k s)) = Some cm).
  { rewrite (watch_tick_newer t fs k s cm Hcm Hw Ht), (reload_fails_id fs cm Hf).
    apply stop_config_mgr. }
  assert (H2 : config_mgr (snd (fst (_start_model_server key ctx env
                 (fst (watch_tick (StatMtime t) fs k s))))) = Some cm).
  { destruct (start_frame key ctx env (fst (watch_tick (StatMtime t) fs k s)))
      as (_ & _ & H & _).
    cbn zeta in H. rewrite H. exact H1. }
  split; [rewrite (watch_tick_newer t fs k s cm Hcm Hw Ht); apply stop_process_none|].
  split; [exact H1|].
  rewrite (watch_tick_newer t fs2 k2 _ cm H2 Hw Ht), (reload_fails_id fs2 cm Hf2).
  split; [apply stop_process_none | apply stop_config_mgr].
Qed.

Lemma broken_config_is_retried_every_tick_witness :
  let s := set_config_mgr
             (Some {| config_file := "config.yaml"; watch := true;
                      models := example_models; last_mtime := 1 |}) example_running in
  let s1 := fst (watch_tick (StatMtime 2) (FileRaises "mapping values are not allowed here")
                   TermExited s) in
  let s2 := snd (fst (_start_model_server "b" None (example_env 40002 101) s1)) in
  process s2 <> None
  /\ process (fst (watch_tick (StatMtime 2) (FileLoaded 2 YOther) TermExited s2)) = None.
Proof.
  cbn zeta. split; [vm_compute; discriminate|].
  apply (broken_config_is_retried_every_tick
           (set_config_mgr
              (Some {| config_file := "config.yaml"; watch := true;
                       models := example_models; last_mtime := 1 |}) example_running)
           {| config_file := "config.yaml"; watch := true;
              models := example_models; last_mtime := 1 |}
           2 (FileRaises "mapping values are not allowed here") (FileLoaded 2 YOther)
           TermExited TermExited "b" None (example_env 40002 101));
    [reflexivity | reflexivity | reflexivity | exact I | exact I].
Defined.

(** After the watcher has loaded a newer file, the service lists the
    models of that file, the backend is stopped, and further turns of the
    watcher do nothing as long as the file's modification time is not past
    the one read at the load. *)
Theorem loaded_config_quiets_the_watcher (s : ServiceState) (cm : ConfigManager)
    (t m : Z) (entry : option (gmap string ModelConf)) (k : kill_outcome) :
  config_mgr s = Some cm ->
  watch cm = true ->
  last_mtime cm < t ->
  let s1 := fst (watch_tick (StatMtime t) (FileLoaded m (YMapping entry)) k s) in
  fst (get_config s1) = default ∅ entry
  /\ process s1 = None
  /\ forall t' fs' k', t' <= m -> watch_tick (StatMtime t') fs' k' s1 = (s1, []).
Proof.
  intros Hcm Hw Ht. cbn zeta.
  rewrite (watch_tick_newer t _ k s cm Hcm Hw Ht). cbn [ConfigManager_reload fst].
  set (cm' := {| config_file := config_file cm; watch := watch cm;
                 models := default ∅ entry; last_mtime := m |}).
  pose proof (stop_config_mgr k (Some cm') s) as Hc.
  split; [unfold get_config; rewrite Hc; reflexivity|].
  split; [apply stop_process_none|].
  intros t' fs' k' Hle. unfold watch_tick. rewrite Hc. cbn [watch last_mtime cm'].
  rewrite Hw. destruct (Z.ltb_spec m t'); [lia | reflexivity].
Qed.

Lemma loaded_config_quiets_the_watcher_witness :
  let s := set_config_mgr
             (Some {| config_file := "config.yaml"; watch := true;
                      models := example_models; last_mtime := 1 |}) example_running in
  let s1 := fst (watch_tick (StatMtime 2)
                   (FileLoaded 2 (YMapping (Some {[ "c" := {[ "cmd" := "run" ]} ]})))
                   TermExited s) in
  fst (get_config s1) !! "a" = None
  /\ watch_tick (StatMtime 2) FileMissing TermExited s1 = (s1, []).
Proof.
  cbn zeta.
  destruct (loaded_config_quiets_the_watcher
              (set_config_mgr
                 (Some {| config_file := "config.yaml"; watch := true;
                          models := example_models; last_mtime := 1 |}) example_running)
              {| config_file := "config.yaml"; watch := true;
                 models := example_models; last_mtime := 1 |}
              2 2 (Some {[ "c" := {[ "cmd" := "run" ]} ]}) TermExited
              eq_refl eq_refl eq_refl) as (A & _ & C).
  split; [rewrite A; vm_compute; reflexivity | apply C; lia].
Defined.

(* --------------------------------------------------------------------- *)
(** ** Signals *)
(* --------------------------------------------------------------------- *)

Lemma signals_app a b : signals (a ++ b)%list = (signals a ++ signals b)%list.
Proof. apply List.filter_app. Qed.

Lemma stop_signals k s : orderly (process s) (signals (snd (_stop_process_unsafe k s))).
Proof.
  unfold _stop_process_unsafe. destruct (process s) as [p|]; [|left; reflexivity].
  cbn [snd]. unfold terminate. destruct (poll p) eqn:Ep; [left; reflexivity|].
  destruct k; [left; reflexivity | right; exists p; auto ..].
Qed.

Lemma reload_signals fs cm : signals (snd (ConfigManager_reload fs cm)) = [].
Proof. destruct fs as [| |m [e|]]; reflexivity. Qed.

Lemma start_signals key ctx env s :
  signals (snd (_start_model_server key ctx env s))
  = [] \/ signals (snd (_start_model_server key ctx env s))
          = signals (snd (_stop_process_unsafe (kill env) s)).
Proof.
  unfold _start_model_server.
  destruct (config_mgr s) as [cm|]; [|left; reflexivity].
  destruct (get_models cm !! key); [|left; reflexivity].
  destruct (_stop_process_unsafe (kill env) s) as [s1 eff].
  right. destruct (spawn env); cbn [snd].
  - change (signals (Print ?x :: ?l)) with (signals l).
    rewrite signals_app. cbn. apply app_nil_r.
  - reflexivity.
Qed.

Lemma signals_sleeps n : signals (repeat (Sleep 1) n) = [].
Proof. induction n; [reflexivity | exact IHn]. Qed.

(** Whatever the service is asked to do, the only process it signals is
    the backend that is current when the request arrives, and only while
    that backend has not exited: SIGTERM and a wait of five seconds, then at
    most one SIGKILL.  This holds for stop, start, a configuration change, a
    turn of the watcher, the shutdown of the service and a proxied
    request. *)
Theorem only_current_backend_is_signalled (s : ServiceState) (k : kill_outcome)
    (req : StartRequest) (env : start_env) (seen : stat_view) (fs : file_view)
    (path : string) (body : request_body) (penv : proxy_env) :
  orderly (process s) (signals (snd (stop_server k s)))
  /\ orderly (process s) (signals (snd (start_server req env s)))
  /\ orderly (process s) (signals (snd (on_config_change k s)))
  /\ orderly (process s) (signals (snd (watch_tick seen fs k s)))
  /\ orderly (process s) (signals (snd (lifespan_shutdown k s)))
  /\ orderly (process s) (signals (snd (proxy_to_llama path body penv s))).
Proof.
  assert (Hstart : forall key ctx e,
            orderly (process s) (signals (snd (_start_model_server key ctx e s)))).
  { intros key ctx e. destruct (start_signals key ctx e s) as [H|H]; rewrite H;
      [left; reflexivity | apply stop_signals]. }
  repeat split.
  - unfold stop_server. pose proof (stop_signals k s) as H.
    destruct (_stop_process_unsafe k s). exact H.
  - unfold start_server. pose proof (Hstart (model_key req) (req_ctx req) env) as H.
    destruct (_start_model_server (model_key req) (req_ctx req) env s) as [[[[e|e]|d] s'] eff];
      exact H.
  - unfold on_config_change. pose proof (stop_signals k s) as H.
    destruct (_stop_process_unsafe k s). exact H.
  - unfold watch_tick. destruct (config_mgr s) as [cm|]; [|left; reflexivity].
    destruct (watch cm); [|left; reflexivity].
    destruct seen as [|msg|t]; [left; reflexivity ..|].
    destruct (last_mtime cm <? t); [|left; reflexivity].
    pose proof (reload_signals fs cm) as Hr.
    destruct (ConfigManager_reload fs cm) as [cm' eff1]. cbn [snd] in Hr.
    unfold on_config_change.
    pose proof (stop_signals k (set_config_mgr (Some cm') s)) as H.
    destruct (_stop_process_unsafe k (set_config_mgr (Some cm') s)) as [s' eff2].
    cbn [snd] in *. change (signals (Print ?x :: ?l)) with (signals l).
    rewrite signals_app, Hr. exact H.
  - unfold lifespan_shutdown. destruct (process s) as [p|] eqn:E; [|left; reflexivity].
    pose proof (stop_signals k s) as H. rewrite E in H.
    destruct (_stop_process_unsafe k s). exact H.
  - unfold proxy_to_llama. destruct body as [|[m|]]; [left; reflexivity | | left; reflexivity].
    destruct m as [|c m]; [left; reflexivity|].
    assert (Ha : orderly (process s)
                   (signals (snd (auto_load (String c m) penv s)))).
    { unfold auto_load.
      destruct (negb (bool_decide (Some (String c m) = current_model s))
                || negb (is_running s)); [|left; reflexivity].
      pose proof (Hstart (String c m) None (start penv)) as H.
      destruct (_start_model_server (String c m) None (start penv) s)
        as [[[[e|e]|d] s'] eff]; exact H. }
    destruct (auto_load (String c m) penv s) as [[[failure|] s'] eff]; [exact Ha|].
    unfold await_ready_and_forward.
    destruct (wait_ready max_retries 0 (during_sleep penv) s') as [s'' retries].
    cbn [snd] in Ha.
    destruct (negb (ready s'')); cbn [snd]; rewrite signals_app, signals_sleeps, app_nil_r;
      exact Ha.
Qed.

(* --------------------------------------------------------------------- *)
(** ** Serving without a configuration *)
(* --------------------------------------------------------------------- *)

Lemma new_loads_nothing file w fs :
  loads_nothing fs -> get_models (fst (ConfigManager_new file w fs)) = ∅.
Proof.
  unfold ConfigManager_new. destruct fs as [| |m [[e|]|]]; cbn; intros H;
    solve [reflexivity | exact H].
Qed.

(** When the service starts and the configuration file is missing, cannot
    be read or parsed, holds a document that is not a mapping or has no
    "models" key, or holds an empty "models" mapping, it serves all the
    same: the configuration route lists no model, every start is answered
    404 and every proxied request that names a model is answered 404, the
    state staying as it is. *)
Theorem no_config_serves_no_model (ctx : Z) (hst file : string) (w : bool)
    (fs : file_view) (req : StartRequest) (env : start_env)
    (path m : string) (penv : proxy_env) :
  loads_nothing fs ->
  m <> "" ->
  let s := main ctx hst file w fs in
  fst (get_config s) = ∅
  /\ start_server req env s = (HTTPException 404 "Model not found in config", s, [])
  /\ proxy_to_llama path (Json (Some m)) penv s
     = (HTTPException 404 ("Model " ++ m ++ " not found"), s,
        [Print ("[Proxy] Auto-loading model: " ++ m)]).
Proof.
  intros Hfs Hm. cbn zeta.
  pose proof (new_loads_nothing file w fs Hfs) as He.
  assert (Hs : forall key c e,
            _start_model_server key c e (main ctx hst file w fs)
            = (inl (ValueError "Model not found in config"), main ctx hst file w fs, [])).
  { intros key c e.
    apply (start_unknown_key_plain key c e (main ctx hst file w fs)
             (fst (ConfigManager_new file w fs)) eq_refl).
    rewrite He. apply lookup_empty. }
  split; [exact He|]. split.
  - unfold start_server. rewrite Hs. reflexivity.
  - destruct m as [|c m]; [congruence|].
    unfold proxy_to_llama, auto_load. cbn [main current_model].
    rewrite bool_decide_eq_false_2 by discriminate. cbn [negb orb].
    fold (main ctx hst file w fs). rewrite Hs. reflexivity.
Qed.

Lemma no_config_serves_no_model_witness :
  let s := main 4096 "localhost" "config.yaml" false FileMissing in
  start_server {| model_key := "a"; req_ctx := None |} (example_env 40001 100) s
  = (HTTPException 404 "Model not found in config", s, []).
Proof.
  cbn zeta.
  apply (no_config_serves_no_model 4096 "localhost" "config.yaml" false FileMissing
           {| model_key := "a"; req_ctx := None |} (example_env 40001 100)
           "/v1/completions" "a" example_proxy_env I ltac:(discriminate)).
Defined.
